(** * Wake-and-focus reconciliation: a shallow embedding

    The development follows the two programs of the repository:

    - [scripts/wake_focus_sync.py], the historical-range reconciler
      (module [Sync] below), and
    - [wake_focus_sync.py], the older single-day reconciler (module [Today]).

    Datapoints are the JSON objects the Beeminder API delivers.  Only the six
    keys the programs read are kept.  Keys the programs treat as text
    ([id], [daystamp], [comment]: see the annotations [dp_id: str],
    [dict[str, list[dict]]], [comment: Optional[str]]) are [option string],
    [None] standing for an absent key; keys the programs inspect dynamically
    ([timestamp], [updated_at], [value]) are Python scalars.  Floats are
    rationals: NaN, infinities and rounding of huge integers are outside the
    model.  Dates are proleptic day ordinals in [Z] ([date.toordinal]); the
    subtraction of the window length in [main] raises [OverflowError] as
    in Python ([date_minus_days]), while the overflow of
    [date.max + timedelta(days=1)] in [daterange], which needs today to be
    [date.max], is outside the model.
    Library functions whose behaviour depends on the platform (the regular
    expression engine, ISO-8601 parsing, the time-zone database, [strftime],
    [float(str)]) are the fields of the class [Platform]. *)

From Stdlib Require Import ZArith QArith Qround List String Ascii Bool Lia.
From Stdlib Require Import Permutation DecimalString.
From Stdlib Require Import Sorted.
From Stdlib Require OrderedTypeEx.
Import ListNotations.
Open Scope string_scope.
Open Scope list_scope.
Open Scope Z_scope.

(** ** Python scalars *)

Inductive pyval : Type :=
| PNone
| PBool (b : bool)
| PInt (z : Z)
| PFloat (q : Q)
| PStr (s : string).

(** [isinstance(v, (int, float))] together with [float(v)]; [bool] is a
    subclass of [int]. *)
Definition as_number (v : pyval) : option Q :=
  match v with
  | PBool b => Some (if b then 1%Q else 0%Q)
  | PInt z => Some (inject_Z z)
  | PFloat q => Some q
  | PNone | PStr _ => None
  end.

(** Truth value of an optional string: [None] and [""] are falsy. *)
Definition truthy (o : option string) : bool :=
  match o with
  | Some s => negb (s =? "")%string
  | None => false
  end.

(** [x or ""] for an optional string. *)
Definition or_empty (o : option string) : string :=
  match o with
  | Some s => s
  | None => ""
  end.

(** Python's [round] on a float: nearest integer, ties to the even one. *)
Definition py_round (q : Q) : Z :=
  let f := Qfloor q in
  match Qcompare (q - inject_Z f) (1 # 2) with
  | Lt => f
  | Gt => f + 1
  | Eq => if Z.even f then f else f + 1
  end.

Definition Qltb (a b : Q) : bool :=
  match Qcompare a b with
  | Lt => true
  | _ => false
  end.

(** [str(n)] for an integer. *)
Definition str_of_Z (z : Z) : string := NilZero.string_of_int (Z.to_int z).

(** [s.replace("Z", "+00:00")]. *)
Fixpoint replace_Z (s : string) : string :=
  match s with
  | EmptyString => EmptyString
  | String c s' =>
      if Ascii.eqb c "Z"%char then ("+00:00" ++ replace_Z s')%string
      else String c (replace_Z s')
  end.

(** ** Datapoints, dates and the platform *)

Record datapoint : Type := {
  dp_id : option string;
  dp_daystamp : option string;
  dp_timestamp : pyval;
  dp_updated_at : pyval;
  dp_value : pyval;
  dp_comment : option string
}.

(** A [datetime.date] as its proleptic Gregorian ordinal. *)
Definition date : Type := Z.

Class Platform : Type := {
  (** [COMMENT_RE.search(s)] followed by [int] on the three groups. *)
  comment_re_groups : string -> option (Z * Z * Z);
  (** [datetime.fromisoformat(s).timestamp()]; [None] when it raises. *)
  fromisoformat_timestamp : string -> option Q;
  (** [datetime.fromtimestamp(ts, tz=timezone.utc).astimezone(LOCAL_TZ).date()];
      [None] when the timestamp is out of range. *)
  local_date_of_timestamp : Q -> option date;
  (** [d.strftime("%Y%m%d")]. *)
  strftime_Ymd : date -> string;
  (** [float(s)] on a string; [None] when it raises [ValueError]. *)
  float_of_str : string -> option Q
}.

(** ** Constants shared by both programs *)

Definition FOCUSMATE_GOAL : string := "focusmate".
Definition WAKEANDFOCUS_GOAL : string := "wakeandfocus".
Definition MIN_SESSION_MINUTES : Z := 50.
Definition CUTOFF_HOUR : Z := 9.
Definition CUTOFF_MINUTE : Z := 15.

(** ** Exceptions and results *)

Inductive exn : Type :=
| RuntimeError (msg : string)
| HTTPError (status : Z) (body : string)
| TypeError
| OverflowError
| AttributeError
| KeyError (key : string)
| IntegrityError.

Inductive outcome (A : Type) : Type :=
| Ok (a : A)
| Raise (e : exn)
| OutOfFuel.
Arguments Ok {A} a.
Arguments Raise {A} e.
Arguments OutOfFuel {A}.

Definition obind {A B} (m : outcome A) (k : A -> outcome B) : outcome B :=
  match m with
  | Ok a => k a
  | Raise e => Raise e
  | OutOfFuel => OutOfFuel
  end.

(** ** Code that is identical in both programs: comment parser,
    qualification rule, canonical comment and the keeper's value *)

Section Shared.
Context {P : Platform}.

Definition parse_comment_for_length_and_time (comment : option string)
  : option (Z * Z * Z) :=
  match comment_re_groups (or_empty comment) with
  | None => None
  | Some (minutes, hour, minute) =>
      if negb ((0 <=? hour) && (hour <=? 23) && (0 <=? minute) && (minute <=? 59))
      then None
      else Some (minutes, hour, minute)
  end.

Definition qualifies_time (hour minute : Z) : bool :=
  (hour <? CUTOFF_HOUR) || ((hour =? CUTOFF_HOUR) && (minute <=? CUTOFF_MINUTE)).

(** The canonical comment
    [f"Auto: SoT={int(sot_val)} for {ds} (≥50m by 09:15 check)."]. *)
Definition comment_ok (sot_val : Z) (ds : string) : string :=
  ("Auto: SoT=" ++ str_of_Z sot_val ++ " for " ++ ds
     ++ " (≥50m by 09:15 check).")%string.

(** [float(keeper.get("value", 0))] under [try / except Exception]. *)
Definition keeper_value (keeper : datapoint) : Q :=
  match dp_value keeper with
  | PNone => 0%Q
  | PStr s => match float_of_str s with Some q => q | None => 0%Q end
  | v => match as_number v with Some q => q | None => 0%Q end
  end.

(** A record qualifies: its comment parses, the session lasted at least
    50 minutes and started at or before 09:15. *)
Definition qualifying (dp : datapoint) : Prop :=
  exists minutes hour minute,
    parse_comment_for_length_and_time (dp_comment dp) = Some (minutes, hour, minute)
    /\ 50 <= minutes /\ (hour < 9 \/ (hour = 9 /\ minute <= 15)).
End Shared.

(** ** Ordered dictionaries ([dict], [defaultdict(list)]) with text keys *)

Fixpoint dict_get {V : Type} (k : string) (d : list (string * V)) : option V :=
  match d with
  | [] => None
  | (k', v) :: d' => if (k' =? k)%string then Some v else dict_get k d'
  end.

(** [d[k] = v]: overwrite in place, or insert at the end. *)
Fixpoint dict_set {V : Type} (k : string) (v : V) (d : list (string * V))
  : list (string * V) :=
  match d with
  | [] => [(k, v)]
  | (k', v') :: d' =>
      if (k' =? k)%string then (k', v) :: d' else (k', v') :: dict_set k v d'
  end.

(** [d[k].append(x)] on a [defaultdict(list)]. *)
Fixpoint dict_append {V : Type} (k : string) (x : V) (d : list (string * list V))
  : list (string * list V) :=
  match d with
  | [] => [(k, [x])]
  | (k', xs) :: d' =>
      if (k' =? k)%string then (k', xs ++ [x]) :: d' else (k', xs) :: dict_append k x d'
  end.

Definition dict_keys {V : Type} (d : list (string * V)) : list string := map fst d.

Definition mem_string (k : string) (ks : list string) : bool :=
  existsb (fun k' => (k' =? k)%string) ks.

(** ** Stable sorting

    [insert_sorted before x l] puts [x], which came earlier than every
    element of [l] in the input, in front of the first element that need
    not precede it; [py_sorted] is therefore stable, as Python's [sorted]
    is with and without [reverse=True]. *)

Fixpoint insert_sorted {A : Type} (before : A -> A -> bool) (x : A) (l : list A)
  : list A :=
  match l with
  | [] => [x]
  | y :: l' => if before y x then y :: insert_sorted before x l' else x :: l
  end.

Definition py_sorted {A : Type} (before : A -> A -> bool) (l : list A) : list A :=
  fold_right (insert_sorted before) [] l.

(** Strict order on the [(daystamp, value)] pairs of [sorted(sot_map.items())]. *)
Definition item_lt (a b : string * Z) : bool :=
  match String.compare (fst a) (fst b) with
  | Lt => true
  | Eq => snd a <? snd b
  | Gt => false
  end.

(** ** HTTP traffic *)

Inductive request : Type :=
| GET (goal : string) (page : option Z) (per_page : Z)
| POST (goal : string) (value : Z) (comment : string) (daystamp : option string)
       (requestid : option string)
| PUT (goal dp_id : string) (value : Z) (comment : string)
      (daystamp : option string)
| DELETE (goal dp_id : string).

Inductive json : Type :=
| JArray (items : list datapoint)
| JObject (fields : list (string * pyval)).

Record response : Type := {
  status_code : Z;
  text : string;
  body : json
}.

(** The remote service: any state machine answering requests. *)
Class Remote : Type := {
  remote_state : Type;
  serve : request -> remote_state -> response * remote_state
}.

(** [resp.raise_for_status()] raises on 4xx and 5xx. *)
Definition raises_for_status (resp : response) : bool :=
  (400 <=? status_code resp) && (status_code resp <? 600).

Definition is_mutation (r : request) : bool :=
  match r with
  | GET _ _ _ => false
  | _ => true
  end.

Definition is_POST (r : request) : bool :=
  match r with POST _ _ _ _ _ => true | _ => false end.

Definition is_PUT (r : request) : bool :=
  match r with PUT _ _ _ _ _ => true | _ => false end.

Definition is_DELETE (r : request) : bool :=
  match r with DELETE _ _ => true | _ => false end.

(** ** The run-time world and its monad *)

Section World.
Context {R : Remote}.

Record world : Type := {
  remote : remote_state;
  sent : list request;                      (* requests issued so far *)
  sot_db : list (string * (Z * string))     (* table [records] *)
}.

Definition M (A : Type) : Type := world -> outcome A * world.

Definition ret {A} (a : A) : M A := fun w => (Ok a, w).

Definition bind {A B} (m : M A) (k : A -> M B) : M B :=
  fun w =>
    match m w with
    | (Ok a, w') => k a w'
    | (Raise e, w') => (Raise e, w')
    | (OutOfFuel, w') => (OutOfFuel, w')
    end.

Definition raise {A} (e : exn) : M A := fun w => (Raise e, w).

Definition lift {A} (o : outcome A) : M A := fun w => (o, w).

(** [requests.get / post / put / delete]. *)
Definition http (r : request) : M response :=
  fun w =>
    let (resp, s) := serve r (remote w) in
    (Ok resp, {| remote := s; sent := sent w ++ [r]; sot_db := sot_db w |}).

(** [for x in l: body(x)]. *)
Fixpoint for_each {A} (l : list A) (body : A -> M unit) : M unit :=
  match l with
  | [] => ret tt
  | x :: l' => bind (body x) (fun _ => for_each l' body)
  end.
End World.

Declare Scope monad_scope.
Delimit Scope monad_scope with monad.
Notation "x <- m ;; k" := (bind m (fun x => k))
  (at level 61, m at next level, right associativity) : monad_scope.
Notation "m ;; k" := (bind m (fun _ => k))
  (at level 61, right associativity) : monad_scope.

(** ** Process configuration (the module-level globals read from the
    environment) *)

Record Config : Type := {
  USERNAME : string;
  AUTH_TOKEN : option string;
  DRY_RUN : bool;
  DEBUG : bool;
  FULL_HISTORY : bool;
  STRICT_PURGE : bool;
  HISTORY_DAYS : Z
}.

(** * [scripts/wake_focus_sync.py] *)

Module Sync.
Section Program.
Context {P : Platform} {R : Remote}.
Variable cfg : Config.
Local Open Scope monad_scope.

Definition _dp_updated_key (dp : datapoint) : Q :=
  let parsed :=
    match dp_updated_at dp with
    | PStr u => fromisoformat_timestamp (replace_Z u)
    | _ => None
    end in
  match parsed with
  | Some stamp => stamp
  | None =>
      match as_number (dp_timestamp dp) with
      | Some t => t
      | None => 0%Q
      end
  end.

(** The order of [sorted(..., key=_dp_updated_key, reverse=True)]:
    [a] goes before [b] when its key is strictly larger. *)
Definition newer (a b : datapoint) : bool :=
  Qltb (_dp_updated_key b) (_dp_updated_key a).

(** ** API helpers *)

Definition _need_auth : M unit :=
  if negb (truthy (AUTH_TOKEN cfg)) && negb (DRY_RUN cfg)
  then raise (RuntimeError "BM_AUTH_TOKEN is not set")
  else ret tt.

Definition http_failure (verb what : string) (resp : response) : exn :=
  RuntimeError
    (verb ++ " " ++ what ++ " -> " ++ str_of_Z (status_code resp) ++ ": "
       ++ text resp)%string.

(** The [while True] loop of [fetch_all_datapoints]; a JSON object in
    place of the expected array is reported where the caller would first
    touch its elements. *)
Fixpoint fetch_pages (fuel : nat) (goal : string) (page : Z)
         (results : list datapoint) : M (list datapoint) :=
  match fuel with
  | O => lift OutOfFuel
  | S fuel' =>
      resp <- http (GET goal (Some page) 100) ;;
      if raises_for_status resp
      then raise (http_failure "GET" (goal ++ " page " ++ str_of_Z page) resp)
      else
        match body resp with
        | JObject [] => ret results
        | JObject (_ :: _) => raise AttributeError
        | JArray [] => ret results
        | JArray batch =>
            let results := results ++ batch in
            if Z.of_nat (List.length batch) <? 100 then ret results
            else fetch_pages fuel' goal (page + 1) results
        end
  end.

Definition fetch_all_datapoints (fuel : nat) (goal : string)
  : M (list datapoint) :=
  _need_auth ;;
  if DRY_RUN cfg then ret []
  else fetch_pages fuel goal 1 [].

Definition add_datapoint (goal : string) (value : Z) (comment daystamp : string)
           (requestid : option string) : M json :=
  if DRY_RUN cfg then ret (JObject [])
  else
    resp <- http (POST goal value comment (Some daystamp)
                       (if truthy requestid then requestid else None)) ;;
    if raises_for_status resp
    then raise (http_failure "POST" (goal ++ " " ++ daystamp) resp)
    else ret (body resp).

Definition update_datapoint (goal dp_id : string) (value : Z) (comment : string)
           (daystamp : option string) : M json :=
  if DRY_RUN cfg then ret (JObject [])
  else
    resp <- http (PUT goal dp_id value comment
                      (if truthy daystamp then daystamp else None)) ;;
    if raises_for_status resp
    then raise (http_failure "PUT" (goal ++ " " ++ dp_id) resp)
    else ret (body resp).

Definition delete_datapoint (goal dp_id : string) : M bool :=
  if DRY_RUN cfg then ret true
  else
    resp <- http (DELETE goal dp_id) ;;
    if raises_for_status resp
    then raise (http_failure "DELETE" (goal ++ " " ++ dp_id) resp)
    else ret true.

(** ** SoT over a date range *)

Fixpoint daterange_loop (n : nat) (cur end_ : date) : list date :=
  match n with
  | O => []
  | S n' => if cur <=? end_ then cur :: daterange_loop n' (cur + 1) end_ else []
  end.

(** [while cur <= end: yield cur; cur += 1 day]; the loop runs
    [end - start + 1] times when that is positive. *)
Definition daterange (start end_ : date) : list date :=
  daterange_loop (Z.to_nat (end_ - start + 1)) start end_.

(** The day a datapoint is filed under by the bucketing loops:
    [Ok None] is [continue]. *)
Definition bucket_day (dp : datapoint) : outcome (option string) :=
  if truthy (dp_daystamp dp) then Ok (dp_daystamp dp)
  else
    match dp_timestamp dp with
    | PNone => Ok None
    | ts =>
        match as_number ts with
        | None => Raise TypeError
        | Some q =>
            match local_date_of_timestamp q with
            | None => Raise OverflowError
            | Some d => Ok (Some (strftime_Ymd d))
            end
        end
    end.

(** [for dp in dps: ... by_day[ds].append(dp)]. *)
Fixpoint bucket_by_day (dps : list datapoint)
         (by_day : list (string * list datapoint))
  : outcome (list (string * list datapoint)) :=
  match dps with
  | [] => Ok by_day
  | dp :: dps' =>
      match bucket_day dp with
      | Ok None => bucket_by_day dps' by_day
      | Ok (Some ds) => bucket_by_day dps' (dict_append ds dp by_day)
      | Raise e => Raise e
      | OutOfFuel => OutOfFuel
      end
  end.

(** The inner loop over one day's records, with its [continue] and
    [break]. *)
Fixpoint day_value (dps : list datapoint) : Z :=
  match dps with
  | [] => 0
  | dp :: dps' =>
      match parse_comment_for_length_and_time (dp_comment dp) with
      | None => day_value dps'
      | Some (minutes, hour, minute) =>
          if (MIN_SESSION_MINUTES <=? minutes) && qualifies_time hour minute
          then 1
          else day_value dps'
      end
  end.

Definition dict_get_default {V} (k : string) (d : list (string * list V)) : list V :=
  match dict_get k d with
  | Some xs => xs
  | None => []
  end.

Fixpoint sot_loop (by_day : list (string * list datapoint)) (days : list date)
         (out : list (string * Z)) : list (string * Z) :=
  match days with
  | [] => out
  | d :: days' =>
      let ds := strftime_Ymd d in
      sot_loop by_day days' (dict_set ds (day_value (dict_get_default ds by_day)) out)
  end.

Definition compute_sot_for_range (focusmate_dps : list datapoint)
           (start_date end_date : date) : outcome (list (string * Z)) :=
  obind (bucket_by_day focusmate_dps [])
        (fun by_day => Ok (sot_loop by_day (daterange start_date end_date) [])).

(** ** SQLite helpers *)

(** One [conn.execute(UPSERT_SOT_SQL, (ds, int(v), now))] on the table as
    the open transaction sees it: the row is inserted or overwritten; the
    [CHECK(value IN (0,1))] of the table rejects any other value with an
    integrity error, and the statement then changes nothing. *)
Definition execute_upsert (ds : string) (v : Z) (now : string)
           (table : list (string * (Z * string)))
  : outcome (list (string * (Z * string))) :=
  if (v =? 0) || (v =? 1) then Ok (dict_set ds (v, now) table)
  else Raise IntegrityError.

(** [for ds, v in mapping.items(): conn.execute(...)]: the rows are
    written one after the other, and the loop ends at the first statement
    that raises. *)
Fixpoint upsert_loop (items : list (string * Z)) (now : string)
         (table : list (string * (Z * string)))
  : outcome (list (string * (Z * string))) :=
  match items with
  | [] => Ok table
  | (ds, v) :: items' =>
      obind (execute_upsert ds v now table) (upsert_loop items' now)
  end.

(** [with conn: body]: the body works on the table of a transaction; the
    transaction is committed when the body returns and rolled back when it
    raises, and the exception goes on to the caller. *)
Definition with_conn {A}
           (body : list (string * (Z * string))
                   -> outcome (A * list (string * (Z * string))))
  : M A :=
  fun w =>
    match body (sot_db w) with
    | Ok (a, table) =>
        (Ok a, {| remote := remote w; sent := sent w; sot_db := table |})
    | Raise e => (Raise e, w)
    | OutOfFuel => (OutOfFuel, w)
    end.

Definition sot_upsert_bulk (mapping : list (string * Z)) (now : string) : M unit :=
  with_conn (fun table =>
               obind (upsert_loop mapping now table)
                     (fun table' => Ok (tt, table'))).

Definition sot_load_all : M (list (string * Z)) :=
  fun w => (Ok (map (fun row => (fst row, fst (snd row))) (sot_db w)), w).

(** ** Reconciliation across history *)

Definition delete_if_id (dp : datapoint) : M unit :=
  match dp_id dp with
  | Some dp_id =>
      if truthy (Some dp_id) then delete_datapoint WAKEANDFOCUS_GOAL dp_id ;; ret tt
      else ret tt
  | None => ret tt
  end.

(** The body of the loop [for ds, sot_val in sorted(sot_map.items())]. *)
Definition reconcile_day (wf_by_day : list (string * list datapoint))
           (item : string * Z) : M unit :=
  let (ds, sot_val) := item in
  let comment_ok := comment_ok sot_val ds in
  let existing :=
    py_sorted newer (dict_get_default ds wf_by_day) in
  match existing with
  | [] =>
      let reqid := (WAKEANDFOCUS_GOAL ++ "-" ++ ds ++ "-sot-v1")%string in
      add_datapoint WAKEANDFOCUS_GOAL sot_val comment_ok ds (Some reqid) ;;
      ret tt
  | keeper :: extras =>
      for_each extras delete_if_id ;;
      let needs_value := negb (py_round (keeper_value keeper) =? sot_val) in
      let needs_comment :=
        negb (or_empty (dp_comment keeper) =? comment_ok)%string in
      if needs_value || needs_comment then
        match dp_id keeper with
        | Some kp_id =>
            if truthy (Some kp_id) then
              update_datapoint WAKEANDFOCUS_GOAL kp_id sot_val comment_ok (Some ds) ;;
              ret tt
            else ret tt
        | None => ret tt
        end
      else ret tt
  end.

(** The block under [if STRICT_PURGE:]. *)
Definition strict_purge (sot_map : list (string * Z))
           (wf_by_day : list (string * list datapoint)) : M unit :=
  let sot_days := dict_keys sot_map in
  for_each wf_by_day
    (fun entry =>
       let (ds, dps) := entry in
       if negb (mem_string ds sot_days) then for_each dps delete_if_id
       else ret tt).

Definition reconcile_history (fuel : nat) (sot_map : list (string * Z)) : M unit :=
  wf_all <- fetch_all_datapoints fuel WAKEANDFOCUS_GOAL ;;
  wf_by_day <- lift (bucket_by_day wf_all []) ;;
  for_each (py_sorted item_lt sot_map) (reconcile_day wf_by_day) ;;
  if STRICT_PURGE cfg then strict_purge sot_map wf_by_day else ret tt.

(** ** Main *)

(** [min(timestamps)]: the first minimal element. *)
Definition py_min (x : Q) (l : list Q) : Q :=
  fold_left (fun m y => if Qltb y m then y else m) l x.

(** [[dp.get("timestamp") for dp in fm_all if isinstance(..., (int, float))]]. *)
Fixpoint numeric_timestamps (dps : list datapoint) : list Q :=
  match dps with
  | [] => []
  | dp :: dps' =>
      match as_number (dp_timestamp dp) with
      | Some t => t :: numeric_timestamps dps'
      | None => numeric_timestamps dps'
      end
  end.

(** [date.min] and [date.max] as ordinals, and the largest number of days
    a [timedelta] holds. *)
Definition DATE_MIN : Z := 1.
Definition DATE_MAX : Z := 3652059.
Definition TIMEDELTA_MAX_DAYS : Z := 999999999.

(** [d - timedelta(days=n)]: [OverflowError] when [timedelta] refuses the
    number of days or when the result leaves [date.min .. date.max]. *)
Definition date_minus_days (d : date) (n : Z) : outcome date :=
  if (Z.abs n <=? TIMEDELTA_MAX_DAYS)
     && (DATE_MIN <=? d - n) && (d - n <=? DATE_MAX)
  then Ok (d - n)
  else Raise OverflowError.

(** The window of [days] days that ends [today] can be computed: the
    subtraction in [main] does not overflow. *)
Definition window_fits (today : date) (days : Z) : Prop :=
  Z.abs (days - 1) <= TIMEDELTA_MAX_DAYS
  /\ DATE_MIN <= today - (days - 1) <= DATE_MAX.

(** The block "Determine range" of [main]: the start date, the end date
    and the fetched Focusmate datapoints; [today] is
    [datetime.now(LOCAL_TZ).date()].  In trailing-window mode the start
    date is computed before the fetch. *)
Definition determine_range (fuel : nat) (today : date)
  : M (date * date * list datapoint) :=
  let end_date := today in
  if FULL_HISTORY cfg then
    fm_all <- fetch_all_datapoints fuel FOCUSMATE_GOAL ;;
    match numeric_timestamps fm_all with
    | t :: ts =>
        let earliest_ts := py_min t ts in
        match local_date_of_timestamp earliest_ts with
        | Some start_date => ret (start_date, end_date, fm_all)
        | None => raise OverflowError
        end
    | [] => ret (end_date, end_date, fm_all)
    end
  else
    start_date <- lift (date_minus_days end_date (HISTORY_DAYS cfg - 1)) ;;
    fm_all <- fetch_all_datapoints fuel FOCUSMATE_GOAL ;;
    ret (start_date, end_date, fm_all).

Definition main_body (fuel : nat) (today : date) (now : string) : M unit :=
  range <- determine_range fuel today ;;
  let '(start_date, end_date, fm_all) := range in
  sot_map <- lift (compute_sot_for_range fm_all start_date end_date) ;;
  sot_upsert_bulk sot_map now ;;
  reconcile_history fuel sot_map.

(** [main]: the exit status; any exception is reported and becomes
    [sys.exit(1)]. *)
Definition main (fuel : nat) (today : date) (now : string) : M Z :=
  fun w =>
    match main_body fuel today now w with
    | (Ok _, w') => (Ok 0, w')
    | (Raise _, w') => (Ok 1, w')
    | (OutOfFuel, w') => (OutOfFuel, w')
    end.
End Program.
End Sync.

(** * [wake_focus_sync.py], the single-day program *)

(** Truth value of a scalar. *)
Definition pyval_truthy (v : pyval) : bool :=
  match v with
  | PNone => false
  | PBool b => b
  | PInt z => negb (z =? 0)
  | PFloat q => negb (Qeq_bool q 0)
  | PStr s => negb (s =? "")%string
  end.

(** [a or b]. *)
Definition py_or (a b : pyval) : pyval := if pyval_truthy a then a else b.

(** [a < b] between two sort keys: numbers compare with numbers and text
    with text; anything else raises [TypeError]. *)
Definition pyval_lt (a b : pyval) : option bool :=
  match a, b with
  | PStr s, PStr t => Some (String.ltb s t)
  | _, _ =>
      match as_number a, as_number b with
      | Some x, Some y => Some (Qltb x y)
      | _, _ => None
      end
  end.

Module Today.
Section Program.
Context {P : Platform} {R : Remote}.
Variable cfg : Config.
Local Open Scope monad_scope.

Definition get_datapoints_for_goal (goal : string) : M (list datapoint) :=
  if negb (truthy (AUTH_TOKEN cfg)) && negb (DRY_RUN cfg)
  then raise (RuntimeError "BM_AUTH_TOKEN is not set")
  else if DRY_RUN cfg then ret []
  else
    resp <- http (GET goal None 100) ;;
    if raises_for_status resp
    then raise (HTTPError (status_code resp) (text resp))
    else
      match body resp with
      | JArray items => ret items
      | JObject [] => ret []
      | JObject (_ :: _) => raise AttributeError
      end.

Definition add_datapoint (goal : string) (value : Z) (comment : string)
           (requestid : option string) : M json :=
  if DRY_RUN cfg then ret (JObject [])
  else
    resp <- http (POST goal value comment None
                       (if truthy requestid then requestid else None)) ;;
    if raises_for_status resp
    then raise (HTTPError (status_code resp) (text resp))
    else ret (body resp).

Definition update_datapoint (goal dp_id : string) (value : Z) (comment : string)
  : M json :=
  if DRY_RUN cfg then ret (JObject [])
  else
    resp <- http (PUT goal dp_id value comment None) ;;
    if raises_for_status resp
    then raise (HTTPError (status_code resp) (text resp))
    else ret (body resp).

Definition delete_datapoint (goal dp_id : string) : M bool :=
  if DRY_RUN cfg then ret true
  else
    resp <- http (DELETE goal dp_id) ;;
    if raises_for_status resp
    then raise (HTTPError (status_code resp) (text resp))
    else ret true.

(** [[dp for dp in dps if dp.get("daystamp") == today]]. *)
Definition on_day (day : string) (dps : list datapoint) : list datapoint :=
  filter (fun dp => match dp_daystamp dp with
                    | Some ds => (ds =? day)%string
                    | None => false
                    end) dps.

(** The loop of [compute_today_outcome] with its early [return 1]. *)
Fixpoint first_qualifying (todays : list datapoint) : Z :=
  match todays with
  | [] => 0
  | dp :: todays' =>
      match parse_comment_for_length_and_time (dp_comment dp) with
      | None => first_qualifying todays'
      | Some (minutes, hour, minute) =>
          if (MIN_SESSION_MINUTES <=? minutes) && qualifies_time hour minute
          then 1
          else first_qualifying todays'
      end
  end.

(** [today] is [today_daystamp(LOCAL_TZ)]. *)
Definition compute_today_outcome (today : string) : M Z :=
  dps <- get_datapoints_for_goal FOCUSMATE_GOAL ;;
  ret (first_qualifying (on_day today dps)).

(** The key [dp.get("updated_at") or dp.get("timestamp") or 0]. *)
Definition sort_key (dp : datapoint) : pyval :=
  py_or (py_or (dp_updated_at dp) (dp_timestamp dp)) (PInt 0).

Definition key_newer (a b : datapoint) : bool :=
  match pyval_lt (sort_key b) (sort_key a) with
  | Some r => r
  | None => false
  end.

Definition is_text (v : pyval) : bool :=
  match v with
  | PStr _ => true
  | _ => false
  end.

(** [todays.sort(key=..., reverse=True)]: a list of two or more records
    whose keys mix text and numbers makes a comparison raise. *)
Definition sort_todays (todays : list datapoint) : outcome (list datapoint) :=
  match todays with
  | [] | [_] => Ok todays
  | dp :: _ =>
      if forallb (fun x => Bool.eqb (is_text (sort_key x)) (is_text (sort_key dp)))
                 todays
      then Ok (py_sorted key_newer todays)
      else Raise TypeError
  end.

(** [dp["id"]]. *)
Definition item_id (dp : datapoint) : M string :=
  match dp_id dp with
  | Some i => ret i
  | None => raise (KeyError "id")
  end.

Definition reconcile_beeminder_with_sot (daystamp : string) (sot_value : Z)
  : M unit :=
  dps <- get_datapoints_for_goal WAKEANDFOCUS_GOAL ;;
  todays <- lift (sort_todays (on_day daystamp dps)) ;;
  let comment_ok := comment_ok sot_value daystamp in
  match todays with
  | [] =>
      let requestid := (WAKEANDFOCUS_GOAL ++ "-" ++ daystamp ++ "-sot-v1")%string in
      add_datapoint WAKEANDFOCUS_GOAL sot_value comment_ok (Some requestid) ;;
      ret tt
  | keeper :: extras =>
      for_each extras
        (fun dp => i <- item_id dp ;; delete_datapoint WAKEANDFOCUS_GOAL i ;; ret tt) ;;
      if negb (py_round (keeper_value keeper) =? sot_value) then
        i <- item_id keeper ;;
        update_datapoint WAKEANDFOCUS_GOAL i sot_value comment_ok ;; ret tt
      else if negb (or_empty (dp_comment keeper) =? comment_ok)%string then
        i <- item_id keeper ;;
        update_datapoint WAKEANDFOCUS_GOAL i sot_value comment_ok ;; ret tt
      else ret tt
  end.

(** [sot_get]: the value stored for the day, or [None]. *)
Definition sot_get (daystamp : string) : M (option Z) :=
  fun w => (Ok (option_map fst (dict_get daystamp (sot_db w))), w).

(** [sot_set]: the upsert of one row at time [now]; the table's
    [CHECK(value IN (0,1))] rejects any other value. *)
Definition sot_set (daystamp : string) (value : Z) (now : string) : M unit :=
  fun w =>
    if (value =? 0) || (value =? 1)
    then (Ok tt,
          {| remote := remote w; sent := sent w;
             sot_db := dict_set daystamp (value, now) (sot_db w) |})
    else (Raise IntegrityError, w).

(** [main]: the exit status.  [daystamp] is the day read by [main] itself
    and [today] the day read inside [compute_today_outcome]; [now] is the
    time of the upsert. *)
Definition main (daystamp today now : string) : M Z :=
  fun w =>
    match (outcome <- compute_today_outcome today ;;
           sot_set daystamp outcome now ;;
           reconcile_beeminder_with_sot daystamp outcome) w with
    | (Ok _, w') => (Ok 0, w')
    | (Raise _, w') => (Ok 1, w')
    | (OutOfFuel, w') => (OutOfFuel, w')
    end.
End Program.
End Today.

(** * The requests of a reconciliation run, as a list

    [reconcile_history] decides every request from the datapoints it fetched
    at the start; the functions below collect those requests.  They are
    related to the program by [Sync.reconcile_history] itself in the
    results ([reconcile_history_sends]). *)

Section Planned.
Context {P : Platform}.

(** The datapoint is filed under [ds] by the bucketing loop. *)
Definition in_day (ds : string) (dp : datapoint) : bool :=
  match Sync.bucket_day dp with
  | Ok (Some d) => (d =? ds)%string
  | _ => false
  end.

Definition delete_requests (dps : list datapoint) : list request :=
  flat_map (fun dp =>
              match dp_id dp with
              | Some i => if truthy (Some i) then [DELETE WAKEANDFOCUS_GOAL i] else []
              | None => []
              end) dps.

Definition needs_update (sot_val : Z) (ds : string) (keeper : datapoint) : bool :=
  negb (py_round (keeper_value keeper) =? sot_val)
  || negb (or_empty (dp_comment keeper) =? comment_ok sot_val ds)%string.

Definition update_requests (sot_val : Z) (ds : string) (keeper : datapoint)
  : list request :=
  if needs_update sot_val ds keeper then
    match dp_id keeper with
    | Some i =>
        if truthy (Some i)
        then [PUT WAKEANDFOCUS_GOAL i sot_val (comment_ok sot_val ds)
                  (if truthy (Some ds) then Some ds else None)]
        else []
    | None => []
    end
  else [].

Definition create_request (sot_val : Z) (ds : string) : request :=
  POST WAKEANDFOCUS_GOAL sot_val (comment_ok sot_val ds) (Some ds)
       (Some (WAKEANDFOCUS_GOAL ++ "-" ++ ds ++ "-sot-v1")%string).

Definition day_requests (wf_by_day : list (string * list datapoint))
           (item : string * Z) : list request :=
  match py_sorted Sync.newer (Sync.dict_get_default (fst item) wf_by_day) with
  | [] => [create_request (snd item) (fst item)]
  | keeper :: extras =>
      delete_requests extras ++ update_requests (snd item) (fst item) keeper
  end.

Definition purge_requests (sot_map : list (string * Z))
           (wf_by_day : list (string * list datapoint)) : list request :=
  flat_map (fun entry : string * list datapoint =>
              if negb (mem_string (fst entry) (dict_keys sot_map))
              then delete_requests (snd entry) else []) wf_by_day.

Definition planned_requests (strict : bool) (sot_map : list (string * Z))
           (wf_by_day : list (string * list datapoint)) : list request :=
  flat_map (day_requests wf_by_day) (py_sorted item_lt sot_map)
  ++ (if strict then purge_requests sot_map wf_by_day else []).
(** The bucketing loop can file the datapoint: it has a daystamp, or no
    timestamp at all, or a numeric timestamp the platform converts. *)
Definition datable (dp : datapoint) : Prop :=
  truthy (dp_daystamp dp) = true
  \/ dp_timestamp dp = PNone
  \/ exists q d, as_number (dp_timestamp dp) = Some q
                 /\ local_date_of_timestamp q = Some d.
End Planned.

Section Sending.
Context {R : Remote}.

(** The exception a helper raises for a response that fails
    [raise_for_status]. *)
Definition failure_of (r : request) (resp : response) : exn :=
  match r with
  | GET goal page _ =>
      Sync.http_failure "GET"
        (goal ++ " page " ++ str_of_Z (match page with Some p => p | None => 1 end)) resp
  | POST goal _ _ daystamp _ =>
      Sync.http_failure "POST" (goal ++ " " ++ or_empty daystamp) resp
  | PUT goal i _ _ _ => Sync.http_failure "PUT" (goal ++ " " ++ i) resp
  | DELETE goal i => Sync.http_failure "DELETE" (goal ++ " " ++ i) resp
  end.

Definition send (r : request) : M unit :=
  bind (http r) (fun resp =>
    if raises_for_status resp then raise (failure_of r resp) else ret tt).

Definition send_all (reqs : list request) : M unit := for_each reqs send.
End Sending.

(** * A reference platform

    An executable instance of [Platform], used to run the programs on
    concrete inputs: ASCII comments, timestamps of the form
    [YYYY-MM-DDTHH:MM:SS+00:00], Eastern Standard Time all year round, and
    unsigned decimal integers for [float(str)]. *)

Module Reference.

Definition code (c : ascii) : Z := Z.of_nat (nat_of_ascii c).

Definition is_space (c : ascii) : bool :=
  let n := code c in
  ((9 <=? n) && (n <=? 13)) || ((28 <=? n) && (n <=? 32)).

Definition is_digit (c : ascii) : bool :=
  let n := code c in (48 <=? n) && (n <=? 57).

Definition lower (c : ascii) : ascii :=
  let n := code c in
  if (65 <=? n) && (n <=? 90) then ascii_of_nat (Z.to_nat (n + 32)) else c.

(** [\w] on ASCII. *)
Definition is_word (c : ascii) : bool :=
  let n := code (lower c) in
  is_digit c || ((97 <=? n) && (n <=? 122)) || (n =? 95).

Fixpoint skip_spaces (s : string) : string :=
  match s with
  | String c s' => if is_space c then skip_spaces s' else s
  | EmptyString => s
  end.

(** [\s+]. *)
Definition spaces1 (s : string) : option string :=
  match s with
  | String c s' => if is_space c then Some (skip_spaces s') else None
  | EmptyString => None
  end.

(** A literal, ignoring case. *)
Fixpoint literal (lit s : string) : option string :=
  match lit, s with
  | EmptyString, _ => Some s
  | String a lit', String c s' =>
      if Ascii.eqb a (lower c) then literal lit' s' else None
  | String _ _, EmptyString => None
  end.

(** [\d+], greedy: the value read so far, whether a digit was read, the
    rest. *)
Fixpoint digits (acc : Z) (seen : bool) (s : string) : Z * bool * string :=
  match s with
  | String c s' =>
      if is_digit c then digits (10 * acc + (code c - 48)) true s'
      else (acc, seen, s)
  | EmptyString => (acc, seen, s)
  end.

(** [\d{lo,hi}] with [lo >= 1], greedy; no shorter match can be followed
    by a non-digit, so there is nothing to backtrack to. *)
Definition digits_upto (two_required : bool) (s : string) : option (Z * string) :=
  match s with
  | String a (String b s') =>
      if is_digit a then
        if is_digit b then Some (10 * (code a - 48) + (code b - 48), s')
        else if two_required then None
        else Some (code a - 48, String b s')
      else None
  | String a EmptyString =>
      if is_digit a && negb two_required then Some (code a - 48, EmptyString)
      else None
  | EmptyString => None
  end.

Definition opt_bind {A B} (o : option A) (k : A -> option B) : option B :=
  match o with
  | Some a => k a
  | None => None
  end.

(** [^\s*(\d+)\s*minutes?\s+session\s+at\s+(\d{1,2}):(\d{2})\b] with
    [re.IGNORECASE]. *)
Definition comment_re (s : string) : option (Z * Z * Z) :=
  let '(minutes, seen, s) := digits 0 false (skip_spaces s) in
  if negb seen then None
  else
    opt_bind (literal "minute" (skip_spaces s)) (fun s =>
    let s := match literal "s" s with Some s' => s' | None => s end in
    opt_bind (spaces1 s) (fun s =>
    opt_bind (literal "session" s) (fun s =>
    opt_bind (spaces1 s) (fun s =>
    opt_bind (literal "at" s) (fun s =>
    opt_bind (spaces1 s) (fun s =>
    opt_bind (digits_upto false s) (fun '(hour, s) =>
    opt_bind (literal ":" s) (fun s =>
    opt_bind (digits_upto true s) (fun '(minute, s) =>
    match s with
    | EmptyString => Some (minutes, hour, minute)
    | String c _ => if is_word c then None else Some (minutes, hour, minute)
    end))))))))).

(** Days before the civil date [(y, m, d)], counted from 0001-01-01 =
    ordinal 1. *)
Definition ordinal_of_civil (y m d : Z) : Z :=
  let y' := if m <=? 2 then y - 1 else y in
  let era := y' / 400 in
  let yoe := y' - era * 400 in
  let doy := (153 * (if 2 <? m then m - 3 else m + 9) + 2) / 5 + d - 1 in
  let doe := yoe * 365 + yoe / 4 - yoe / 100 + doy in
  era * 146097 + doe - 305.

Definition civil_of_ordinal (n : Z) : Z * Z * Z :=
  let z := n + 305 in
  let era := z / 146097 in
  let doe := z - era * 146097 in
  let yoe := (doe - doe / 1460 + doe / 36524 - doe / 146096) / 365 in
  let doy := doe - (365 * yoe + yoe / 4 - yoe / 100) in
  let mp := (5 * doy + 2) / 153 in
  let d := doy - (153 * mp + 2) / 5 + 1 in
  let m := if mp <? 10 then mp + 3 else mp - 9 in
  let y := yoe + era * 400 in
  (if m <=? 2 then y + 1 else y, m, d).

Definition pad (width : nat) (z : Z) : string :=
  let s := str_of_Z z in
  (String.concat "" (repeat "0" (width - String.length s)) ++ s)%string.

Definition strftime (n : date) : string :=
  let '(y, m, d) := civil_of_ordinal n in
  (pad 4 y ++ pad 2 m ++ pad 2 d)%string.

(** Eastern Standard Time, UTC-5. *)
Definition local_date (ts : Q) : option date :=
  Some (Qfloor ((ts - 18000) / 86400) + 719163).

Definition number (s : string) : option Z :=
  match s with
  | EmptyString => None
  | _ =>
      let '(n, _, rest) := digits 0 false s in
      match rest with
      | EmptyString => Some n
      | _ => None
      end
  end.

(** [YYYY-MM-DDTHH:MM:SS+00:00]. *)
Definition fromisoformat (s : string) : option Q :=
  if (String.length s =? 25)%nat
     && (substring 4 1 s =? "-")%string && (substring 7 1 s =? "-")%string
     && (substring 10 1 s =? "T")%string && (substring 13 1 s =? ":")%string
     && (substring 16 1 s =? ":")%string && (substring 19 6 s =? "+00:00")%string
  then
    opt_bind (number (substring 0 4 s)) (fun y =>
    opt_bind (number (substring 5 2 s)) (fun m =>
    opt_bind (number (substring 8 2 s)) (fun d =>
    opt_bind (number (substring 11 2 s)) (fun hh =>
    opt_bind (number (substring 14 2 s)) (fun mm =>
    opt_bind (number (substring 17 2 s)) (fun ss =>
    Some (inject_Z ((ordinal_of_civil y m d - 719163) * 86400
                    + hh * 3600 + mm * 60 + ss))))))))
  else None.

#[export] Instance platform : Platform := {
  comment_re_groups := comment_re;
  fromisoformat_timestamp := fromisoformat;
  local_date_of_timestamp := local_date;
  strftime_Ymd := strftime;
  float_of_str := fun s => option_map inject_Z (number s)
}.
End Reference.

(** * A model of the remote service

    The remote feed is an external service: the repository holds only its
    client.  The state of the model is one goal's datapoints in fetch order,
    the ids of the datapoints deleted so far and the request ids already
    used. *)

Module Beeminder.

Record state : Type := {
  points : list datapoint;
  retired : list string;
  used : list string
}.

Definition has_id (i : string) (dp : datapoint) : bool :=
  match dp_id dp with
  | Some j => (j =? i)%string
  | None => false
  end.

Definition ids (pts : list datapoint) : list string :=
  flat_map (fun dp => match dp_id dp with Some i => [i] | None => [] end) pts.

(** Every id the remote has handed out. *)
Definition known (s : state) : list string := ids (points s) ++ retired s.

Definition fresh_id (s : state) : string :=
  String "n" (String.concat "" (known s)).

Definition created (i : string) (value : Z) (comment : string)
           (daystamp : option string) : datapoint :=
  {| dp_id := Some i; dp_daystamp := daystamp; dp_timestamp := PNone;
     dp_updated_at := PNone; dp_value := PInt value; dp_comment := Some comment |}.

Definition updated (value : Z) (comment : string) (daystamp : option string)
           (dp : datapoint) : datapoint :=
  {| dp_id := dp_id dp;
     dp_daystamp := match daystamp with Some _ => daystamp | None => dp_daystamp dp end;
     dp_timestamp := dp_timestamp dp; dp_updated_at := dp_updated_at dp;
     dp_value := PInt value; dp_comment := Some comment |}.

Definition page_of (page : option Z) (per_page : Z) (pts : list datapoint)
  : list datapoint :=
  match page with
  | None => pts
  | Some p => firstn (Z.to_nat per_page) (skipn (Z.to_nat ((p - 1) * per_page)) pts)
  end.

Definition reply (status : Z) (msg : string) (b : json) : response :=
  {| status_code := status; text := msg; body := b |}.

(** The body [{"errors":"Duplicate request"}]. *)
Definition duplicate_text : string :=
  let q := String (ascii_of_nat 34) EmptyString in
  ("{" ++ q ++ "errors" ++ q ++ ":" ++ q ++ "Duplicate request" ++ q ++ "}")%string.

(** Modelled from the spec: the remote feed API (sections 4.4 and 6), which
    the programs reach through [requests] and which is not in the
    repository.  A paginated read returns the page asked for; a create
    whose idempotency token was already used is rejected with the duplicate
    status 422, and any other create adds a datapoint under an id that no
    datapoint has or ever had; an update changes the value, the comment and,
    when sent, the daystamp of the datapoint with the given id and nothing
    else; a delete removes it; an update or a delete of an unknown id is
    answered 404. *)
Definition handle (r : request) (s : state) : response * state :=
  match r with
  | GET _ page per_page =>
      (reply 200 "" (JArray (page_of page per_page (points s))), s)
  | POST _ value comment daystamp requestid =>
      if match requestid with Some q => mem_string q (used s) | None => false end
      then (reply 422 duplicate_text
                  (JObject [("errors", PStr "Duplicate request")]), s)
      else
        let dp := created (fresh_id s) value comment daystamp in
        (reply 200 "" (JArray [dp]),
         {| points := points s ++ [dp];
            retired := retired s;
            used := match requestid with Some q => q :: used s | None => used s end |})
  | PUT _ i value comment daystamp =>
      if existsb (has_id i) (points s)
      then (reply 200 "" (JObject []),
            {| points := map (fun dp => if has_id i dp
                                        then updated value comment daystamp dp
                                        else dp) (points s);
               retired := retired s;
               used := used s |})
      else (reply 404 "not found" (JObject []), s)
  | DELETE _ i =>
      if existsb (has_id i) (points s)
      then (reply 200 "" (JObject []),
            {| points := filter (fun dp => negb (has_id i dp)) (points s);
               retired := i :: retired s;
               used := used s |})
      else (reply 404 "not found" (JObject []), s)
  end.

#[export] Instance remote_model : Remote := {
  remote_state := state;
  serve := handle
}.

(** The id an update or a delete is addressed to. *)
Definition target (r : request) : option string :=
  match r with
  | PUT _ i _ _ _ | DELETE _ i => Some i
  | GET _ _ _ | POST _ _ _ _ _ => None
  end.

Definition addressed_to (dp : datapoint) (r : request) : bool :=
  match target r with
  | Some i => has_id i dp
  | None => false
  end.

(** What a stored datapoint becomes when the remote serves a list of
    requests: nothing once a delete is addressed to it, and otherwise the
    datapoint as the updates addressed to it leave it. *)
Fixpoint fate (reqs : list request) (dp : datapoint) : list datapoint :=
  match reqs with
  | [] => [dp]
  | DELETE _ i :: reqs' => if has_id i dp then [] else fate reqs' dp
  | PUT _ i value comment daystamp :: reqs' =>
      fate reqs' (if has_id i dp then updated value comment daystamp dp else dp)
  | _ :: reqs' => fate reqs' dp
  end.

(** The non-empty ids of the stored datapoints. *)
Definition identified (pts : list datapoint) : list string :=
  flat_map (fun dp => match dp_id dp with
                      | Some i => if truthy (Some i) then [i] else []
                      | None => []
                      end) pts.

(** The datapoint a successful create adds, for some id. *)
Definition born_of (r : request) (dp : datapoint) : Prop :=
  exists i goal value comment daystamp requestid,
    r = POST goal value comment daystamp requestid
    /\ dp = created i value comment daystamp.
End Beeminder.

(** * Concrete inputs *)

Module Examples.

Definition live : Config :=
  {| USERNAME := "user"; AUTH_TOKEN := Some "token"; DRY_RUN := false;
     DEBUG := false; FULL_HISTORY := false; STRICT_PURGE := false;
     HISTORY_DAYS := 90 |}.

Definition purging : Config :=
  {| USERNAME := "user"; AUTH_TOKEN := Some "token"; DRY_RUN := false;
     DEBUG := false; FULL_HISTORY := false; STRICT_PURGE := true;
     HISTORY_DAYS := 90 |}.

Definition full_history : Config :=
  {| USERNAME := "user"; AUTH_TOKEN := Some "token"; DRY_RUN := false;
     DEBUG := false; FULL_HISTORY := true; STRICT_PURGE := false;
     HISTORY_DAYS := 90 |}.

(** A world whose remote holds [pts] and has seen the request ids [seen]. *)
Definition world_of (pts : list datapoint) (seen : list string)
  : @world Beeminder.remote_model :=
  {| remote := ({| Beeminder.points := pts; Beeminder.retired := [];
                   Beeminder.used := seen |}
                : @remote_state Beeminder.remote_model);
     sent := []; sot_db := [] |}.

(** The remote of the repository's test [test_add_datapoint_duplicate]:
    request id [r1] is already used. *)
Definition seen_r1 : @world Beeminder.remote_model := world_of [] ["r1"].

Definition point (i : option string) (ds : string) (ts : Z) (v : Z)
           (c : string) : datapoint :=
  {| dp_id := i; dp_daystamp := Some ds; dp_timestamp := PInt ts;
     dp_updated_at := PNone; dp_value := PInt v; dp_comment := Some c |}.

(** The canonical comment for value 1 on 2025-01-01, with its [≥] sign. *)
Definition canonical : string := comment_ok 1 "20250101".

(** A correct datapoint, a stale duplicate with an id, an older duplicate
    without an id, a newest record without an id whose value is wrong, and
    a record without an id on a day outside the SoT mapping. *)
Definition good : datapoint := point (Some "a") "20250101" 200 1 canonical.
Definition stale : datapoint := point (Some "b") "20250101" 150 0 "manual".
Definition anonymous : datapoint := point None "20250101" 100 1 canonical.
Definition wrong_anonymous : datapoint := point None "20250101" 300 0 "manual".
Definition stray_anonymous : datapoint := point None "20241231" 50 1 "old".
Definition stray : datapoint := point (Some "z") "20241231" 60 1 "old".

Definition sot : list (string * Z) := [("20250101", 1)].

(** Focusmate sessions: 40 minutes at 08:00 and 55 minutes at 09:10. *)
Definition short_session : datapoint :=
  point (Some "f1") "20250101" 10 1 "40 minutes session at 8:00".
Definition early_session : datapoint :=
  point (Some "f2") "20250101" 20 1 "55 minutes session at 9:10".

(** Two datapoints of 2025-01-01 whose [updated_at] is a number, as a
    Unix time: [recent] was updated last and has the smaller [timestamp]. *)
Definition recent : datapoint :=
  {| dp_id := Some "recent"; dp_daystamp := Some "20250101";
     dp_timestamp := PInt 100; dp_updated_at := PInt 2000;
     dp_value := PInt 1; dp_comment := Some canonical |}.
Definition older : datapoint :=
  {| dp_id := Some "older"; dp_daystamp := Some "20250101";
     dp_timestamp := PInt 200; dp_updated_at := PInt 1000;
     dp_value := PInt 1; dp_comment := Some canonical |}.

(** A record whose id is the empty text and whose value and comment are
    wrong. *)
Definition wrong_empty_id : datapoint := point (Some "") "20250101" 300 0 "manual".

(** A configuration without a token, and a dry run. *)
Definition no_token : Config :=
  {| USERNAME := "user"; AUTH_TOKEN := None; DRY_RUN := false;
     DEBUG := false; FULL_HISTORY := false; STRICT_PURGE := false;
     HISTORY_DAYS := 90 |}.

Definition dry : Config :=
  {| USERNAME := "user"; AUTH_TOKEN := None; DRY_RUN := true;
     DEBUG := false; FULL_HISTORY := false; STRICT_PURGE := true;
     HISTORY_DAYS := 2 |}.
End Examples.

(** * Results *)

(** ** Arithmetic and text helpers *)

Lemma Qltb_lt (a b : Q) : Qltb a b = true <-> (a < b)%Q.
Proof.
  unfold Qltb. rewrite Qlt_alt. destruct (a ?= b)%Q; split; congruence.
Qed.

Lemma Qltb_ge (a b : Q) : Qltb a b = false <-> (b <= a)%Q.
Proof.
  split; intro H.
  - apply Qnot_lt_le. intro L. apply Qltb_lt in L. congruence.
  - destruct (Qltb a b) eqn:E; [|reflexivity].
    apply Qltb_lt in E. exfalso. exact (Qlt_not_le _ _ E H).
Qed.

Lemma py_round_integer (z : Z) : py_round (inject_Z z) = z.
Proof.
  unfold py_round. rewrite Qfloor_Z.
  replace (inject_Z z - inject_Z z ?= 1 # 2)%Q with Lt; [reflexivity|].
  symmetry. apply Qlt_alt.
  setoid_replace (inject_Z z - inject_Z z)%Q with 0%Q by ring.
  reflexivity.
Qed.

Lemma truthy_Some (s : string) : truthy (Some s) = true <-> s <> "".
Proof.
  simpl. destruct (String.eqb_spec s ""); simpl; split; congruence.
Qed.

(** ** C2: the qualification boundary *)

(** C2.  [qualifies_time] at the four boundary points: 09:15 qualifies,
    09:16 does not, 06:00 qualifies, and 05:59 qualifies as well, since the
    rule has no lower bound (the repository's own test expects 05:59 not to
    qualify). *)
Theorem qualifies_time_boundaries :
  qualifies_time 9 15 = true /\ qualifies_time 9 16 = false /\
  qualifies_time 6 0 = true /\ qualifies_time 5 59 = true.
Proof. repeat split; reflexivity. Qed.

Lemma qualifies_time_spec (hour minute : Z) :
  qualifies_time hour minute = true <->
  hour < 9 \/ (hour = 9 /\ minute <= 15).
Proof.
  unfold qualifies_time, CUTOFF_HOUR, CUTOFF_MINUTE.
  rewrite orb_true_iff, andb_true_iff, Z.ltb_lt, Z.eqb_eq, Z.leb_le.
  reflexivity.
Qed.

(** ** The monad *)

Section MonadFacts.
Context {R : Remote}.

Lemma bind_inv {A B} (m : M A) (k : A -> M B) (w w' : world) (b : B) :
  bind m k w = (Ok b, w') ->
  exists a w1, m w = (Ok a, w1) /\ k a w1 = (Ok b, w').
Proof.
  unfold bind. destruct (m w) as [[a | e |] w1]; intro H; try discriminate.
  exists a, w1. split; [reflexivity | exact H].
Qed.

Lemma bind_ok {A B} (m : M A) (k : A -> M B) (w w1 : world) (a : A) :
  m w = (Ok a, w1) -> bind m k w = k a w1.
Proof. unfold bind. intros ->. reflexivity. Qed.

Lemma for_each_app {A} (l1 l2 : list A) (body : A -> M unit) (w : world) :
  for_each (l1 ++ l2) body w =
  bind (for_each l1 body) (fun _ => for_each l2 body) w.
Proof.
  revert w. induction l1 as [|x l1 IH]; intro w; simpl.
  - reflexivity.
  - specialize (IH) as IH'. unfold bind in *.
    destruct (body x w) as [[[] | e |] w1]; try reflexivity.
    apply IH'.
Qed.
End MonadFacts.

(** ** What the helpers send *)

Section Sends.
Context {P : Platform} {R : Remote}.
Variable cfg : Config.

Lemma send_inv (r : request) (w w' : world) :
  send r w = (Ok tt, w') ->
  sent w' = sent w ++ [r] /\
  remote w' = snd (serve r (remote w)) /\
  raises_for_status (fst (serve r (remote w))) = false /\
  sot_db w' = sot_db w.
Proof.
  unfold send, bind, http, raise, ret.
  destruct (serve r (remote w)) as [resp s]. simpl.
  destruct (raises_for_status resp); intro H; inversion H; subst; simpl.
  repeat split; reflexivity.
Qed.

Lemma send_all_inv (reqs : list request) (w w' : world) :
  send_all reqs w = (Ok tt, w') ->
  sent w' = sent w ++ reqs /\
  remote w' = fold_left (fun s r => snd (serve r s)) reqs (remote w) /\
  sot_db w' = sot_db w.
Proof.
  revert w. induction reqs as [|r reqs IH]; intros w H.
  - inversion H; subst. rewrite app_nil_r. repeat split; reflexivity.
  - unfold send_all in H. simpl in H. apply bind_inv in H.
    destruct H as ([] & w1 & H1 & H2).
    apply send_inv in H1. destruct H1 as (S1 & R1 & _ & D1).
    apply IH in H2. destruct H2 as (S2 & R2 & D2).
    rewrite S2, S1, R2, R1, D2, D1, <- app_assoc. repeat split; reflexivity.
Qed.

(** Whatever the outcome, a helper sends a prefix of its requests. *)
Lemma send_all_prefix (reqs : list request) (w : world) :
  exists done rest,
    reqs = done ++ rest /\ sent (snd (send_all reqs w)) = sent w ++ done.
Proof.
  revert w. induction reqs as [|r reqs IH]; intro w.
  - exists [], []. simpl. rewrite app_nil_r. split; reflexivity.
  - unfold send_all. simpl. unfold bind at 1.
    destruct (send r w) as [[[] | e |] w1] eqn:E.
    + apply send_inv in E. destruct E as (S1 & _).
      destruct (IH w1) as (done & rest & -> & S2).
      exists (r :: done), rest. split; [reflexivity|].
      unfold send_all in S2. rewrite S2, S1, <- app_assoc. reflexivity.
    + exists [r], reqs. split; [reflexivity|].
      unfold send, bind, http, raise, ret in E.
      destruct (serve r (remote w)) as [resp s].
      destruct (raises_for_status resp); inversion E; subst; reflexivity.
    + exfalso. unfold send, bind, http, raise, ret in E.
      destruct (serve r (remote w)) as [resp s].
      destruct (raises_for_status resp); inversion E.
Qed.

(** A helper never raises anything but the failure of a request. *)
Lemma send_all_raises (reqs : list request) (w w' : world) (e : exn) :
  send_all reqs w = (Raise e, w') ->
  exists r resp, In r reqs /\ raises_for_status resp = true /\
                 e = failure_of r resp.
Proof.
  revert w. induction reqs as [|r reqs IH]; intros w H.
  - discriminate.
  - unfold send_all in H. simpl in H. unfold bind at 1 in H.
    destruct (send r w) as [[[] | e1 |] w1] eqn:E.
    + destruct (IH _ H) as (r' & resp & I & F & ->).
      exists r', resp. split; [right; exact I | split; [exact F | reflexivity]].
    + inversion H; subst.
      unfold send, bind, http, raise, ret in E.
      destruct (serve r (remote w)) as [resp s].
      destruct (raises_for_status resp) eqn:F; inversion E; subst.
      exists r, resp. split; [left; reflexivity | split; [exact F | reflexivity]].
    + discriminate.
Qed.

Lemma send_all_app (l1 l2 : list request) (w : world) :
  send_all (l1 ++ l2) w = bind (send_all l1) (fun _ => send_all l2) w.
Proof. apply for_each_app. Qed.

Lemma for_each_sends {A} (l : list A) (body : A -> M unit)
      (f : A -> list request) :
  (forall x w, body x w = send_all (f x) w) ->
  forall w, for_each l body w = send_all (flat_map f l) w.
Proof.
  intros Hb. induction l as [|x l IH]; intro w; simpl.
  - reflexivity.
  - rewrite send_all_app. unfold bind. rewrite Hb.
    destruct (send_all (f x) w) as [[[] | e |] w1]; try reflexivity.
    apply IH.
Qed.

Hypothesis live : DRY_RUN cfg = false.

Lemma delete_if_id_sends (dp : datapoint) (w : world) :
  Sync.delete_if_id cfg dp w = send_all (delete_requests [dp]) w.
Proof.
  unfold Sync.delete_if_id, delete_requests, Sync.delete_datapoint.
  cbn [flat_map]. rewrite live, app_nil_r.
  destruct (dp_id dp) as [i|]; [|reflexivity].
  destruct (truthy (Some i)); [|reflexivity].
  unfold send_all, for_each, send, bind, http, raise, ret.
  destruct (serve (DELETE WAKEANDFOCUS_GOAL i) (remote w)) as [resp s].
  destruct (raises_for_status resp); reflexivity.
Qed.

Lemma delete_loop_sends (dps : list datapoint) (w : world) :
  for_each dps (Sync.delete_if_id cfg) w = send_all (delete_requests dps) w.
Proof.
  unfold delete_requests.
  rewrite (for_each_sends dps _ (fun dp => delete_requests [dp])).
  - f_equal. apply flat_map_ext. intro dp. unfold delete_requests.
    cbn [flat_map]. apply app_nil_r.
  - apply delete_if_id_sends.
Qed.

Lemma reconcile_day_sends (wf_by_day : list (string * list datapoint))
      (item : string * Z) (w : world) :
  Sync.reconcile_day cfg wf_by_day item w = send_all (day_requests wf_by_day item) w.
Proof.
  destruct item as [ds v]. unfold Sync.reconcile_day, day_requests. simpl fst. simpl snd.
  destruct (py_sorted Sync.newer (Sync.dict_get_default ds wf_by_day))
    as [|keeper extras].
  - unfold Sync.add_datapoint, create_request. rewrite live.
    unfold send_all, for_each, send, bind, http, raise, ret.
    change (truthy (Some (WAKEANDFOCUS_GOAL ++ "-" ++ ds ++ "-sot-v1")%string))
      with true. cbv iota.
    destruct (serve _ (remote w)) as [resp s].
    destruct (raises_for_status resp); reflexivity.
  - rewrite send_all_app. unfold bind at 1 3. rewrite delete_loop_sends.
    destruct (send_all (delete_requests extras) w) as [[[] | e |] w1];
      try reflexivity.
    unfold update_requests, needs_update.
    destruct (negb (py_round (keeper_value keeper) =? v)
              || negb (or_empty (dp_comment keeper) =? comment_ok v ds)%string);
      [|reflexivity].
    destruct (dp_id keeper) as [i|]; [|reflexivity].
    destruct (truthy (Some i)); [|reflexivity].
    unfold Sync.update_datapoint. rewrite live.
    unfold send_all, for_each, send, bind, http, raise, ret.
    destruct (serve _ (remote w1)) as [resp s].
    destruct (raises_for_status resp); reflexivity.
Qed.

Lemma strict_purge_sends (sot_map : list (string * Z))
      (wf_by_day : list (string * list datapoint)) (w : world) :
  Sync.strict_purge cfg sot_map wf_by_day w
  = send_all (purge_requests sot_map wf_by_day) w.
Proof.
  unfold Sync.strict_purge, purge_requests.
  apply for_each_sends. intros [ds dps] w0. simpl.
  destruct (negb (mem_string ds (dict_keys sot_map))).
  - apply delete_loop_sends.
  - reflexivity.
Qed.

(** After the fetch and the bucketing, [reconcile_history] sends the
    planned requests in order, stopping at the first that fails. *)
Lemma reconcile_history_sends (fuel : nat) (sot_map : list (string * Z))
      (wf_all : list datapoint) (wf_by_day : list (string * list datapoint))
      (w w1 : world) :
  Sync.fetch_all_datapoints cfg fuel WAKEANDFOCUS_GOAL w = (Ok wf_all, w1) ->
  Sync.bucket_by_day wf_all [] = Ok wf_by_day ->
  Sync.reconcile_history cfg fuel sot_map w
  = send_all (planned_requests (STRICT_PURGE cfg) sot_map wf_by_day) w1.
Proof.
  intros Hf Hb. unfold Sync.reconcile_history.
  rewrite (bind_ok _ _ _ _ _ Hf).
  unfold lift. unfold bind at 1. rewrite Hb.
  unfold planned_requests. rewrite send_all_app. unfold bind.
  rewrite (for_each_sends _ _ (day_requests wf_by_day))
    by (intros; apply reconcile_day_sends).
  destruct (send_all _ w1) as [[[] | e |] w2]; try reflexivity.
  destruct (STRICT_PURGE cfg).
  - apply strict_purge_sends.
  - reflexivity.
Qed.
End Sends.

(** ** Dictionaries *)

Section DictFacts.
Context {V : Type}.

Lemma dict_get_In (k : string) (v : V) (d : list (string * V)) :
  dict_get k d = Some v -> In (k, v) d.
Proof.
  induction d as [|[k' v'] d IH]; simpl; [discriminate|].
  destruct (String.eqb_spec k' k) as [->|N]; intro H.
  - inversion H; subst. left; reflexivity.
  - right. apply IH, H.
Qed.

Lemma In_dict_get (k : string) (v : V) (d : list (string * V)) :
  NoDup (dict_keys d) -> In (k, v) d -> dict_get k d = Some v.
Proof.
  induction d as [|[k' v'] d IH]; simpl; intros ND H; [contradiction|].
  inversion ND as [|? ? Hn ND']; subst.
  destruct H as [H|H].
  - inversion H; subst. rewrite String.eqb_refl. reflexivity.
  - destruct (String.eqb_spec k' k) as [->|N].
    + exfalso. apply Hn. apply (in_map fst) in H. exact H.
    + apply IH; assumption.
Qed.

Lemma dict_get_None (k : string) (d : list (string * V)) :
  dict_get k d = None <-> ~ In k (dict_keys d).
Proof.
  induction d as [|[k' v'] d IH]; simpl.
  - split; [intros _ [] | reflexivity].
  - destruct (String.eqb_spec k' k) as [->|N].
    + split; [discriminate | intro H; exfalso; apply H; left; reflexivity].
    + rewrite IH. split; intro H.
      * intros [E|I]; [exact (N E) | exact (H I)].
      * intro I. apply H. right. exact I.
Qed.

Lemma mem_string_In (k : string) (ks : list string) :
  mem_string k ks = true <-> In k ks.
Proof.
  unfold mem_string. rewrite existsb_exists. split.
  - intros (k' & I & E). apply String.eqb_eq in E. subst. exact I.
  - intro I. exists k. split; [exact I | apply String.eqb_refl].
Qed.

Lemma dict_set_keys (k k' : string) (v : V) (d : list (string * V)) :
  In k (dict_keys (dict_set k' v d)) <-> k = k' \/ In k (dict_keys d).
Proof.
  induction d as [|[k0 v0] d IH]; simpl.
  - intuition congruence.
  - destruct (String.eqb_spec k0 k'); simpl.
    + subst. intuition congruence.
    + rewrite IH. intuition congruence.
Qed.

Lemma dict_set_NoDup (k : string) (v : V) (d : list (string * V)) :
  NoDup (dict_keys d) -> NoDup (dict_keys (dict_set k v d)).
Proof.
  induction d as [|[k0 v0] d IH]; simpl; intro ND.
  - constructor; [intros [] | constructor].
  - inversion ND as [|? ? Hn ND']; subst.
    destruct (String.eqb_spec k0 k); simpl.
    + constructor; assumption.
    + constructor; [|apply IH; exact ND'].
      intro I. apply dict_set_keys in I. destruct I as [E|I]; [exact (n E)|exact (Hn I)].
Qed.

Lemma dict_get_set (k k' : string) (v : V) (d : list (string * V)) :
  dict_get k (dict_set k' v d) = if (k' =? k)%string then Some v else dict_get k d.
Proof.
  induction d as [|[k0 v0] d IH]; simpl.
  - reflexivity.
  - destruct (String.eqb_spec k0 k') as [->|N]; simpl.
    + destruct (String.eqb_spec k' k); reflexivity.
    + rewrite IH. destruct (String.eqb_spec k0 k) as [->|N0].
      * destruct (String.eqb_spec k' k); [congruence | reflexivity].
      * reflexivity.
Qed.

Lemma dict_get_default_append (k k' : string) (x : V) (d : list (string * list V)) :
  Sync.dict_get_default k (dict_append k' x d)
  = if (k' =? k)%string then Sync.dict_get_default k d ++ [x]
    else Sync.dict_get_default k d.
Proof.
  unfold Sync.dict_get_default.
  induction d as [|[k0 xs] d IH]; simpl.
  - destruct (String.eqb_spec k' k); reflexivity.
  - destruct (String.eqb_spec k0 k') as [->|N]; simpl.
    + destruct (String.eqb_spec k' k); reflexivity.
    + destruct (String.eqb_spec k0 k) as [->|N0].
      * destruct (String.eqb_spec k' k); [congruence | reflexivity].
      * exact IH.
Qed.

Lemma dict_append_keys (k k' : string) (x : V) (d : list (string * list V)) :
  In k (dict_keys (dict_append k' x d)) <-> k = k' \/ In k (dict_keys d).
Proof.
  induction d as [|[k0 xs] d IH]; simpl.
  - intuition congruence.
  - destruct (String.eqb_spec k0 k'); simpl.
    + subst. intuition congruence.
    + rewrite IH. intuition congruence.
Qed.

Lemma dict_append_NoDup (k : string) (x : V) (d : list (string * list V)) :
  NoDup (dict_keys d) -> NoDup (dict_keys (dict_append k x d)).
Proof.
  induction d as [|[k0 xs] d IH]; simpl; intro ND.
  - constructor; [intros [] | constructor].
  - inversion ND as [|? ? Hn ND']; subst.
    destruct (String.eqb_spec k0 k); simpl.
    + constructor; assumption.
    + constructor; [|apply IH; exact ND'].
      intro I. apply dict_append_keys in I.
      destruct I as [E|I]; [exact (n E)|exact (Hn I)].
Qed.
End DictFacts.

(** ** Stable sorting *)

Section SortFacts.
Context {A : Type}.
Variable before : A -> A -> bool.

Lemma insert_sorted_perm (x : A) (l : list A) :
  Permutation (x :: l) (insert_sorted before x l).
Proof.
  induction l as [|y l IH]; simpl.
  - apply Permutation_refl.
  - destruct (before y x).
    + eapply perm_trans; [apply perm_swap|]. apply perm_skip, IH.
    + apply Permutation_refl.
Qed.

Lemma py_sorted_perm (l : list A) : Permutation l (py_sorted before l).
Proof.
  induction l as [|x l IH]; simpl.
  - apply perm_nil.
  - eapply perm_trans; [apply perm_skip, IH|]. apply insert_sorted_perm.
Qed.

Lemma py_sorted_In (x : A) (l : list A) : In x (py_sorted before l) <-> In x l.
Proof.
  split; apply Permutation_in; [apply Permutation_sym|]; apply py_sorted_perm.
Qed.

Lemma py_sorted_nil (l : list A) : py_sorted before l = [] -> l = [].
Proof.
  intro H. apply Permutation_nil. rewrite <- H. apply Permutation_sym, py_sorted_perm.
Qed.
End SortFacts.

(** The head of a list sorted by decreasing key: the first element whose
    key no other element exceeds. *)
Section NewestFirst.
Context {A : Type}.
Variable key : A -> Q.
Let before (a b : A) : bool := Qltb (key b) (key a).

Lemma head_split (l : list A) (b : A) (rest : list A) :
  py_sorted before l = b :: rest ->
  exists l1 l2, l = l1 ++ b :: l2 /\
                Forall (fun x => (key x < key b)%Q) l1 /\
                Forall (fun x => (key x <= key b)%Q) l2.
Proof.
  revert b rest. induction l as [|x l IH]; intros b rest H; [discriminate|].
  simpl in H. destruct (py_sorted before l) as [|y ys] eqn:E.
  - simpl in H. inversion H; subst. apply py_sorted_nil in E. subst.
    exists [], []. repeat split; constructor.
  - simpl in H. destruct (before y x) eqn:B.
    + inversion H; subst. destruct (IH b ys eq_refl) as (l1 & l2 & -> & F1 & F2).
      exists (x :: l1), l2. repeat split; [|exact F2].
      constructor; [|exact F1]. apply Qltb_lt. exact B.
    + inversion H; subst. destruct (IH y ys eq_refl) as (l1 & l2 & -> & F1 & F2).
      apply Qltb_ge in B. exists [], (l1 ++ y :: l2). repeat split; [constructor|].
      apply Forall_app. split.
      * eapply Forall_impl; [|exact F1]. intros a L. simpl in L.
        apply Qlt_le_weak. eapply Qlt_le_trans; [exact L | exact B].
      * constructor; [exact B|].
        eapply Forall_impl; [|exact F2]. intros a L. simpl in L.
        eapply Qle_trans; [exact L | exact B].
Qed.


Lemma head_is_max (l : list A) (b : A) (rest : list A) :
  py_sorted before l = b :: rest ->
  In b l /\ forall x, In x l -> (key x <= key b)%Q.
Proof.
  intro H. destruct (head_split l b rest H) as (l1 & l2 & -> & F1 & F2).
  split; [apply in_elt|].
  intros x I. apply in_app_or in I. rewrite Forall_forall in F1, F2.
  destruct I as [I|[<-|I]].
  - apply Qlt_le_weak, F1, I.
  - apply Qle_refl.
  - apply F2, I.
Qed.
End NewestFirst.

(** ** Bucketing by day *)

Section Buckets.
Context {P : Platform}.

Lemma bucket_by_day_get (dps : list datapoint) :
  forall acc by_day,
    Sync.bucket_by_day dps acc = Ok by_day ->
    forall k, Sync.dict_get_default k by_day
              = Sync.dict_get_default k acc ++ filter (in_day k) dps.
Proof.
  induction dps as [|dp dps IH]; simpl; intros acc by_day H k.
  - inversion H; subst. symmetry. apply app_nil_r.
  - unfold in_day at 1.
    destruct (Sync.bucket_day dp) as [[ds|] | e |]; try discriminate.
    + rewrite (IH _ _ H k), dict_get_default_append.
      destruct (ds =? k)%string; [rewrite <- app_assoc|]; reflexivity.
    + apply IH, H.
Qed.

Lemma bucket_by_day_keys (dps : list datapoint) :
  forall acc by_day,
    Sync.bucket_by_day dps acc = Ok by_day ->
    forall k, In k (dict_keys by_day) <->
              In k (dict_keys acc) \/ exists dp, In dp dps /\ in_day k dp = true.
Proof.
  induction dps as [|dp dps IH]; simpl; intros acc by_day H k.
  - inversion H; subst. split; [left; assumption | intros [I | (dp & [] & _)]; exact I].
  - assert (D : forall ds, Sync.bucket_day dp = Ok (Some ds) ->
                           (in_day k dp = true <-> k = ds)).
    { intros ds E. unfold in_day. rewrite E. rewrite String.eqb_eq.
      split; congruence. }
    destruct (Sync.bucket_day dp) as [[ds|] | e |] eqn:E; try discriminate.
    + rewrite (IH _ _ H k), dict_append_keys. specialize (D ds eq_refl).
      split.
      * intros [[-> | I] | (x & I & T)].
        -- right. exists dp. split; [left; reflexivity | apply D; reflexivity].
        -- left. exact I.
        -- right. exists x. split; [right; exact I | exact T].
      * intros [I | (x & [<- | I] & T)].
        -- left. right. exact I.
        -- left. left. apply D, T.
        -- right. exists x. split; assumption.
    + rewrite (IH _ _ H k). split.
      * intros [I | (x & I & T)]; [left; exact I|].
        right. exists x. split; [right; exact I | exact T].
      * intros [I | (x & [<- | I] & T)]; [left; exact I | |].
        -- unfold in_day in T. rewrite E in T. discriminate.
        -- right. exists x. split; assumption.
Qed.

Lemma bucket_by_day_NoDup (dps : list datapoint) :
  forall acc by_day,
    Sync.bucket_by_day dps acc = Ok by_day ->
    NoDup (dict_keys acc) -> NoDup (dict_keys by_day).
Proof.
  induction dps as [|dp dps IH]; simpl; intros acc by_day H ND.
  - inversion H; subst. exact ND.
  - destruct (Sync.bucket_day dp) as [[ds|] | e |]; try discriminate.
    + apply (IH _ _ H). apply dict_append_NoDup, ND.
    + apply (IH _ _ H ND).
Qed.

(** The bucketing loop fails only where [bucket_day] does. *)
Lemma bucket_by_day_total (dps : list datapoint) :
  Forall (fun dp => exists o, Sync.bucket_day dp = Ok o) dps ->
  forall acc, exists by_day, Sync.bucket_by_day dps acc = Ok by_day.
Proof.
  induction 1 as [|dp dps (o & E) F IH]; intro acc; simpl.
  - exists acc. reflexivity.
  - rewrite E. destruct o as [ds|]; apply IH.
Qed.

Lemma bucket_by_day_each (dps : list datapoint) :
  forall acc by_day,
    Sync.bucket_by_day dps acc = Ok by_day ->
    Forall (fun dp => exists o, Sync.bucket_day dp = Ok o) dps.
Proof.
  induction dps as [|dp dps IH]; simpl; intros acc by_day H; [constructor|].
  destruct (Sync.bucket_day dp) as [o | e |] eqn:E; try discriminate.
  constructor; [exists o; exact E|].
  destruct o; eapply IH; exact H.
Qed.

(** Every entry of the buckets is one day's datapoints in fetch order. *)
Lemma bucket_by_day_entry (dps : list datapoint) (by_day : list (string * list datapoint))
      (ds : string) (group : list datapoint) :
  Sync.bucket_by_day dps [] = Ok by_day ->
  In (ds, group) by_day -> group = filter (in_day ds) dps.
Proof.
  intros H I.
  pose proof (bucket_by_day_NoDup _ _ _ H (NoDup_nil _)) as ND.
  pose proof (bucket_by_day_get _ _ _ H ds) as G.
  unfold Sync.dict_get_default at 1 in G.
  rewrite (In_dict_get _ _ _ ND I) in G. exact G.
Qed.
End Buckets.

(** ** C4: the outcome of a day *)

Section Outcome.
Context {P : Platform}.

Lemma day_value_spec (dps : list datapoint) :
  (Sync.day_value dps = 1 <-> exists dp, In dp dps /\ qualifying dp)
  /\ (Sync.day_value dps = 0 \/ Sync.day_value dps = 1).
Proof.
  induction dps as [|dp dps [IH B]]; simpl.
  - split; [|left; reflexivity].
    split; [discriminate | intros (dp & [] & _)].
  - destruct (parse_comment_for_length_and_time (dp_comment dp))
      as [[[m h] mi]|] eqn:E.
    + destruct ((MIN_SESSION_MINUTES <=? m) && qualifies_time h mi) eqn:Q.
      * split; [|right; reflexivity].
        split; [intros _ | reflexivity].
        apply andb_true_iff in Q. destruct Q as [Q1 Q2].
        apply Z.leb_le in Q1. apply qualifies_time_spec in Q2.
        exists dp. split; [left; reflexivity|]. exists m, h, mi. auto.
      * split; [|exact B]. rewrite IH. split.
        -- intros (x & I & Hx). exists x. split; [right; exact I | exact Hx].
        -- intros (x & [<- | I] & Hx); [|exists x; split; assumption].
           exfalso. destruct Hx as (m' & h' & mi' & E' & M & T).
           rewrite E in E'. inversion E'; subst.
           apply qualifies_time_spec in T. apply Z.leb_le in M.
           unfold MIN_SESSION_MINUTES in Q. rewrite M, T in Q. discriminate.
    + split; [|exact B]. rewrite IH. split.
      * intros (x & I & Hx). exists x. split; [right; exact I | exact Hx].
      * intros (x & [<- | I] & Hx); [|exists x; split; assumption].
        exfalso. destruct Hx as (m' & h' & mi' & E' & _). congruence.
Qed.

Lemma first_qualifying_day_value (dps : list datapoint) :
  Today.first_qualifying dps = Sync.day_value dps.
Proof.
  induction dps as [|dp dps IH]; simpl; [reflexivity|].
  rewrite IH. reflexivity.
Qed.

(** C4.  The outcome computed for a day's records, by the loop of
    [compute_sot_for_range] and by the loop of [compute_today_outcome], is
    1 exactly when some record qualifies (its comment parses to at least
    50 minutes and a start at or before 09:15), is 0 otherwise, and does
    not change when the records are permuted. *)
Theorem outcome_iff_some_record_qualifies (dps : list datapoint) :
  (Sync.day_value dps = 1 <-> exists dp, In dp dps /\ qualifying dp)
  /\ (Today.first_qualifying dps = 1 <-> exists dp, In dp dps /\ qualifying dp)
  /\ (Sync.day_value dps = 0 \/ Sync.day_value dps = 1)
  /\ (forall dps', Permutation dps dps' ->
                   Sync.day_value dps' = Sync.day_value dps
                   /\ Today.first_qualifying dps' = Today.first_qualifying dps).
Proof.
  destruct (day_value_spec dps) as [S B].
  split; [exact S|]. split; [rewrite first_qualifying_day_value; exact S|].
  split; [exact B|].
  intros dps' Hp.
  rewrite (first_qualifying_day_value dps), (first_qualifying_day_value dps').
  assert (E : Sync.day_value dps' = Sync.day_value dps); [|split; exact E].
  destruct (day_value_spec dps') as [S' B'].
  assert (X : Sync.day_value dps = 1 <-> Sync.day_value dps' = 1).
  { rewrite S, S'. split; intros (x & I & Q); exists x; split; try exact Q.
    - eapply Permutation_in; [exact Hp | exact I].
    - eapply Permutation_in; [apply Permutation_sym; exact Hp | exact I]. }
  destruct B as [B|B], B' as [B'|B']; rewrite ?B, ?B'; try reflexivity.
  - exfalso. apply X in B'. congruence.
  - exfalso. apply X in B. congruence.
Qed.
End Outcome.

(** ** C10: the SoT mapping of a date range *)

Section Range.
Context {P : Platform}.

Lemma datable_bucket_day (dp : datapoint) :
  datable dp <-> exists o, Sync.bucket_day dp = Ok o.
Proof.
  unfold datable, Sync.bucket_day.
  destruct (truthy (dp_daystamp dp)).
  - split; [intros _; eexists; reflexivity | intros _; left; reflexivity].
  - destruct (dp_timestamp dp) as [|b|z|q|s] eqn:T; simpl.
    + split; [intros _; eexists; reflexivity | intros _; right; left; reflexivity].
    + destruct (local_date_of_timestamp (if b then 1%Q else 0%Q)) as [d|] eqn:L.
      * split; [intros _; eexists; reflexivity|].
        intros _. right; right. exists (if b then 1%Q else 0%Q), d. auto.
      * split; [|intros (o & H); discriminate].
        intros [H | [H | (q & d & H1 & H2)]]; try discriminate.
        inversion H1; subst. congruence.
    + destruct (local_date_of_timestamp (inject_Z z)) as [d|] eqn:L.
      * split; [intros _; eexists; reflexivity|].
        intros _. right; right. exists (inject_Z z), d. auto.
      * split; [|intros (o & H); discriminate].
        intros [H | [H | (q & d & H1 & H2)]]; try discriminate.
        inversion H1; subst. congruence.
    + destruct (local_date_of_timestamp q) as [d|] eqn:L.
      * split; [intros _; eexists; reflexivity|].
        intros _. right; right. exists q, d. auto.
      * split; [|intros (o & H); discriminate].
        intros [H | [H | (q' & d & H1 & H2)]]; try discriminate.
        inversion H1; subst. congruence.
    + split; [|intros (o & H); discriminate].
      intros [H | [H | (q' & d & H1 & H2)]]; discriminate.
Qed.

Lemma daterange_loop_In (n : nat) :
  forall cur end_ d,
    In d (Sync.daterange_loop n cur end_) <->
    cur <= d <= end_ /\ d < cur + Z.of_nat n.
Proof.
  induction n as [|n IH]; intros cur end_ d; simpl Sync.daterange_loop.
  - split; [intros [] | lia].
  - destruct (Z.leb_spec cur end_); simpl.
    + rewrite IH. lia.
    + split; [intros [] | lia].
Qed.

Lemma daterange_In (start end_ d : date) :
  In d (Sync.daterange start end_) <-> start <= d <= end_.
Proof. unfold Sync.daterange. rewrite daterange_loop_In. lia. Qed.

(** [daterange] satisfies the equation of the generator's loop. *)
Lemma daterange_unfold (start end_ : date) :
  Sync.daterange start end_
  = if start <=? end_ then start :: Sync.daterange (start + 1) end_ else [].
Proof.
  unfold Sync.daterange. destruct (Z.leb_spec start end_).
  - replace (Z.to_nat (end_ - start + 1)) with (S (Z.to_nat (end_ - (start + 1) + 1)))
      by lia.
    simpl. destruct (Z.leb_spec start end_); [reflexivity | lia].
  - replace (Z.to_nat (end_ - start + 1)) with O by lia. reflexivity.
Qed.

Lemma sot_loop_get (by_day : list (string * list datapoint)) (days : list date) :
  forall out k,
    dict_get k (Sync.sot_loop by_day days out)
    = if mem_string k (map strftime_Ymd days)
      then Some (Sync.day_value (Sync.dict_get_default k by_day))
      else dict_get k out.
Proof.
  induction days as [|d days IH]; intros out k; simpl; [reflexivity|].
  rewrite IH, dict_get_set.
  destruct (mem_string k (map strftime_Ymd days));
    [rewrite orb_true_r; reflexivity|].
  rewrite orb_false_r.
  destruct (String.eqb_spec (strftime_Ymd d) k) as [->|N]; reflexivity.
Qed.

Lemma sot_loop_keys (by_day : list (string * list datapoint)) (days : list date) :
  forall out k,
    In k (dict_keys (Sync.sot_loop by_day days out)) <->
    In k (dict_keys out) \/ exists d, In d days /\ k = strftime_Ymd d.
Proof.
  induction days as [|d days IH]; intros out k; simpl.
  - split; [left; assumption | intros [I | (d & [] & _)]; exact I].
  - rewrite IH, dict_set_keys. split.
    + intros [[-> | I] | (x & I & E)].
      * right. exists d. auto.
      * left. exact I.
      * right. exists x. auto.
    + intros [I | (x & [<- | I] & E)].
      * left. right. exact I.
      * left. left. exact E.
      * right. exists x. auto.
Qed.

Lemma sot_loop_NoDup (by_day : list (string * list datapoint)) (days : list date) :
  forall out, NoDup (dict_keys out) ->
              NoDup (dict_keys (Sync.sot_loop by_day days out)).
Proof.
  induction days as [|d days IH]; intros out ND; simpl; [exact ND|].
  apply IH, dict_set_NoDup, ND.
Qed.

(** C10.  For datapoints the bucketing loop can file (see [datable]),
    [compute_sot_for_range] returns a mapping whose keys are exactly the
    daystamps of the days from [start_date] to [end_date] inclusive, each
    once; every value is 0 or 1; the value of a day is 1 exactly when one
    of the datapoints filed under it qualifies, so a day with no datapoint
    or with no parseable qualifying comment maps to 0. *)
Theorem compute_sot_for_range_mapping
        (dps : list datapoint) (start_date end_date : date) :
  start_date <= end_date ->
  Forall datable dps ->
  exists sot,
    Sync.compute_sot_for_range dps start_date end_date = Ok sot
    /\ (forall k, In k (dict_keys sot) <->
                  exists d, start_date <= d <= end_date /\ k = strftime_Ymd d)
    /\ NoDup (dict_keys sot)
    /\ (forall k v, dict_get k sot = Some v -> v = 0 \/ v = 1)
    /\ (forall d, start_date <= d <= end_date ->
          (dict_get (strftime_Ymd d) sot = Some 1 <->
           exists dp, In dp dps /\ in_day (strftime_Ymd d) dp = true /\ qualifying dp)
          /\ ((forall dp, In dp dps -> in_day (strftime_Ymd d) dp = true ->
                          ~ qualifying dp) ->
              dict_get (strftime_Ymd d) sot = Some 0)).
Proof.
  intros _ Hd.
  assert (Hd' : Forall (fun dp => exists o, Sync.bucket_day dp = Ok o) dps).
  { eapply Forall_impl; [|exact Hd]. intros dp. apply datable_bucket_day. }
  destruct (bucket_by_day_total dps Hd' []) as (by_day & Hb).
  unfold Sync.compute_sot_for_range. rewrite Hb. simpl obind.
  eexists. split; [reflexivity|].
  assert (G : forall k, Sync.dict_get_default k by_day = filter (in_day k) dps).
  { intro k. apply (bucket_by_day_get _ _ _ Hb k). }
  assert (K : forall d, start_date <= d <= end_date ->
                        mem_string (strftime_Ymd d)
                          (map strftime_Ymd (Sync.daterange start_date end_date)) = true).
  { intros d Hr. apply mem_string_In, in_map, daterange_In, Hr. }
  split; [|split; [|split]].
  - intro k. rewrite sot_loop_keys. split.
    + intros [[] | (d & I & E)]. exists d. split; [apply daterange_In, I | exact E].
    + intros (d & Hr & E). right. exists d. split; [apply daterange_In, Hr | exact E].
  - apply sot_loop_NoDup. constructor.
  - intros k v. rewrite sot_loop_get.
    destruct (mem_string k _); [|discriminate].
    intro H. inversion H; subst. apply day_value_spec.
  - intros d Hr. rewrite sot_loop_get, (K d Hr), G.
    destruct (day_value_spec (filter (in_day (strftime_Ymd d)) dps)) as [S B].
    assert (X : Sync.day_value (filter (in_day (strftime_Ymd d)) dps) = 1 <->
                exists dp, In dp dps /\ in_day (strftime_Ymd d) dp = true
                           /\ qualifying dp).
    { rewrite S. split.
      - intros (dp & I & Q). apply filter_In in I. exists dp. tauto.
      - intros (dp & I & T & Q). exists dp. split; [apply filter_In; auto | exact Q]. }
    split.
    + rewrite <- X. split; [intro H; inversion H; reflexivity | intros ->; reflexivity].
    + intros N. destruct B as [B|B]; [rewrite B; reflexivity|].
      exfalso. apply X in B. destruct B as (dp & I & T & Q). exact (N dp I T Q).
Qed.
End Range.

(** ** C9: the range of a full-history run *)

Section FullHistory.
Context {P : Platform} {R : Remote}.
Variable cfg : Config.

Lemma py_min_spec (l : list Q) :
  forall x, In (Sync.py_min x l) (x :: l)
            /\ forall y, In y (x :: l) -> (Sync.py_min x l <= y)%Q.
Proof.
  unfold Sync.py_min.
  induction l as [|a l IH]; intro x; simpl.
  - split; [left; reflexivity|]. intros y [<- | []]. apply Qle_refl.
  - destruct (Qltb a x) eqn:L.
    + destruct (IH a) as [I M]. split.
      * right. exact I.
      * intros y [<- | I'].
        -- apply Qltb_lt in L. eapply Qle_trans; [apply M; left; reflexivity|].
           apply Qlt_le_weak, L.
        -- apply M, I'.
    + destruct (IH x) as [I M]. split.
      * destruct I as [I | I]; [left; exact I | right; right; exact I].
      * intros y [<- | [<- | I']].
        -- apply M. left; reflexivity.
        -- apply Qltb_ge in L. eapply Qle_trans; [apply M; left; reflexivity | exact L].
        -- apply M. right. exact I'.
Qed.

Lemma numeric_timestamps_In (dps : list datapoint) (q : Q) :
  In q (Sync.numeric_timestamps dps) <->
  exists dp, In dp dps /\ as_number (dp_timestamp dp) = Some q.
Proof.
  induction dps as [|dp dps IH]; simpl.
  - split; [intros [] | intros (dp & [] & _)].
  - destruct (as_number (dp_timestamp dp)) as [t|] eqn:E; simpl; rewrite IH.
    + split.
      * intros [<- | (x & I & H)]; [exists dp; auto | exists x; auto].
      * intros (x & [<- | I] & H); [left; congruence | right; exists x; auto].
    + split.
      * intros (x & I & H). exists x; auto.
      * intros (x & [<- | I] & H); [congruence | exists x; auto].
Qed.

(** C9.  In full-history mode, once the Focusmate datapoints are fetched,
    the range ends today; it starts on the local date of the earliest
    numeric timestamp among them, and when no fetched datapoint has a
    numeric timestamp it is the single day today. *)
Theorem full_history_range (fuel : nat) (today : date)
        (fm_all : list datapoint) (w w1 : world) :
  FULL_HISTORY cfg = true ->
  Sync.fetch_all_datapoints cfg fuel FOCUSMATE_GOAL w = (Ok fm_all, w1) ->
  ((forall dp, In dp fm_all -> as_number (dp_timestamp dp) = None) ->
   Sync.determine_range cfg fuel today w = (Ok (today, today, fm_all), w1)
   /\ Sync.daterange today today = [today])
  /\ (forall dp t, In dp fm_all -> as_number (dp_timestamp dp) = Some t ->
        exists earliest,
          (exists dp', In dp' fm_all /\ as_number (dp_timestamp dp') = Some earliest)
          /\ (forall dp' t', In dp' fm_all -> as_number (dp_timestamp dp') = Some t' ->
                             (earliest <= t')%Q)
          /\ Sync.determine_range cfg fuel today w
             = match local_date_of_timestamp earliest with
               | Some start_date => (Ok (start_date, today, fm_all), w1)
               | None => (Raise OverflowError, w1)
               end).
Proof.
  intros Hfull Hfetch. unfold Sync.determine_range. rewrite Hfull.
  rewrite (bind_ok _ _ _ _ _ Hfetch). split.
  - intros Hnone. split.
    + destruct (Sync.numeric_timestamps fm_all) as [|t ts] eqn:E; [reflexivity|].
      exfalso. assert (I : In t (Sync.numeric_timestamps fm_all))
        by (rewrite E; left; reflexivity).
      apply numeric_timestamps_In in I. destruct I as (dp & I & H).
      rewrite (Hnone dp I) in H. discriminate.
    + rewrite daterange_unfold, Z.leb_refl, daterange_unfold.
      destruct (Z.leb_spec (today + 1) today); [lia | reflexivity].
  - intros dp t I H.
    destruct (Sync.numeric_timestamps fm_all) as [|t0 ts] eqn:E.
    + exfalso. assert (X : In t (Sync.numeric_timestamps fm_all))
        by (apply numeric_timestamps_In; exists dp; auto).
      rewrite E in X. exact X.
    + exists (Sync.py_min t0 ts). destruct (py_min_spec ts t0) as [Imin Mmin].
      split; [|split].
      * apply numeric_timestamps_In. rewrite E. exact Imin.
      * intros dp' t' I' H'. apply Mmin. rewrite <- E.
        apply numeric_timestamps_In. exists dp'; auto.
      * destruct (local_date_of_timestamp (Sync.py_min t0 ts)); reflexivity.
Qed.
End FullHistory.

(** ** C1: HTTP failures of a create *)

Section Create.
Context {R : Remote}.
Variable cfg : Config.

(** Every response that [raise_for_status] rejects, a duplicate-request
    422 included, makes [add_datapoint] raise the failure that carries the
    status and the body; any other response is returned. *)
Lemma add_datapoint_outcome (goal : string) (value : Z) (comment daystamp : string)
      (requestid : option string) (w : world) :
  DRY_RUN cfg = false ->
  let req := POST goal value comment (Some daystamp)
                  (if truthy requestid then requestid else None) in
  let resp := fst (serve req (remote w)) in
  fst (Sync.add_datapoint cfg goal value comment daystamp requestid w)
  = if raises_for_status resp
    then Raise (RuntimeError ("POST " ++ (goal ++ " " ++ daystamp) ++ " -> "
                                ++ str_of_Z (status_code resp) ++ ": "
                                ++ text resp)%string)
    else Ok (body resp).
Proof.
  intros live req resp. unfold Sync.add_datapoint. rewrite live.
  unfold bind, http, raise, ret. subst resp req.
  destruct (serve _ (remote w)) as [resp s]. simpl fst.
  destruct (raises_for_status resp); reflexivity.
Qed.
End Create.

(** C1.  On the duplicate-request response (status 422) [add_datapoint]
    raises [RuntimeError] with the status and the body, where the claim and
    the repository's test expect a normal return. *)
Theorem add_datapoint_duplicate_raises :
  fst (Sync.add_datapoint Examples.live "goal" 1 "c" "20250101" (Some "r1")
                           Examples.seen_r1)
  = Raise (RuntimeError ("POST goal 20250101 -> 422: " ++ Beeminder.duplicate_text)).
Proof. vm_compute. reflexivity. Qed.

(** ** C5, C6, C7: one day of [reconcile_history] *)

Section OneDay.
Context {P : Platform} {R : Remote}.
Variable cfg : Config.
Hypothesis live : DRY_RUN cfg = false.

Lemma delete_requests_In (dps : list datapoint) (r : request) :
  In r (delete_requests dps) <->
  exists dp i, In dp dps /\ dp_id dp = Some i /\ i <> ""
               /\ r = DELETE WAKEANDFOCUS_GOAL i.
Proof.
  unfold delete_requests. rewrite in_flat_map. split.
  - intros (dp & I & H). destruct (dp_id dp) as [i|] eqn:E; [|destruct H].
    destruct (truthy (Some i)) eqn:T; [|destruct H].
    destruct H as [<- | []]. exists dp, i. apply truthy_Some in T. auto.
  - intros (dp & i & I & E & N & ->). exists dp. split; [exact I|].
    rewrite E. apply truthy_Some in N. rewrite N. left; reflexivity.
Qed.

Lemma delete_requests_are_deletes (dps : list datapoint) :
  filter is_DELETE (delete_requests dps) = delete_requests dps
  /\ filter is_PUT (delete_requests dps) = [].
Proof.
  unfold delete_requests. induction dps as [|dp dps [IH1 IH2]].
  - split; reflexivity.
  - cbn [flat_map]. rewrite !filter_app, IH1, IH2.
    destruct (dp_id dp) as [i|]; [|split; reflexivity].
    destruct (truthy (Some i)); split; reflexivity.
Qed.

Lemma update_requests_are_updates (v : Z) (ds : string) (keeper : datapoint) :
  filter is_DELETE (update_requests v ds keeper) = []
  /\ filter is_PUT (update_requests v ds keeper) = update_requests v ds keeper.
Proof.
  unfold update_requests. destruct (needs_update v ds keeper); [|split; reflexivity].
  destruct (dp_id keeper) as [i|]; [|split; reflexivity].
  destruct (truthy (Some i)); split; reflexivity.
Qed.

(** The selection of [reconcile_day] as the code makes it.  When
    datapoints exist for a day, the keeper is one of them and no datapoint
    of the day has a larger [_dp_updated_key]; that key looks at
    [updated_at] only when it is text (see C5 below for what this does to
    a numeric [updated_at]); the other datapoints of the day are the
    extras, and in a run of the day that completes the delete requests are
    exactly those for the extras that carry a non-empty id, in order. *)
Theorem keeper_is_newest_and_identified_extras_are_deleted
        (wf_by_day : list (string * list datapoint)) (ds : string) (sot_val : Z)
        (keeper : datapoint) (extras : list datapoint) (w w' : world) :
  py_sorted Sync.newer (Sync.dict_get_default ds wf_by_day) = keeper :: extras ->
  Sync.reconcile_day cfg wf_by_day (ds, sot_val) w = (Ok tt, w') ->
  In keeper (Sync.dict_get_default ds wf_by_day)
  /\ (forall dp, In dp (Sync.dict_get_default ds wf_by_day) ->
                 (Sync._dp_updated_key dp <= Sync._dp_updated_key keeper)%Q)
  /\ (forall dp,
        Sync._dp_updated_key dp
        = match match dp_updated_at dp with
                | PStr u => fromisoformat_timestamp (replace_Z u)
                | _ => None
                end,
                as_number (dp_timestamp dp) with
          | Some parsed, _ => parsed
          | None, Some raw => raw
          | None, None => 0%Q
          end)
  /\ Permutation (Sync.dict_get_default ds wf_by_day) (keeper :: extras)
  /\ exists reqs,
      sent w' = sent w ++ reqs
      /\ filter is_DELETE reqs = delete_requests extras
      /\ forall r, In r (filter is_DELETE reqs) <->
                   exists dp i, In dp extras /\ dp_id dp = Some i /\ i <> ""
                                /\ r = DELETE WAKEANDFOCUS_GOAL i.
Proof.
  intros Hs Hrun.
  destruct (head_is_max Sync._dp_updated_key _ _ _ Hs) as [Hin Hmax].
  split; [exact Hin|]. split; [exact Hmax|]. split.
  { intro dp. unfold Sync._dp_updated_key.
    destruct (dp_updated_at dp) as [| b | z | q | u];
      destruct (as_number (dp_timestamp dp)); reflexivity. }
  split.
  { rewrite <- Hs. apply py_sorted_perm. }
  rewrite (reconcile_day_sends cfg live) in Hrun.
  unfold day_requests in Hrun. simpl fst in Hrun. simpl snd in Hrun.
  rewrite Hs in Hrun. apply send_all_inv in Hrun. destruct Hrun as (S & _).
  eexists. split; [exact S|].
  destruct (delete_requests_are_deletes extras) as [D1 _].
  destruct (update_requests_are_updates sot_val ds keeper) as [U1 _].
  rewrite filter_app, D1, U1, app_nil_r. split; [reflexivity|].
  intro r. apply delete_requests_In.
Qed.

(** C6, as amended, for [reconcile_history].  In a run of the day that
    completes, the deletes of the extras come first and are followed by at
    most one request: a single update of the keeper with the SoT value and
    the canonical comment together, sent exactly when the keeper carries a
    non-empty id and its rounded value or its comment differs; nothing is
    sent after the deletes when both match or when the keeper has no id.
    The single-day program has no such guard on the id (see C7 and
    [single_day_updates_keeper_with_empty_id]) and is not covered. *)
Theorem one_update_iff_identified_keeper_differs
        (wf_by_day : list (string * list datapoint)) (ds : string) (sot_val : Z)
        (keeper : datapoint) (extras : list datapoint) (w w' : world) :
  py_sorted Sync.newer (Sync.dict_get_default ds wf_by_day) = keeper :: extras ->
  Sync.reconcile_day cfg wf_by_day (ds, sot_val) w = (Ok tt, w') ->
  let differs :=
    py_round (keeper_value keeper) <> sot_val
    \/ or_empty (dp_comment keeper) <> comment_ok sot_val ds in
  exists updates,
    sent w' = sent w ++ delete_requests extras ++ updates
    /\ (forall i, dp_id keeper = Some i -> i <> "" -> differs ->
                  updates = [PUT WAKEANDFOCUS_GOAL i sot_val (comment_ok sot_val ds)
                                 (if (ds =? "")%string then None else Some ds)])
    /\ (~ differs -> updates = [])
    /\ (truthy (dp_id keeper) = false -> updates = []).
Proof.
  intros Hs Hrun differs.
  rewrite (reconcile_day_sends cfg live) in Hrun.
  unfold day_requests in Hrun. simpl fst in Hrun. simpl snd in Hrun.
  rewrite Hs in Hrun. apply send_all_inv in Hrun. destruct Hrun as (S & _).
  exists (update_requests sot_val ds keeper). split; [exact S|].
  assert (N : needs_update sot_val ds keeper = true <-> differs).
  { unfold needs_update, differs.
    rewrite orb_true_iff, !negb_true_iff, Z.eqb_neq, String.eqb_neq. reflexivity. }
  unfold update_requests. split; [|split].
  - intros i E Hi D. apply N in D. rewrite D, E.
    apply truthy_Some in Hi. rewrite Hi. simpl truthy.
    destruct (ds =? "")%string; reflexivity.
  - intro ND. destruct (needs_update sot_val ds keeper); [|reflexivity].
    exfalso. apply ND, N. reflexivity.
  - intro T. destruct (needs_update sot_val ds keeper); [|reflexivity].
    destruct (dp_id keeper) as [i|]; [|reflexivity]. rewrite T. reflexivity.
Qed.

(** [reconcile_day] never raises for a missing id: whatever it raises is
    the failure of a request it sent. *)
Lemma reconcile_day_raises_only_http
      (wf_by_day : list (string * list datapoint)) (item : string * Z)
      (w w' : world) (e : exn) :
  Sync.reconcile_day cfg wf_by_day item w = (Raise e, w') ->
  exists r resp, raises_for_status resp = true /\ e = failure_of r resp.
Proof.
  rewrite (reconcile_day_sends cfg live). intro H.
  apply send_all_raises in H. destruct H as (r & resp & _ & F & E).
  exists r, resp. split; assumption.
Qed.
End OneDay.

(** ** C8: strict purge *)

Section Purge.
Context {P : Platform} {R : Remote}.
Variable cfg : Config.

Lemma fetch_dry (fuel : nat) (goal : string) (w : world) :
  DRY_RUN cfg = true ->
  Sync.fetch_all_datapoints cfg fuel goal w = (Ok [], w).
Proof.
  intro dry. unfold Sync.fetch_all_datapoints, Sync._need_auth, bind.
  rewrite dry, andb_false_r. reflexivity.
Qed.

Lemma reconcile_history_dry (fuel : nat) (sot_map : list (string * Z)) (w : world) :
  DRY_RUN cfg = true ->
  Sync.reconcile_history cfg fuel sot_map w = (Ok tt, w).
Proof.
  intro dry. unfold Sync.reconcile_history.
  rewrite (bind_ok _ _ _ _ _ (fetch_dry fuel _ w dry)).
  unfold lift, bind at 1. simpl Sync.bucket_by_day. cbv iota beta.
  assert (L : forall items, for_each items (Sync.reconcile_day cfg []) w = (Ok tt, w)).
  { induction items as [|[ds v] items IH]; [reflexivity|].
    assert (E : Sync.reconcile_day cfg [] (ds, v) w = (Ok tt, w)).
    { unfold Sync.reconcile_day, Sync.dict_get_default. simpl.
      unfold Sync.add_datapoint. rewrite dry. reflexivity. }
    cbn [for_each]. rewrite (bind_ok _ _ _ _ _ E). exact IH. }
  rewrite (bind_ok _ _ _ _ _ (L _)). destruct (STRICT_PURGE cfg); reflexivity.
Qed.

Lemma day_requests_deletes (wf_all : list datapoint)
      (wf_by_day : list (string * list datapoint)) (item : string * Z) (r : request) :
  Sync.bucket_by_day wf_all [] = Ok wf_by_day ->
  In r (day_requests wf_by_day item) -> is_DELETE r = true ->
  exists dp i, In dp wf_all /\ in_day (fst item) dp = true
               /\ dp_id dp = Some i /\ i <> "" /\ r = DELETE WAKEANDFOCUS_GOAL i.
Proof.
  intros Hb I D. unfold day_requests in I.
  destruct (py_sorted Sync.newer (Sync.dict_get_default (fst item) wf_by_day))
    as [|keeper extras] eqn:E.
  - destruct I as [<- | []]. discriminate.
  - apply in_app_or in I. destruct I as [I | I].
    + apply delete_requests_In in I. destruct I as (dp & i & I & Ei & N & ->).
      assert (G : In dp (Sync.dict_get_default (fst item) wf_by_day)).
      { apply (py_sorted_In Sync.newer). rewrite E. right. exact I. }
      rewrite (bucket_by_day_get _ _ _ Hb) in G. simpl in G.
      apply filter_In in G. exists dp, i. tauto.
    + exfalso. destruct (update_requests_are_updates (snd item) (fst item) keeper)
        as [U _].
      assert (X : In r (filter is_DELETE (update_requests (snd item) (fst item) keeper)))
        by (apply filter_In; auto).
      rewrite U in X. exact X.
Qed.

Lemma purge_requests_In (sot_map : list (string * Z)) (wf_all : list datapoint)
      (wf_by_day : list (string * list datapoint)) (r : request) :
  Sync.bucket_by_day wf_all [] = Ok wf_by_day ->
  In r (purge_requests sot_map wf_by_day) <->
  exists dp ds i, In dp wf_all /\ in_day ds dp = true
                  /\ ~ In ds (dict_keys sot_map)
                  /\ dp_id dp = Some i /\ i <> "" /\ r = DELETE WAKEANDFOCUS_GOAL i.
Proof.
  intro Hb. unfold purge_requests. rewrite in_flat_map. split.
  - intros ([ds g] & I & H). simpl in H.
    destruct (mem_string ds (dict_keys sot_map)) eqn:M; [destruct H|].
    simpl in H. apply delete_requests_In in H.
    destruct H as (dp & i & Ig & Ei & N & ->).
    rewrite (bucket_by_day_entry _ _ _ _ Hb I) in Ig. apply filter_In in Ig.
    exists dp, ds, i. repeat split; try tauto.
    intro X. apply mem_string_In in X. congruence.
  - intros (dp & ds & i & I & T & N & Ei & Ni & ->).
    assert (K : In ds (dict_keys wf_by_day)).
    { apply (bucket_by_day_keys _ _ _ Hb). right. exists dp. auto. }
    destruct (dict_get ds wf_by_day) as [g|] eqn:G.
    + apply dict_get_In in G. exists (ds, g). split; [exact G|]. simpl.
      replace (mem_string ds (dict_keys sot_map)) with false.
      * simpl. apply delete_requests_In. exists dp, i. repeat split; try assumption.
        rewrite (bucket_by_day_entry _ _ _ _ Hb G). apply filter_In. auto.
      * symmetry. destruct (mem_string ds (dict_keys sot_map)) eqn:M; [|reflexivity].
        apply mem_string_In in M. contradiction.
    + apply dict_get_None in G. contradiction.
Qed.

(** C8, as amended.  In a run that completes, the requests after the
    fetch are those of the SoT days followed by those of the purge.  With
    the strict-purge flag on, the purge requests are exactly the deletes
    of the fetched datapoints that carry a non-empty id and are filed
    under a day absent from the SoT mapping; with the flag off there is
    none.  Every delete among the requests of the SoT days is for a
    datapoint filed under a day of the mapping (a duplicate). *)
Theorem strict_purge_deletes_identified_strays
        (fuel : nat) (sot_map : list (string * Z)) (wf_all : list datapoint)
        (w w1 w' : world) :
  Sync.fetch_all_datapoints cfg fuel WAKEANDFOCUS_GOAL w = (Ok wf_all, w1) ->
  Sync.reconcile_history cfg fuel sot_map w = (Ok tt, w') ->
  exists day_reqs purge_reqs,
    sent w' = sent w1 ++ day_reqs ++ purge_reqs
    /\ (forall r, In r day_reqs -> is_DELETE r = true ->
          exists dp ds i, In dp wf_all /\ in_day ds dp = true
                          /\ In ds (dict_keys sot_map)
                          /\ dp_id dp = Some i /\ r = DELETE WAKEANDFOCUS_GOAL i)
    /\ (STRICT_PURGE cfg = true ->
        forall r, In r purge_reqs <->
          exists dp ds i, In dp wf_all /\ in_day ds dp = true
                          /\ ~ In ds (dict_keys sot_map)
                          /\ dp_id dp = Some i /\ i <> ""
                          /\ r = DELETE WAKEANDFOCUS_GOAL i)
    /\ (STRICT_PURGE cfg = false -> purge_reqs = []).
Proof.
  intros Hf Hrun. destruct (DRY_RUN cfg) eqn:dry.
  - rewrite (fetch_dry fuel _ w dry) in Hf. inversion Hf; subst.
    rewrite (reconcile_history_dry fuel sot_map _ dry) in Hrun. inversion Hrun; subst.
    exists [], []. split; [rewrite app_nil_r; reflexivity|].
    split; [intros r []|]. split; [|reflexivity].
    intros _ r. split; [intros [] | intros (dp & _ & _ & [] & _)].
  - destruct (Sync.bucket_by_day wf_all []) as [by_day | e |] eqn:Hb.
    + rewrite (reconcile_history_sends cfg dry fuel sot_map _ _ _ _ Hf Hb) in Hrun.
      apply send_all_inv in Hrun. destruct Hrun as (S & _).
      unfold planned_requests in S.
      exists (flat_map (day_requests by_day) (py_sorted item_lt sot_map)),
             (if STRICT_PURGE cfg then purge_requests sot_map by_day else []).
      split; [exact S|]. split; [|split].
      * intros r I D. apply in_flat_map in I. destruct I as (item & Ii & Ir).
        destruct (day_requests_deletes _ _ _ _ Hb Ir D) as (dp & i & I1 & I2 & I3 & _ & E).
        exists dp, (fst item), i. repeat split; try assumption.
        apply py_sorted_In in Ii. apply (in_map fst) in Ii. exact Ii.
      * intros -> r. apply purge_requests_In, Hb.
      * intros ->. reflexivity.
    + exfalso. unfold Sync.reconcile_history in Hrun.
      rewrite (bind_ok _ _ _ _ _ Hf) in Hrun. unfold lift, bind in Hrun.
      rewrite Hb in Hrun. discriminate.
    + exfalso. unfold Sync.reconcile_history in Hrun.
      rewrite (bind_ok _ _ _ _ _ Hf) in Hrun. unfold lift, bind in Hrun.
      rewrite Hb in Hrun. discriminate.
Qed.
End Purge.

(** ** The model of the remote service *)

Section Model.
Context {P : Platform}.
Variable cfg : Config.
#[local] Existing Instance Beeminder.remote_model.

Lemma string_length_append (a b : string) :
  String.length (a ++ b) = (String.length a + String.length b)%nat.
Proof. induction a as [|c a IH]; simpl; [reflexivity | rewrite IH; reflexivity]. Qed.

Lemma concat_covers (i : string) (l : list string) :
  In i l -> (String.length i <= String.length (String.concat "" l))%nat.
Proof.
  induction l as [|x l IH]; intros []; subst.
  - destruct l as [|y l]; simpl; [lia|].
    rewrite string_length_append. lia.
  - specialize (IH H). destruct l as [|y l]; [destruct H|].
    change (String.concat "" (x :: y :: l))
      with (x ++ "" ++ String.concat "" (y :: l))%string.
    rewrite !string_length_append. simpl String.length at 2. lia.
Qed.

Lemma fresh_id_unknown (s : Beeminder.state) :
  ~ In (Beeminder.fresh_id s) (Beeminder.known s).
Proof.
  intro I. apply concat_covers in I. unfold Beeminder.fresh_id in I.
  simpl in I. lia.
Qed.

Lemma ids_In (pts : list datapoint) (i : string) :
  In i (Beeminder.ids pts) <-> exists dp, In dp pts /\ dp_id dp = Some i.
Proof.
  unfold Beeminder.ids. rewrite in_flat_map. split.
  - intros (dp & I & H). exists dp. split; [exact I|].
    destruct (dp_id dp) as [j|]; [|destruct H]. destruct H as [<- | []]. reflexivity.
  - intros (dp & I & E). exists dp. split; [exact I|]. rewrite E. left; reflexivity.
Qed.

Lemma has_id_true (i : string) (dp : datapoint) :
  Beeminder.has_id i dp = true <-> dp_id dp = Some i.
Proof.
  unfold Beeminder.has_id. destruct (dp_id dp) as [j|].
  - rewrite String.eqb_eq. split; congruence.
  - split; discriminate.
Qed.

Lemma has_id_updated (i : string) (v : Z) (c : string) (d : option string)
      (dp : datapoint) :
  Beeminder.has_id i (Beeminder.updated v c d dp) = Beeminder.has_id i dp.
Proof. reflexivity. Qed.

Lemma firstn_add {A} (a b : nat) (l : list A) :
  firstn (a + b) l = firstn a l ++ firstn b (skipn a l).
Proof.
  revert l. induction a as [|a IH]; intro l; simpl; [reflexivity|].
  destruct l as [|x l]; simpl.
  - destruct b; reflexivity.
  - rewrite IH. reflexivity.
Qed.

(** The pagination loop against the model: it changes nothing on the
    remote, sends only reads, and returns all the datapoints unless it runs
    out of fuel, which it does not when the fuel covers the pages. *)
Lemma fetch_pages_model (goal : string) (fuel : nat) :
  forall (n : nat) (w : world),
    let pts := Beeminder.points (remote w) in
    let r := Sync.fetch_pages fuel goal (Z.of_nat n + 1) (firstn (100 * n) pts) w in
    remote (snd r) = remote w /\ sot_db (snd r) = sot_db w
    /\ filter is_mutation (sent (snd r)) = filter is_mutation (sent w)
    /\ (fst r = Ok pts \/ fst r = OutOfFuel)
    /\ ((100 * n <= List.length pts < 100 * (n + fuel))%nat -> fst r = Ok pts).
Proof.
  induction fuel as [|fuel IH]; intros n w pts r.
  - subst r. simpl. repeat split; auto. intro L. exfalso. lia.
  - subst r. cbn [Sync.fetch_pages].
    set (w1 := {| remote := remote w;
                  sent := sent w ++ [GET goal (Some (Z.of_nat n + 1)) 100];
                  sot_db := sot_db w |}).
    set (batch := firstn 100 (skipn (100 * n) pts)).
    assert (H : http (GET goal (Some (Z.of_nat n + 1)) 100) w
                = (Ok (Beeminder.reply 200 "" (JArray batch)), w1)).
    { unfold http. cbn [serve Beeminder.remote_model Beeminder.handle].
      unfold Beeminder.page_of, w1, batch, pts.
      replace (Z.to_nat ((Z.of_nat n + 1 - 1) * 100)) with (100 * n)%nat by lia.
      replace (Z.to_nat 100) with 100%nat by reflexivity. reflexivity. }
    rewrite (bind_ok _ _ _ _ _ H).
    change (raises_for_status (Beeminder.reply 200 "" (JArray batch))) with false.
    cbv iota. change (body (Beeminder.reply 200 "" (JArray batch))) with (JArray batch).
    cbv iota.
    assert (M1 : filter is_mutation (sent w1) = filter is_mutation (sent w)).
    { unfold w1. simpl sent. rewrite filter_app. simpl. apply app_nil_r. }
    destruct batch as [|x batch'] eqn:B.
    + assert (E : firstn (100 * n) pts = pts).
      { apply firstn_all2.
        destruct (skipn (100 * n) pts) as [|y l] eqn:K.
        - apply (f_equal (@List.length _)) in K. rewrite length_skipn in K.
          simpl in K. lia.
        - subst batch. discriminate. }
      rewrite E. simpl. repeat split; auto.
    + rewrite <- B.
      assert (LB : (List.length batch <= 100)%nat)
        by (unfold batch; apply firstn_le_length).
      destruct (Z.ltb_spec (Z.of_nat (List.length batch)) 100) as [Hlen | Hlen].
      * assert (E : firstn (100 * n) pts ++ batch = pts).
        { assert (K : batch = skipn (100 * n) pts).
          { unfold batch. apply firstn_all2.
            unfold batch in Hlen. rewrite length_firstn in Hlen. lia. }
          rewrite K. apply firstn_skipn. }
        rewrite E. simpl. repeat split; auto.
      * assert (E : firstn (100 * n) pts ++ batch = firstn (100 * S n) pts).
        { unfold batch. replace (100 * S n)%nat with (100 * n + 100)%nat by lia.
          symmetry. apply firstn_add. }
        rewrite E. replace (Z.of_nat n + 1 + 1) with (Z.of_nat (S n) + 1) by lia.
        specialize (IH (S n) w1). cbv zeta in IH.
        change (Beeminder.points (remote w1)) with pts in IH.
        destruct IH as (R & D & M & O & T).
        repeat split; auto.
        -- rewrite M. exact M1.
        -- intro L. apply T. split; [|lia].
           assert (X : List.length batch = 100%nat) by lia.
           unfold batch in X. rewrite length_firstn, length_skipn in X. lia.
Qed.

Lemma fetch_model_ok (fuel : nat) (goal : string) (w wa : world)
      (l : list datapoint) :
  DRY_RUN cfg = false ->
  Sync.fetch_all_datapoints cfg fuel goal w = (Ok l, wa) ->
  l = Beeminder.points (remote w) /\ remote wa = remote w
  /\ sot_db wa = sot_db w
  /\ filter is_mutation (sent wa) = filter is_mutation (sent w)
  /\ truthy (AUTH_TOKEN cfg) = true.
Proof.
  intros live H. unfold Sync.fetch_all_datapoints, Sync._need_auth in H.
  rewrite live in H. simpl negb in H. rewrite andb_true_r in H.
  destruct (truthy (AUTH_TOKEN cfg)); [|discriminate].
  simpl in H. unfold bind, ret in H.
  pose proof (fetch_pages_model goal fuel 0 w) as F. cbv zeta in F.
  change (Z.of_nat 0 + 1) with 1 in F. simpl firstn in F.
  rewrite H in F. simpl in F. destruct F as (R & D & M & [O | O] & _).
  - inversion O; subst. auto.
  - discriminate.
Qed.

Lemma fetch_model_total (fuel : nat) (goal : string) (w : world) :
  DRY_RUN cfg = false -> truthy (AUTH_TOKEN cfg) = true ->
  (List.length (Beeminder.points (remote w)) < 100 * fuel)%nat ->
  exists wa, Sync.fetch_all_datapoints cfg fuel goal w
             = (Ok (Beeminder.points (remote w)), wa).
Proof.
  intros live auth L. unfold Sync.fetch_all_datapoints, Sync._need_auth.
  rewrite live, auth. simpl. unfold bind, ret.
  pose proof (fetch_pages_model goal fuel 0 w) as F. cbv zeta in F.
  change (Z.of_nat 0 + 1) with 1 in F. simpl firstn in F.
  destruct F as (_ & _ & _ & _ & T).
  assert (L' : (100 * 0 <= List.length (Beeminder.points (remote w)) < 100 * (0 + fuel))%nat)
    by lia.
  specialize (T L').
  destruct (Sync.fetch_pages fuel goal 1 [] w) as [o wa]. simpl in T. subst o.
  exists wa. reflexivity.
Qed.
End Model.

(** ** The fate of the stored datapoints *)

Section Fate.
#[local] Existing Instance Beeminder.remote_model.

Lemma addressed_to_updated (r : request) (v : Z) (c : string) (d : option string)
      (dp : datapoint) :
  Beeminder.addressed_to (Beeminder.updated v c d dp) r = Beeminder.addressed_to dp r.
Proof. reflexivity. Qed.

Lemma updated_twice (v : Z) (c : string) (d : option string) (dp : datapoint) :
  Beeminder.updated v c d (Beeminder.updated v c d dp) = Beeminder.updated v c d dp.
Proof. destruct d; reflexivity. Qed.

(** A delete addressed to the datapoint removes it, wherever it stands in
    the list. *)
Lemma fate_deleted (reqs : list request) :
  forall dp goal i,
    In (DELETE goal i) reqs -> Beeminder.has_id i dp = true ->
    Beeminder.fate reqs dp = [].
Proof.
  induction reqs as [|r reqs IH]; intros dp goal i I H; [destruct I|].
  destruct I as [-> | I].
  - simpl. rewrite H. reflexivity.
  - destruct r as [g p n | g v c d q | g j v c d | g j]; simpl.
    + eapply IH; eauto.
    + eapply IH; eauto.
    + eapply IH; [exact I|]. destruct (Beeminder.has_id j dp); [|exact H].
      rewrite has_id_updated. exact H.
    + destruct (Beeminder.has_id j dp); [reflexivity | eapply IH; eauto].
Qed.

(** When every request addressed to the datapoint is one and the same
    update, the datapoint is updated if there is such a request and kept as
    it is otherwise. *)
Lemma fate_one_update (goal i : string) (v : Z) (c : string) (d : option string)
      (reqs : list request) :
  forall dp,
    (forall r, In r reqs -> Beeminder.addressed_to dp r = true ->
               r = PUT goal i v c d) ->
    Beeminder.fate reqs dp
    = [if existsb (Beeminder.addressed_to dp) reqs
       then Beeminder.updated v c d dp else dp].
Proof.
  induction reqs as [|r reqs IH]; intros dp H; [reflexivity|].
  assert (Hr : forall r', In r' reqs -> Beeminder.addressed_to dp r' = true ->
                          r' = PUT goal i v c d)
    by (intros r' I; apply H; right; exact I).
  cbn [existsb]. destruct (Beeminder.addressed_to dp r) eqn:A.
  - pose proof (H r (or_introl eq_refl) A) as Er. subst r.
    unfold Beeminder.addressed_to in A. simpl in A. simpl Beeminder.fate. rewrite A.
    rewrite IH by (intros r' I; rewrite addressed_to_updated; apply Hr, I).
    simpl orb. rewrite updated_twice. destruct (existsb _ reqs); reflexivity.
  - simpl orb. rewrite <- (IH dp Hr).
    destruct r as [g p n | g v' c' d' q | g j v' c' d' | g j];
      unfold Beeminder.addressed_to in A; simpl in A; simpl; try reflexivity;
      rewrite A; reflexivity.
Qed.

Lemma fate_untouched (reqs : list request) (dp : datapoint) :
  (forall r, In r reqs -> Beeminder.addressed_to dp r = false) ->
  Beeminder.fate reqs dp = [dp].
Proof.
  intro H. rewrite (fate_one_update "" "" 0 "" None).
  - replace (existsb (Beeminder.addressed_to dp) reqs) with false; [reflexivity|].
    symmetry. apply not_true_is_false. intro E. apply existsb_exists in E.
    destruct E as (r & I & A). rewrite (H r I) in A. discriminate.
  - intros r I A. rewrite (H r I) in A. discriminate.
Qed.

Lemma ids_updated (i : string) (v : Z) (c : string) (d : option string)
      (pts : list datapoint) :
  Beeminder.ids (map (fun dp => if Beeminder.has_id i dp
                                then Beeminder.updated v c d dp else dp) pts)
  = Beeminder.ids pts.
Proof.
  unfold Beeminder.ids. induction pts as [|dp pts IH]; [reflexivity|].
  cbn [map flat_map]. rewrite IH. destruct (Beeminder.has_id i dp); reflexivity.
Qed.

Lemma ids_deleted (i j : string) (pts : list datapoint) :
  In j (Beeminder.ids pts) ->
  j = i \/ In j (Beeminder.ids (filter (fun dp => negb (Beeminder.has_id i dp)) pts)).
Proof.
  intro I. apply ids_In in I. destruct I as (dp & I & E).
  destruct (String.eqb_spec j i) as [-> | N]; [left; reflexivity | right].
  apply ids_In. exists dp. split; [|exact E]. apply filter_In. split; [exact I|].
  unfold Beeminder.has_id. rewrite E. apply negb_true_iff, String.eqb_neq, N.
Qed.

(** A run of requests that all succeed leaves, in order, what becomes of
    each datapoint stored before, followed by the datapoints created; the
    requests must be addressed to ids the remote has handed out. *)
Lemma send_all_model (reqs : list request) :
  forall w w' : world,
    send_all reqs w = (Ok tt, w') ->
    (forall r i, In r reqs -> Beeminder.target r = Some i ->
                 In i (Beeminder.known (remote w))) ->
    exists news,
      Beeminder.points (remote w')
      = flat_map (Beeminder.fate reqs) (Beeminder.points (remote w)) ++ news
      /\ Forall2 Beeminder.born_of (filter is_POST reqs) news.
Proof.
  induction reqs as [|r reqs IH]; intros w w' H K.
  - inversion H; subst. exists []. split; [|constructor].
    rewrite app_nil_r. simpl. induction (Beeminder.points (remote w')) as [|x l IHl];
      [reflexivity | simpl; rewrite <- IHl; reflexivity].
  - unfold send_all in H. cbn [for_each] in H. apply bind_inv in H.
    destruct H as ([] & w1 & H1 & H2). apply send_inv in H1.
    destruct H1 as (_ & R1 & F1 & _).
    assert (Krest : forall s1, incl (Beeminder.known (remote w)) (Beeminder.known s1) ->
                               forall r' i, In r' reqs -> Beeminder.target r' = Some i ->
                                            In i (Beeminder.known s1)).
    { intros s1 Inc r' i I T. apply Inc. eapply K; [right; exact I | exact T]. }
    set (s := remote w) in *.
    destruct r as [g p n | g v c d q | g j v c d | g j];
      cbn [serve Beeminder.remote_model Beeminder.handle] in R1, F1.
    + (* a read *)
      simpl in R1. destruct (IH w1 w' H2) as (news & E & B).
      { rewrite R1. apply Krest. apply incl_refl. }
      exists news. rewrite R1 in E. split; [exact E | exact B].
    + (* a create *)
      destruct (match q with Some q0 => mem_string q0 (Beeminder.used s) | None => false end).
      { discriminate. }
      simpl in R1. set (born := Beeminder.created (Beeminder.fresh_id s) v c d) in *.
      destruct (IH w1 w' H2) as (news & E & B).
      { rewrite R1. apply Krest. unfold Beeminder.known. simpl.
        intros x Ix. apply in_app_or in Ix. apply in_or_app.
        destruct Ix as [Ix | Ix]; [left | right; exact Ix].
        apply ids_In in Ix. destruct Ix as (dp & Idp & Edp).
        apply ids_In. exists dp. split; [apply in_or_app; left; exact Idp | exact Edp]. }
      exists (born :: news). rewrite R1 in E. simpl Beeminder.points in E.
      rewrite flat_map_app in E. simpl flat_map in E. rewrite app_nil_r in E.
      rewrite (fate_untouched reqs born) in E.
      * split; [rewrite E, <- app_assoc; reflexivity|].
        simpl. constructor; [|exact B].
        exists (Beeminder.fresh_id s), g, v, c, d, q. split; reflexivity.
      * intros r' I. unfold Beeminder.addressed_to.
        destruct (Beeminder.target r') as [i|] eqn:T; [|reflexivity].
        apply not_true_is_false. intro X. apply has_id_true in X. simpl in X.
        inversion X as [X']. apply (fresh_id_unknown s). rewrite X'.
        eapply K; [right; exact I | exact T].
    + (* an update *)
      destruct (existsb (Beeminder.has_id j) (Beeminder.points s)); [|discriminate].
      simpl in R1. destruct (IH w1 w' H2) as (news & E & B).
      { rewrite R1. apply Krest. unfold Beeminder.known. simpl.
        rewrite ids_updated. apply incl_refl. }
      exists news. split; [|exact B]. rewrite E, R1. simpl Beeminder.points.
      f_equal. clear. induction (Beeminder.points s) as [|dp pts IHp]; [reflexivity|].
      simpl. rewrite IHp. reflexivity.
    + (* a delete *)
      destruct (existsb (Beeminder.has_id j) (Beeminder.points s)); [|discriminate].
      simpl in R1. destruct (IH w1 w' H2) as (news & E & B).
      { rewrite R1. apply Krest. unfold Beeminder.known. simpl.
        intros x Ix. apply in_app_or in Ix. apply in_or_app.
        destruct Ix as [Ix | Ix]; [|right; right; exact Ix].
        destruct (ids_deleted j x _ Ix) as [-> | Iy];
          [right; left; reflexivity | left; exact Iy]. }
      exists news. split; [|exact B]. rewrite E, R1. simpl Beeminder.points.
      f_equal. clear. induction (Beeminder.points s) as [|dp pts IHp]; [reflexivity|].
      simpl. destruct (Beeminder.has_id j dp); simpl; rewrite IHp; reflexivity.
Qed.
End Fate.

(** ** Datapoints and their ids *)

Section Identity.
Context {P : Platform}.

Lemma identified_In (pts : list datapoint) (i : string) :
  In i (Beeminder.identified pts) <->
  exists dp, In dp pts /\ dp_id dp = Some i /\ i <> "".
Proof.
  unfold Beeminder.identified. rewrite in_flat_map. split.
  - intros (dp & I & H). exists dp. split; [exact I|].
    destruct (dp_id dp) as [j|]; [|destruct H].
    destruct (truthy (Some j)) eqn:T; [|destruct H].
    destruct H as [<- | []]. split; [reflexivity | apply truthy_Some, T].
  - intros (dp & I & E & N). exists dp. split; [exact I|]. rewrite E.
    apply truthy_Some in N. rewrite N. left; reflexivity.
Qed.

Lemma identified_cons (dp : datapoint) (pts : list datapoint) :
  Beeminder.identified (dp :: pts)
  = match dp_id dp with
    | Some i => if truthy (Some i) then i :: Beeminder.identified pts
                else Beeminder.identified pts
    | None => Beeminder.identified pts
    end.
Proof.
  unfold Beeminder.identified. cbn [flat_map].
  destruct (dp_id dp) as [i|]; [|reflexivity].
  destruct (truthy (Some i)); reflexivity.
Qed.

(** Two stored datapoints with the same non-empty id are one datapoint. *)
Lemma same_id_same_datapoint (pts : list datapoint) (a b : datapoint) (i : string) :
  NoDup (Beeminder.identified pts) -> In a pts -> In b pts ->
  dp_id a = Some i -> dp_id b = Some i -> i <> "" -> a = b.
Proof.
  induction pts as [|x pts IH]; intros ND Ia Ib Ea Eb N; [destruct Ia|].
  rewrite identified_cons in ND.
  assert (Tail : forall y, In y pts -> dp_id y = Some i -> dp_id x = Some i -> False).
  { intros y Iy Ey Ex. rewrite Ex in ND. apply truthy_Some in N. rewrite N in ND.
    inversion ND as [|? ? Hn _]; subst. apply Hn. apply identified_In.
    exists y. split; [exact Iy|]. split; [exact Ey | apply truthy_Some, N]. }
  assert (ND' : NoDup (Beeminder.identified pts)).
  { destruct (dp_id x) as [j|]; [|exact ND].
    destruct (truthy (Some j)); [inversion ND; assumption | exact ND]. }
  destruct Ia as [<- | Ia], Ib as [<- | Ib].
  - reflexivity.
  - exfalso. eapply Tail; eauto.
  - exfalso. eapply Tail; eauto.
  - apply IH; assumption.
Qed.

Lemma identified_filter (f : datapoint -> bool) (pts : list datapoint) :
  NoDup (Beeminder.identified pts) ->
  NoDup (Beeminder.identified (filter f pts)).
Proof.
  induction pts as [|x pts IH]; intro ND; [exact ND|].
  rewrite identified_cons in ND.
  assert (Sub : forall i, In i (Beeminder.identified (filter f pts)) ->
                          In i (Beeminder.identified pts)).
  { intros i I. apply identified_In in I. destruct I as (dp & I & E).
    apply filter_In in I. apply identified_In. exists dp. tauto. }
  cbn [filter]. destruct (f x).
  - rewrite identified_cons. destruct (dp_id x) as [j|]; [|apply IH, ND].
    destruct (truthy (Some j)); [|apply IH, ND].
    inversion ND as [|? ? Hn ND']; subst. constructor; [|apply IH, ND'].
    intro I. apply Hn, Sub, I.
  - apply IH. destruct (dp_id x) as [j|]; [|exact ND].
    destruct (truthy (Some j)); [inversion ND; assumption | exact ND].
Qed.

(** With distinct ids, the keeper's id is not the id of an extra. *)
Lemma keeper_not_extra (group : list datapoint) (keeper dp : datapoint)
      (extras : list datapoint) (i : string) :
  NoDup (Beeminder.identified group) ->
  py_sorted Sync.newer group = keeper :: extras ->
  dp_id keeper = Some i -> i <> "" -> In dp extras -> dp_id dp = Some i -> False.
Proof.
  intros ND Hs Ek N I Ed.
  assert (Pm : Permutation (Beeminder.identified group)
                           (Beeminder.identified (keeper :: extras))).
  { unfold Beeminder.identified. apply Permutation_flat_map.
    rewrite <- Hs. apply py_sorted_perm. }
  apply (Permutation_NoDup Pm) in ND. rewrite identified_cons, Ek in ND.
  pose proof N as T. apply truthy_Some in T. rewrite T in ND.
  inversion ND as [|? ? Hn _]; subst. apply Hn. apply identified_In.
  exists dp. auto.
Qed.

Lemma in_day_unique (a b : string) (dp : datapoint) :
  in_day a dp = true -> in_day b dp = true -> a = b.
Proof.
  unfold in_day. destruct (Sync.bucket_day dp) as [[d|] | e |]; try discriminate.
  rewrite !String.eqb_eq. congruence.
Qed.

Lemma sot_value_unique (sot_map : list (string * Z)) (ds : string) (v v' : Z) :
  NoDup (dict_keys sot_map) -> In (ds, v) sot_map -> In (ds, v') sot_map -> v = v'.
Proof.
  intros ND I I'. apply (In_dict_get _ _ _ ND) in I, I'. congruence.
Qed.


Lemma flat_map_nil {A B} (f : A -> list B) (l : list A) :
  (forall x, In x l -> f x = []) -> flat_map f l = [].
Proof.
  induction l as [|x l IH]; intro H; [reflexivity|].
  simpl. rewrite (H x (or_introl eq_refl)), IH; [reflexivity|].
  intros y I. apply H. right. exact I.
Qed.

Lemma no_member_nil {A} (l : list A) : (forall x, ~ In x l) -> l = [].
Proof.
  destruct l as [|x l]; [reflexivity|]. intro H. exfalso.
  apply (H x). left; reflexivity.
Qed.
End Identity.

(** ** The requests of a run and the datapoints they are addressed to *)

Section PlanFacts.
Context {P : Platform}.
Variable strict : bool.
Variable sot_map : list (string * Z).
Variable stored : list datapoint.
Variable wf_by_day : list (string * list datapoint).
Hypothesis bucketed : Sync.bucket_by_day stored [] = Ok wf_by_day.
Hypothesis distinct_ids : NoDup (Beeminder.identified stored).
Hypothesis distinct_days : NoDup (dict_keys sot_map).
Hypothesis named_days : forall ds, In ds (dict_keys sot_map) -> ds <> "".

Lemma group_get (ds : string) :
  Sync.dict_get_default ds wf_by_day = filter (in_day ds) stored.
Proof. apply (bucket_by_day_get _ _ _ bucketed ds). Qed.

Lemma plan_In (r : request) :
  In r (planned_requests strict sot_map wf_by_day) <->
  (exists ds v, In (ds, v) sot_map /\ In r (day_requests wf_by_day (ds, v)))
  \/ (strict = true /\ In r (purge_requests sot_map wf_by_day)).
Proof.
  unfold planned_requests. rewrite in_app_iff, in_flat_map. split.
  - intros [([ds v] & I & H) | H].
    + left. exists ds, v. split; [apply (py_sorted_In item_lt), I | exact H].
    + right. destruct strict; [split; [reflexivity | exact H] | destruct H].
  - intros [(ds & v & I & H) | [-> H]].
    + left. exists (ds, v). split; [apply (py_sorted_In item_lt), I | exact H].
    + right. exact H.
Qed.

Lemma update_requests_In (v : Z) (ds : string) (k : datapoint) (r : request) :
  ds <> "" ->
  In r (update_requests v ds k) <->
  exists i, dp_id k = Some i /\ i <> "" /\ needs_update v ds k = true
            /\ r = PUT WAKEANDFOCUS_GOAL i v (comment_ok v ds) (Some ds).
Proof.
  intro N. apply truthy_Some in N. unfold update_requests. rewrite N. split.
  - destruct (needs_update v ds k); [|intros []].
    destruct (dp_id k) as [i|]; [|intros []].
    destruct (truthy (Some i)) eqn:T; [|intros []].
    intros [<- | []]. exists i. apply truthy_Some in T. auto.
  - intros (i & E & Ni & Nu & ->). rewrite Nu, E.
    apply truthy_Some in Ni. rewrite Ni. left; reflexivity.
Qed.

Lemma day_requests_cases (ds : string) (v : Z) (r : request) :
  In r (day_requests wf_by_day (ds, v)) ->
  (py_sorted Sync.newer (filter (in_day ds) stored) = [] /\ r = create_request v ds)
  \/ exists k ex, py_sorted Sync.newer (filter (in_day ds) stored) = k :: ex
                  /\ (In r (delete_requests ex) \/ In r (update_requests v ds k)).
Proof.
  unfold day_requests. simpl fst. simpl snd. rewrite group_get.
  destruct (py_sorted Sync.newer (filter (in_day ds) stored)) as [|k ex].
  - intros [<- | []]. left. split; reflexivity.
  - intro I. right. exists k, ex. split; [reflexivity | apply in_app_or, I].
Qed.

Lemma sorted_group_In (ds : string) (k x : datapoint) (ex : list datapoint) :
  py_sorted Sync.newer (filter (in_day ds) stored) = k :: ex ->
  In x (k :: ex) -> In x stored /\ in_day ds x = true.
Proof.
  intros Hs I. rewrite <- Hs in I. apply py_sorted_In in I.
  apply filter_In in I. exact I.
Qed.

(** Every request addressed to a stored datapoint is the delete of an
    extra, the update of the keeper of a SoT day, or a purge delete. *)
Lemma plan_addressed (r : request) (dp : datapoint) :
  In r (planned_requests strict sot_map wf_by_day) -> In dp stored ->
  Beeminder.addressed_to dp r = true ->
  (exists ds v k ex, In (ds, v) sot_map
                     /\ py_sorted Sync.newer (filter (in_day ds) stored) = k :: ex
                     /\ In dp ex /\ is_DELETE r = true)
  \/ (exists ds v ex i, In (ds, v) sot_map
                        /\ py_sorted Sync.newer (filter (in_day ds) stored) = dp :: ex
                        /\ dp_id dp = Some i /\ i <> ""
                        /\ needs_update v ds dp = true
                        /\ r = PUT WAKEANDFOCUS_GOAL i v (comment_ok v ds) (Some ds))
  \/ (strict = true /\ is_DELETE r = true
      /\ exists ds, in_day ds dp = true /\ ~ In ds (dict_keys sot_map)).
Proof.
  intros Ir Idp A. apply plan_In in Ir.
  destruct Ir as [(ds & v & Iv & H) | [S H]].
  - assert (Nds : ds <> "") by (apply named_days; apply (in_map fst) in Iv; exact Iv).
    apply day_requests_cases in H. destruct H as [[_ ->] | (k & ex & Hs & [H | H])].
    + discriminate.
    + apply delete_requests_In in H. destruct H as (x & i & Ix & Ex & Ni & ->).
      unfold Beeminder.addressed_to in A. simpl in A. apply has_id_true in A.
      destruct (sorted_group_In ds k x ex Hs (or_intror Ix)) as [Sx _].
      rewrite <- (same_id_same_datapoint stored x dp i distinct_ids Sx Idp Ex A Ni).
      left. exists ds, v, k, ex. auto.
    + apply (update_requests_In v ds k r Nds) in H.
      destruct H as (i & Ek & Ni & Nu & ->).
      unfold Beeminder.addressed_to in A. simpl in A. apply has_id_true in A.
      destruct (sorted_group_In ds k k ex Hs (or_introl eq_refl)) as [Sk _].
      pose proof (same_id_same_datapoint stored k dp i distinct_ids Sk Idp Ek A Ni) as E.
      subst k. right. left. exists ds, v, ex, i. auto 10.
  - apply (purge_requests_In _ _ _ _ bucketed) in H.
    destruct H as (x & ds & i & Ix & Tx & Nk & Ex & Ni & ->).
    unfold Beeminder.addressed_to in A. simpl in A. apply has_id_true in A.
    rewrite <- (same_id_same_datapoint stored x dp i distinct_ids Ix Idp Ex A Ni).
    right. right. split; [exact S|]. split; [reflexivity|]. exists ds. auto.
Qed.

(** Requests are addressed to non-empty ids of stored datapoints only. *)
Lemma plan_targets (r : request) (i : string) :
  In r (planned_requests strict sot_map wf_by_day) ->
  Beeminder.target r = Some i ->
  i <> "" /\ exists dp, In dp stored /\ dp_id dp = Some i.
Proof.
  intros Ir T. apply plan_In in Ir.
  destruct Ir as [(ds & v & Iv & H) | [S H]].
  - assert (Nds : ds <> "") by (apply named_days; apply (in_map fst) in Iv; exact Iv).
    apply day_requests_cases in H. destruct H as [[_ ->] | (k & ex & Hs & [H | H])].
    + discriminate.
    + apply delete_requests_In in H. destruct H as (x & j & Ix & Ex & Nj & ->).
      inversion T; subst. split; [exact Nj|]. exists x. split; [|exact Ex].
      apply (sorted_group_In ds k x ex Hs (or_intror Ix)).
    + apply (update_requests_In v ds k r Nds) in H.
      destruct H as (j & Ek & Nj & _ & ->). inversion T; subst.
      split; [exact Nj|]. exists k. split; [|exact Ek].
      apply (sorted_group_In ds k k ex Hs (or_introl eq_refl)).
  - apply (purge_requests_In _ _ _ _ bucketed) in H.
    destruct H as (x & ds & j & Ix & _ & _ & Ex & Nj & ->). inversion T; subst.
    split; [exact Nj|]. exists x. auto.
Qed.

Lemma addressed_identified (r : request) (dp : datapoint) :
  In r (planned_requests strict sot_map wf_by_day) ->
  Beeminder.addressed_to dp r = true -> truthy (dp_id dp) = true.
Proof.
  intros Ir A. unfold Beeminder.addressed_to in A.
  destruct (Beeminder.target r) as [i|] eqn:T; [|discriminate].
  destruct (plan_targets r i Ir T) as [N _]. apply has_id_true in A.
  rewrite A. apply truthy_Some, N.
Qed.

(** A datapoint without an id is left alone. *)
Lemma fate_anonymous (dp : datapoint) :
  truthy (dp_id dp) = false ->
  Beeminder.fate (planned_requests strict sot_map wf_by_day) dp = [dp].
Proof.
  intro T. apply fate_untouched. intros r Ir.
  apply not_true_is_false. intro A.
  rewrite (addressed_identified r dp Ir A) in T. discriminate.
Qed.
End PlanFacts.

(** ** What the first run leaves behind *)

Section Settled.
Context {P : Platform}.
Variable strict : bool.
Variable sot_map : list (string * Z).
Variable stored : list datapoint.
Variable wf_by_day : list (string * list datapoint).
Hypothesis bucketed : Sync.bucket_by_day stored [] = Ok wf_by_day.
Hypothesis distinct_ids : NoDup (Beeminder.identified stored).
Hypothesis distinct_days : NoDup (dict_keys sot_map).
Hypothesis named_days : forall ds, In ds (dict_keys sot_map) -> ds <> "".

Let plan : list request := planned_requests strict sot_map wf_by_day.

Lemma in_day_updated (ds d : string) (v : Z) (c : string) (dp : datapoint) :
  ds <> "" -> in_day ds dp = true ->
  in_day d (Beeminder.updated v c (Some ds) dp) = in_day d dp.
Proof.
  intros N T. apply truthy_Some in N.
  unfold in_day in *. unfold Sync.bucket_day at 1. simpl dp_daystamp. rewrite N.
  destruct (Sync.bucket_day dp) as [[d0|] | e |]; try discriminate.
  apply String.eqb_eq in T. subst d0. reflexivity.
Qed.

Lemma needs_update_updated (v : Z) (ds : string) (d : option string) (dp : datapoint) :
  needs_update v ds (Beeminder.updated v (comment_ok v ds) d dp) = false.
Proof.
  unfold needs_update, keeper_value. simpl.
  rewrite py_round_integer, Z.eqb_refl, String.eqb_refl. reflexivity.
Qed.

Lemma needs_update_created (i : string) (v : Z) (ds : string) (d : option string) :
  needs_update v ds (Beeminder.created i v (comment_ok v ds) d) = false.
Proof.
  unfold needs_update, keeper_value. simpl.
  rewrite py_round_integer, Z.eqb_refl, String.eqb_refl. reflexivity.
Qed.

Lemma update_requests_settled (v : Z) (ds : string) (k : datapoint) :
  needs_update v ds k = false \/ truthy (dp_id k) = false ->
  update_requests v ds k = [].
Proof.
  unfold update_requests. intros [-> | T]; [reflexivity|].
  destruct (needs_update v ds k); [|reflexivity].
  destruct (dp_id k) as [i|]; [rewrite T|]; reflexivity.
Qed.

(** The only request addressed to the keeper of a SoT day is its update. *)
Lemma keeper_addressed (ds : string) (v : Z) (k : datapoint) (ex : list datapoint)
      (i : string) (r : request) :
  In (ds, v) sot_map ->
  py_sorted Sync.newer (filter (in_day ds) stored) = k :: ex ->
  dp_id k = Some i -> i <> "" ->
  In r plan -> Beeminder.addressed_to k r = true ->
  r = PUT WAKEANDFOCUS_GOAL i v (comment_ok v ds) (Some ds)
  /\ needs_update v ds k = true.
Proof.
  intros Iv Hs Ek Ni Ir A.
  destruct (sorted_group_In stored ds k k ex Hs (or_introl eq_refl)) as [Sk Dk].
  destruct (plan_addressed strict sot_map stored wf_by_day bucketed distinct_ids
                           named_days r k Ir Sk A)
    as [(ds' & v' & k' & ex' & Iv' & Hs' & Ik & _)
       | [(ds' & v' & ex' & i' & Iv' & Hs' & Ek' & _ & Nu & ->)
         | (_ & _ & ds' & Dk' & Nk)]].
  - exfalso.
    destruct (sorted_group_In stored ds' k' k ex' Hs' (or_intror Ik)) as [_ Dk'].
    pose proof (in_day_unique _ _ _ Dk Dk') as E. subst ds'.
    rewrite Hs in Hs'. injection Hs' as Ek1 Ek2. rewrite <- Ek2 in Ik.
    exact (keeper_not_extra (filter (in_day ds) stored) k k ex i
             (identified_filter _ _ distinct_ids) Hs Ek Ni Ik Ek).
  - destruct (sorted_group_In stored ds' k k ex' Hs' (or_introl eq_refl)) as [_ Dk'].
    pose proof (in_day_unique _ _ _ Dk Dk') as E. subst ds'.
    rewrite (sot_value_unique sot_map ds v v' distinct_days Iv Iv') in *.
    rewrite Ek in Ek'. inversion Ek'; subst. split; [reflexivity | exact Nu].
  - exfalso. pose proof (in_day_unique _ _ _ Dk Dk') as E. subst ds'.
    apply Nk. apply (in_map fst) in Iv. exact Iv.
Qed.

(** The keeper of a SoT day stays, with its id, its recency key and its
    day, and needs no further update. *)
Lemma fate_keeper (ds : string) (v : Z) (k : datapoint) (ex : list datapoint) :
  In (ds, v) sot_map ->
  py_sorted Sync.newer (filter (in_day ds) stored) = k :: ex ->
  exists k', Beeminder.fate plan k = [k']
             /\ Sync._dp_updated_key k' = Sync._dp_updated_key k
             /\ update_requests v ds k' = [].
Proof.
  intros Iv Hs.
  assert (Nds : ds <> "") by (apply named_days; apply (in_map fst) in Iv; exact Iv).
  destruct (sorted_group_In stored ds k k ex Hs (or_introl eq_refl)) as [Sk Dk].
  destruct (truthy (dp_id k)) eqn:T.
  - destruct (dp_id k) as [i|] eqn:Ek; [|discriminate]. apply truthy_Some in T.
    pose proof (fate_one_update WAKEANDFOCUS_GOAL i v (comment_ok v ds) (Some ds) plan k)
      as F.
    rewrite F by (intros r Ir A; eapply keeper_addressed; eauto).
    destruct (existsb (Beeminder.addressed_to k) plan) eqn:E.
    + eexists. split; [reflexivity|]. split; [reflexivity|].
      apply update_requests_settled. left. apply needs_update_updated.
    + exists k. split; [reflexivity|]. split; [reflexivity|].
      apply update_requests_settled. left.
      destruct (needs_update v ds k) eqn:Nu; [|reflexivity]. exfalso.
      assert (X : existsb (Beeminder.addressed_to k) plan = true).
      { apply existsb_exists.
        exists (PUT WAKEANDFOCUS_GOAL i v (comment_ok v ds) (Some ds)). split.
        - apply plan_In. left. exists ds, v. split; [exact Iv|].
          unfold day_requests. simpl fst. simpl snd.
          rewrite (group_get stored wf_by_day bucketed), Hs.
          apply in_or_app. right. apply update_requests_In; [exact Nds|].
          exists i. auto.
        - unfold Beeminder.addressed_to. simpl. apply has_id_true, Ek. }
      congruence.
  - exists k. split; [|split; [reflexivity|]].
    + apply (fate_anonymous strict sot_map stored wf_by_day bucketed named_days k T).
    + apply update_requests_settled. right. exact T.
Qed.

(** An extra of a SoT day goes when it has an id and stays otherwise. *)
Lemma fate_extra (ds : string) (v : Z) (k x : datapoint) (ex : list datapoint) :
  In (ds, v) sot_map ->
  py_sorted Sync.newer (filter (in_day ds) stored) = k :: ex ->
  In x ex ->
  Beeminder.fate plan x = if truthy (dp_id x) then [] else [x].
Proof.
  intros Iv Hs Ix. destruct (truthy (dp_id x)) eqn:T.
  - destruct (dp_id x) as [i|] eqn:Ex; [|discriminate]. apply truthy_Some in T.
    apply (fate_deleted plan x WAKEANDFOCUS_GOAL i); [|apply has_id_true, Ex].
    apply plan_In. left. exists ds, v. split; [exact Iv|].
    unfold day_requests. simpl fst. simpl snd.
    rewrite (group_get stored wf_by_day bucketed), Hs.
    apply in_or_app. left. apply delete_requests_In. exists x, i. auto.
  - apply (fate_anonymous strict sot_map stored wf_by_day bucketed named_days x T).
Qed.
End Settled.

Lemma fate_shapes (goal i : string) (v : Z) (c : string) (d : option string)
      (reqs : list request) :
  forall dp,
    (forall r, In r reqs -> Beeminder.addressed_to dp r = true ->
               r = PUT goal i v c d \/ is_DELETE r = true) ->
    Beeminder.fate reqs dp = []
    \/ Beeminder.fate reqs dp = [dp]
    \/ (In (PUT goal i v c d) reqs /\ Beeminder.has_id i dp = true
        /\ Beeminder.fate reqs dp = [Beeminder.updated v c d dp]).
Proof.
  induction reqs as [|r reqs IH]; intros dp H; [right; left; reflexivity|].
  assert (Hr : forall r', In r' reqs -> Beeminder.addressed_to dp r' = true ->
                          r' = PUT goal i v c d \/ is_DELETE r' = true)
    by (intros r' I; apply H; right; exact I).
  assert (Keep : Beeminder.fate reqs dp = []
                 \/ Beeminder.fate reqs dp = [dp]
                 \/ (In (PUT goal i v c d) (r :: reqs) /\ Beeminder.has_id i dp = true
                     /\ Beeminder.fate reqs dp = [Beeminder.updated v c d dp])).
  { destruct (IH dp Hr) as [E | [E | (I & A & E)]]; auto.
    right; right. split; [right; exact I | auto]. }
  destruct r as [g p n | g v' c' d' q | g j v' c' d' | g j]; simpl Beeminder.fate.
  - exact Keep.
  - exact Keep.
  - destruct (Beeminder.has_id j dp) eqn:A; [|exact Keep].
    destruct (H _ (or_introl eq_refl)) as [E | E]; [exact A | | discriminate].
    inversion E; subst.
    destruct (IH (Beeminder.updated v c d dp)) as [F | [F | (I & _ & F)]].
    + intros r' I. rewrite addressed_to_updated. apply Hr, I.
    + left. exact F.
    + right; right. split; [left; reflexivity | auto].
    + right; right. rewrite updated_twice in F. split; [left; reflexivity | auto].
  - destruct (Beeminder.has_id j dp); [left; reflexivity | exact Keep].
Qed.

Section Remains.
Context {P : Platform}.
Variable strict : bool.
Variable sot_map : list (string * Z).
Variable stored : list datapoint.
Variable wf_by_day : list (string * list datapoint).
Hypothesis bucketed : Sync.bucket_by_day stored [] = Ok wf_by_day.
Hypothesis distinct_ids : NoDup (Beeminder.identified stored).
Hypothesis distinct_days : NoDup (dict_keys sot_map).
Hypothesis named_days : forall ds, In ds (dict_keys sot_map) -> ds <> "".

Let plan : list request := planned_requests strict sot_map wf_by_day.

(** Whatever remains of a stored datapoint keeps its id and its day. *)
Lemma fate_member (dp dp' : datapoint) :
  In dp stored -> In dp' (Beeminder.fate plan dp) ->
  dp_id dp' = dp_id dp
  /\ (forall d, in_day d dp' = in_day d dp)
  /\ (dp' = dp \/ exists ds, In ds (dict_keys sot_map) /\ in_day ds dp = true).
Proof.
  intros Idp Im.
  assert (Both : forall r, is_PUT r = true -> is_DELETE r = true -> False)
    by (intros []; discriminate).
  destruct (existsb (fun r => is_PUT r && Beeminder.addressed_to dp r) plan) eqn:E.
  - apply existsb_exists in E. destruct E as (r0 & I0 & E).
    apply andb_true_iff in E. destruct E as [Put0 A0].
    destruct (plan_addressed strict sot_map stored wf_by_day bucketed distinct_ids
                             named_days r0 dp I0 Idp A0)
      as [(_ & _ & _ & _ & _ & _ & _ & D) | [(ds & v & ex & i & Iv & Hs & Ei & Ni & Nu & E0)
                                            | (_ & D & _)]];
      try (exfalso; exact (Both r0 Put0 D)).
    destruct (sorted_group_In stored ds dp dp ex Hs (or_introl eq_refl)) as [_ Dd].
    assert (Nds : ds <> "") by (apply named_days; apply (in_map fst) in Iv; exact Iv).
    destruct (fate_shapes WAKEANDFOCUS_GOAL i v (comment_ok v ds) (Some ds) plan dp)
      as [F | [F | (_ & _ & F)]].
    + intros r Ir A.
      destruct (plan_addressed strict sot_map stored wf_by_day bucketed distinct_ids
                               named_days r dp Ir Idp A)
        as [(_ & _ & _ & _ & _ & _ & _ & D)
           | [(ds' & v' & ex' & i' & Iv' & Hs' & Ei' & _ & _ & ->) | (_ & D & _)]];
        [right; exact D | left | right; exact D].
      destruct (sorted_group_In stored ds' dp dp ex' Hs' (or_introl eq_refl)) as [_ Dd'].
      pose proof (in_day_unique _ _ _ Dd Dd') as X. subst ds'.
      rewrite (sot_value_unique sot_map ds v v' distinct_days Iv Iv').
      rewrite Ei in Ei'. inversion Ei'; subst. reflexivity.
    + fold plan in Im. rewrite F in Im. destruct Im.
    + fold plan in Im. rewrite F in Im. destruct Im as [<- | []]. auto.
    + fold plan in Im. rewrite F in Im. destruct Im as [<- | []].
      split; [reflexivity|]. split.
      * intro d. apply in_day_updated; assumption.
      * right. exists ds. split; [apply (in_map fst) in Iv; exact Iv | exact Dd].
  - assert (NoPut : forall r, In r plan -> Beeminder.addressed_to dp r = true ->
                              is_PUT r = false).
    { intros r Ir A. apply not_true_is_false. intro Pr.
      assert (X : existsb (fun r => is_PUT r && Beeminder.addressed_to dp r) plan = true).
      { apply existsb_exists. exists r. split; [exact Ir|]. rewrite Pr, A. reflexivity. }
      congruence. }
    destruct (fate_shapes "" "" 0 "" None plan dp) as [F | [F | (I & A & _)]].
    + intros r Ir A. right. pose proof (NoPut r Ir A) as Np.
      unfold Beeminder.addressed_to in A.
      destruct r; simpl in A, Np; try discriminate. reflexivity.
    + fold plan in Im. rewrite F in Im. destruct Im.
    + fold plan in Im. rewrite F in Im. destruct Im as [<- | []]. auto.
    + exfalso. assert (X : is_PUT (PUT "" "" 0 "" None) = false).
      { apply NoPut; [exact I|]. unfold Beeminder.addressed_to. simpl. exact A. }
      discriminate.
Qed.


(** A stored datapoint with an id on a day outside the SoT mapping does
    not survive a strict purge. *)
Lemma fate_stray (dp : datapoint) (ds i : string) :
  strict = true -> In dp stored -> in_day ds dp = true ->
  ~ In ds (dict_keys sot_map) -> dp_id dp = Some i -> i <> "" ->
  Beeminder.fate plan dp = [].
Proof.
  intros S Idp T Nk Ei Ni.
  apply (fate_deleted plan dp WAKEANDFOCUS_GOAL i); [|apply has_id_true, Ei].
  apply plan_In. right. split; [exact S|].
  apply (purge_requests_In _ _ _ _ bucketed). exists dp, ds, i. auto 10.
Qed.

Lemma filter_fate (p : datapoint -> bool) (l : list datapoint) :
  (forall dp, In dp l -> In dp stored) ->
  (forall dp dp', In dp stored -> In dp' (Beeminder.fate plan dp) -> p dp' = p dp) ->
  filter p (flat_map (Beeminder.fate plan) l)
  = flat_map (Beeminder.fate plan) (filter p l).
Proof.
  intros Sub Hp. induction l as [|x l IH]; [reflexivity|].
  cbn [flat_map filter]. rewrite filter_app, IH by (intros dp I; apply Sub; right; exact I).
  assert (Sx : In x stored) by (apply Sub; left; reflexivity).
  assert (E : filter p (Beeminder.fate plan x)
              = if p x then Beeminder.fate plan x else []).
  { pose proof (Hp x) as Hx. induction (Beeminder.fate plan x) as [|y ys IHy].
    - destruct (p x); reflexivity.
    - cbn [filter]. rewrite (Hx y Sx (or_introl eq_refl)).
      rewrite IHy by (intros dp' _ I; apply Hx; [exact Sx | right; exact I]).
      destruct (p x); reflexivity. }
  rewrite E. destruct (p x); reflexivity.
Qed.
End Remains.

(** ** The second run finds nothing to do *)

Section Again.
Context {P : Platform}.
Variable strict : bool.
Variable sot_map : list (string * Z).
Variable stored : list datapoint.
Variable wf_by_day : list (string * list datapoint).
Hypothesis bucketed : Sync.bucket_by_day stored [] = Ok wf_by_day.
Hypothesis distinct_ids : NoDup (Beeminder.identified stored).
Hypothesis distinct_days : NoDup (dict_keys sot_map).
Hypothesis named_days : forall ds, In ds (dict_keys sot_map) -> ds <> "".

Let plan : list request := planned_requests strict sot_map wf_by_day.

(** The SoT days for which nothing is stored. *)
Let missing (item : string * Z) : bool :=
  match py_sorted Sync.newer (Sync.dict_get_default (fst item) wf_by_day) with
  | [] => true
  | _ :: _ => false
  end.

Let first_of (item : string * Z) (dp : datapoint) : Prop :=
  exists i, dp = Beeminder.created i (snd item) (comment_ok (snd item) (fst item))
                                   (Some (fst item)).

Lemma filter_none {A} (p : A -> bool) (l : list A) :
  (forall x, In x l -> p x = false) -> filter p l = [].
Proof.
  induction l as [|x l IH]; intro H; [reflexivity|].
  simpl. rewrite (H x (or_introl eq_refl)). apply IH.
  intros y I. apply H. right. exact I.
Qed.

Lemma posts_of_plan :
  filter is_POST plan
  = map (fun item => create_request (snd item) (fst item))
        (filter missing (py_sorted item_lt sot_map)).
Proof.
  unfold plan, planned_requests. rewrite filter_app.
  assert (E : filter is_POST (if strict then purge_requests sot_map wf_by_day else []) = []).
  { destruct strict; [|reflexivity]. apply filter_none. intros r I.
    apply (purge_requests_In _ _ _ _ bucketed) in I.
    destruct I as (_ & _ & i & _ & _ & _ & _ & _ & ->). reflexivity. }
  rewrite E, app_nil_r.
  induction (py_sorted item_lt sot_map) as [|item items IH]; [reflexivity|].
  cbn [flat_map filter]. rewrite filter_app, IH.
  assert (Mi : missing item
               = match py_sorted Sync.newer
                                 (Sync.dict_get_default (fst item) wf_by_day) with
                 | [] => true
                 | _ :: _ => false
                 end) by reflexivity.
  rewrite Mi. unfold day_requests.
  destruct (py_sorted Sync.newer (Sync.dict_get_default (fst item) wf_by_day))
    as [|k ex]; [reflexivity|].
  rewrite filter_none; [reflexivity|].
  intros r I. apply in_app_or in I. destruct I as [I | I].
  - apply delete_requests_In in I. destruct I as (_ & i & _ & _ & _ & ->). reflexivity.
  - unfold update_requests in I. destruct (needs_update _ _ k); [|destruct I].
    destruct (dp_id k) as [i|]; [|destruct I].
    destruct (truthy (Some i)); [|destruct I]. destruct I as [<- | []]. reflexivity.
Qed.

Lemma born_first (items : list (string * Z)) :
  forall news,
    Forall2 Beeminder.born_of
            (map (fun item => create_request (snd item) (fst item)) items) news ->
    Forall2 first_of items news.
Proof.
  induction items as [|item items IH]; intros news H; inversion H; subst.
  - constructor.
  - constructor; [|apply IH; assumption].
    match goal with B : Beeminder.born_of _ _ |- _ =>
      destruct B as (i & g & v & c & d & q & E & ->) end.
    unfold create_request in E. inversion E; subst. exists i. reflexivity.
Qed.

Lemma in_day_created (d ds i : string) (v : Z) (c : string) :
  ds <> "" -> in_day d (Beeminder.created i v c (Some ds)) = (ds =? d)%string.
Proof.
  intro N. apply truthy_Some in N. unfold in_day, Sync.bucket_day. simpl dp_daystamp.
  rewrite N. reflexivity.
Qed.

(** Among the datapoints created for distinct days, those of one day. *)
Lemma news_of_day (items : list (string * Z)) :
  forall news,
    Forall2 first_of items news ->
    (forall item, In item items -> fst item <> "") ->
    NoDup (map fst items) ->
    forall ds,
      (~ In ds (map fst items) -> filter (in_day ds) news = [])
      /\ (forall v, In (ds, v) items ->
                    exists i, filter (in_day ds) news
                              = [Beeminder.created i v (comment_ok v ds) (Some ds)]).
Proof.
  induction items as [|[d0 v0] items IH]; intros news H N ND ds; inversion H; subst.
  - split; [reflexivity | intros v []].
  - match goal with B : first_of _ _ |- _ => destruct B as (i & ->) end.
    simpl fst in *. simpl snd in *.
    inversion ND as [|? ? Hn ND']; subst.
    assert (N0 : d0 <> "") by (apply (N (d0, v0)); left; reflexivity).
    match goal with F : Forall2 first_of items ?l |- _ =>
      destruct (IH l F (fun item I => N item (or_intror I)) ND' ds) as [None Some_] end.
    cbn [filter]. rewrite (in_day_created ds d0 i v0 _ N0).
    destruct (String.eqb_spec d0 ds) as [-> | Ne].
    + split; [intro X; exfalso; apply X; left; reflexivity|].
      intros v [E | I].
      * inversion E; subst. exists i. rewrite (None Hn). reflexivity.
      * exfalso. apply Hn. apply (in_map fst) in I. exact I.
    + split.
      * intro X. apply None. intro I. apply X. right. exact I.
      * intros v [E | I]; [inversion E; congruence | apply Some_, I].
Qed.

Lemma Forall2_member {A B} (R : A -> B -> Prop) (l : list A) (l' : list B) :
  Forall2 R l l' -> forall y, In y l' -> exists x, In x l /\ R x y.
Proof.
  induction 1 as [|x y l l' Rxy F IH]; intros z []; subst.
  - exists x. split; [left; reflexivity | exact Rxy].
  - destruct (IH z H) as (x' & I & Rz). exists x'. split; [right; exact I | exact Rz].
Qed.


Variable news : list datapoint.
Hypothesis born : Forall2 Beeminder.born_of (filter is_POST plan) news.

Let after : list datapoint := flat_map (Beeminder.fate plan) stored ++ news.

Lemma news_first : Forall2 first_of (filter missing (py_sorted item_lt sot_map)) news.
Proof. apply born_first. rewrite <- posts_of_plan. exact born. Qed.

Lemma missing_named (item : string * Z) :
  In item (filter missing (py_sorted item_lt sot_map)) ->
  In item sot_map /\ fst item <> ""
  /\ py_sorted Sync.newer (filter (in_day (fst item)) stored) = [].
Proof.
  intro I. apply filter_In in I. destruct I as [I M].
  apply (proj1 (py_sorted_In item_lt _ _)) in I. split; [exact I|]. split.
  - apply named_days. apply (in_map fst) in I. exact I.
  - unfold missing in M. rewrite (group_get stored wf_by_day bucketed) in M.
    destruct (py_sorted Sync.newer (filter (in_day (fst item)) stored));
      [reflexivity | discriminate].
Qed.

Lemma missing_distinct : NoDup (map fst (filter missing (py_sorted item_lt sot_map))).
Proof.
  assert (ND : NoDup (map fst (py_sorted item_lt sot_map))).
  { eapply Permutation_NoDup; [|exact distinct_days].
    apply Permutation_map, py_sorted_perm. }
  induction (py_sorted item_lt sot_map) as [|x l IH]; [constructor|].
  inversion ND as [|? ? Hn ND']; subst. cbn [filter].
  destruct (missing x); [|apply IH, ND'].
  cbn [map]. constructor; [|apply IH, ND'].
  intro I. apply Hn. apply in_map_iff in I. destruct I as (y & E & I).
  apply filter_In in I. apply in_map_iff. exists y. tauto.
Qed.

Lemma news_member (dp : datapoint) :
  In dp news ->
  exists i ds v, In (ds, v) sot_map /\ ds <> ""
                 /\ dp = Beeminder.created i v (comment_ok v ds) (Some ds).
Proof.
  intro I. destruct (Forall2_member _ _ _ news_first dp I) as ([ds v] & Ii & i & ->).
  destruct (missing_named _ Ii) as (A & B & _). exists i, ds, v. auto.
Qed.


Lemma after_group (ds : string) :
  filter (in_day ds) after
  = flat_map (Beeminder.fate plan) (filter (in_day ds) stored)
    ++ filter (in_day ds) news.
Proof.
  unfold after. rewrite filter_app. f_equal.
  apply (filter_fate strict sot_map stored wf_by_day (in_day ds) stored).
  - auto.
  - intros dp dp' Idp Im.
    apply (fate_member strict sot_map stored wf_by_day bucketed distinct_ids
                       distinct_days named_days dp dp' Idp Im).
Qed.

Variable wf_by_day' : list (string * list datapoint).
Hypothesis bucketed' : Sync.bucket_by_day after [] = Ok wf_by_day'.



End Again.

(** ** C3: idempotence *)

Section Idempotence.
Context {P : Platform}.
Variable cfg : Config.
#[local] Existing Instance Beeminder.remote_model.

End Idempotence.

(** ** Concrete runs *)

Ltac distinct_strings :=
  repeat (constructor; [simpl; intuition discriminate|]); constructor.

(** C5.  Two datapoints of one day whose [updated_at] is a number, the
    first updated last (2000 against 1000) but with the smaller
    [timestamp] (100 against 200).  [reconcile_history] looks at
    [updated_at] only when it is text, so it sorts by [timestamp]: it
    keeps the datapoint that was updated first and deletes the one that
    was updated last.  The single-day program, whose key is the raw
    [updated_at], keeps the one updated last on the same input. *)
Theorem history_run_deletes_most_recently_updated :
  let w := Examples.world_of [Examples.recent; Examples.older] [] in
  let history := Sync.reconcile_history (P := Reference.platform) Examples.live 3
                                        Examples.sot w in
  let single := Today.reconcile_beeminder_with_sot (P := Reference.platform)
                  Examples.live "20250101" 1 w in
  py_sorted (Sync.newer (P := Reference.platform)) [Examples.recent; Examples.older]
  = [Examples.older; Examples.recent]
  /\ fst history = Ok tt
  /\ filter is_mutation (sent (snd history)) = [DELETE WAKEANDFOCUS_GOAL "recent"]
  /\ Beeminder.points (remote (snd history)) = [Examples.older]
  /\ fst single = Ok tt
  /\ filter is_mutation (sent (snd single)) = [DELETE WAKEANDFOCUS_GOAL "older"]
  /\ Beeminder.points (remote (snd single)) = [Examples.recent].
Proof. vm_compute. repeat split; reflexivity. Qed.

(** With a correct newest datapoint that has an id and an older duplicate
    that has none, the run completes, sends no delete, and the duplicate is
    still stored: an extra without an id is skipped. *)
Lemma extra_without_id_is_kept :
  let w := Examples.world_of [Examples.good; Examples.anonymous] [] in
  let run := Sync.reconcile_history (P := Reference.platform) Examples.live 3
                                    Examples.sot w in
  fst run = Ok tt
  /\ py_sorted (Sync.newer (P := Reference.platform))
               [Examples.good; Examples.anonymous]
     = [Examples.good; Examples.anonymous]
  /\ filter is_DELETE (sent (snd run)) = []
  /\ Beeminder.points (remote (snd run)) = [Examples.good; Examples.anonymous].
Proof. vm_compute. repeat split; reflexivity. Qed.

(** With a newest datapoint that has no id and whose value and comment
    both differ from the SoT, the run completes and sends no update: a
    differing keeper is not always updated. *)
Lemma keeper_without_id_is_not_updated :
  let w := Examples.world_of [Examples.wrong_anonymous] [] in
  let run := Sync.reconcile_history (P := Reference.platform) Examples.live 3
                                    Examples.sot w in
  fst run = Ok tt
  /\ py_sorted (Sync.newer (P := Reference.platform)) [Examples.wrong_anonymous]
     = [Examples.wrong_anonymous]
  /\ py_round (keeper_value (P := Reference.platform) Examples.wrong_anonymous) <> 1
  /\ or_empty (dp_comment Examples.wrong_anonymous) <> comment_ok 1 "20250101"
  /\ filter is_PUT (sent (snd run)) = []
  /\ filter is_mutation (sent (snd run)) = [].
Proof.
  vm_compute. repeat split; try reflexivity; intro H; discriminate H.
Qed.

(** The single-day program has no guard on the id: a keeper whose id is
    the empty text and whose value and comment differ is sent an update
    addressed to the empty id, where [reconcile_history] sends nothing. *)
Lemma single_day_updates_keeper_with_empty_id :
  let w := Examples.world_of [Examples.wrong_empty_id] [] in
  let single := Today.reconcile_beeminder_with_sot (P := Reference.platform)
                  Examples.live "20250101" 1 w in
  let history := Sync.reconcile_history (P := Reference.platform) Examples.live 3
                                        Examples.sot w in
  filter is_mutation (sent (snd single))
  = [PUT WAKEANDFOCUS_GOAL "" 1 (comment_ok 1 "20250101") None]
  /\ fst history = Ok tt
  /\ filter is_mutation (sent (snd history)) = [].
Proof. vm_compute. repeat split; reflexivity. Qed.

(** With strict purge on and a datapoint without an id on a day absent
    from the SoT mapping, the run completes, sends no delete, and the
    datapoint is still stored: not every such datapoint is purged. *)
Lemma stray_without_id_is_not_purged :
  let w := Examples.world_of [Examples.good; Examples.stray_anonymous] [] in
  let run := Sync.reconcile_history (P := Reference.platform) Examples.purging 3
                                    Examples.sot w in
  STRICT_PURGE Examples.purging = true
  /\ fst run = Ok tt
  /\ in_day (P := Reference.platform) "20241231" Examples.stray_anonymous = true
  /\ mem_string "20241231" (dict_keys Examples.sot) = false
  /\ filter is_DELETE (sent (snd run)) = []
  /\ Beeminder.points (remote (snd run)) = [Examples.good; Examples.stray_anonymous].
Proof. vm_compute. repeat split; reflexivity. Qed.

(** C7.  The single-day program, given a correct datapoint for the day and
    an older duplicate that has no id, raises [KeyError] at [dp["id"]]
    after the fetch, where [reconcile_history] on the same input skips the
    duplicate and completes. *)
Theorem single_day_run_raises_on_missing_id :
  let w := Examples.world_of [Examples.good; Examples.anonymous] [] in
  fst (Today.reconcile_beeminder_with_sot (P := Reference.platform) Examples.live
                                          "20250101" 1 w)
  = Raise (KeyError "id")
  /\ fst (Sync.reconcile_history (P := Reference.platform) Examples.live 3
                                 Examples.sot w) = Ok tt.
Proof. vm_compute. split; reflexivity. Qed.


Lemma keeper_is_newest_witness :
  let by_day := [("20250101", [Examples.stale; Examples.good; Examples.anonymous])] in
  let w := Examples.world_of [Examples.stale; Examples.good; Examples.anonymous] [] in
  let w' := snd (Sync.reconcile_day (P := Reference.platform) Examples.live by_day
                                    ("20250101", 1) w) in
  DRY_RUN Examples.live = false
  /\ py_sorted (Sync.newer (P := Reference.platform))
               (Sync.dict_get_default "20250101" by_day)
     = Examples.good :: [Examples.stale; Examples.anonymous]
  /\ Sync.reconcile_day (P := Reference.platform) Examples.live by_day
                        ("20250101", 1) w = (Ok tt, w')
  /\ exists reqs,
      sent w' = sent w ++ reqs
      /\ filter is_DELETE reqs = [DELETE WAKEANDFOCUS_GOAL "b"].
Proof.
  intros by_day w w'.
  assert (H1 : DRY_RUN Examples.live = false) by reflexivity.
  assert (H2 : py_sorted (Sync.newer (P := Reference.platform))
                         (Sync.dict_get_default "20250101" by_day)
               = Examples.good :: [Examples.stale; Examples.anonymous])
    by (vm_compute; reflexivity).
  assert (H3 : Sync.reconcile_day (P := Reference.platform) Examples.live by_day
                                  ("20250101", 1) w = (Ok tt, w'))
    by (vm_compute; reflexivity).
  split; [exact H1|]. split; [exact H2|]. split; [exact H3|].
  destruct (keeper_is_newest_and_identified_extras_are_deleted
              Examples.live H1 by_day "20250101" 1 Examples.good
              [Examples.stale; Examples.anonymous] w w' H2 H3)
    as (_ & _ & _ & _ & reqs & S & D & _).
  exists reqs. split; [exact S | exact D].
Defined.

Lemma one_update_witness :
  let by_day := [("20250101", [Examples.stale; Examples.anonymous])] in
  let w := Examples.world_of [Examples.stale; Examples.anonymous] [] in
  let w' := snd (Sync.reconcile_day (P := Reference.platform) Examples.live by_day
                                    ("20250101", 1) w) in
  DRY_RUN Examples.live = false
  /\ py_sorted (Sync.newer (P := Reference.platform))
               (Sync.dict_get_default "20250101" by_day)
     = Examples.stale :: [Examples.anonymous]
  /\ Sync.reconcile_day (P := Reference.platform) Examples.live by_day
                        ("20250101", 1) w = (Ok tt, w')
  /\ sent w' = sent w ++ delete_requests [Examples.anonymous]
                      ++ [PUT WAKEANDFOCUS_GOAL "b" 1 (comment_ok 1 "20250101")
                              (Some "20250101")].
Proof.
  intros by_day w w'.
  assert (H1 : DRY_RUN Examples.live = false) by reflexivity.
  assert (H2 : py_sorted (Sync.newer (P := Reference.platform))
                         (Sync.dict_get_default "20250101" by_day)
               = Examples.stale :: [Examples.anonymous])
    by (vm_compute; reflexivity).
  assert (H3 : Sync.reconcile_day (P := Reference.platform) Examples.live by_day
                                  ("20250101", 1) w = (Ok tt, w'))
    by (vm_compute; reflexivity).
  split; [exact H1|]. split; [exact H2|]. split; [exact H3|].
  destruct (one_update_iff_identified_keeper_differs
              Examples.live H1 by_day "20250101" 1 Examples.stale
              [Examples.anonymous] w w' H2 H3)
    as (updates & S & U & _).
  rewrite S. f_equal. f_equal.
  apply (U "b"); [reflexivity | discriminate |].
  left. vm_compute. discriminate.
Defined.

Lemma strict_purge_witness :
  let pts := [Examples.good; Examples.stray_anonymous; Examples.stray] in
  let w := Examples.world_of pts [] in
  let w1 := snd (Sync.fetch_all_datapoints Examples.purging 3 WAKEANDFOCUS_GOAL w) in
  let w' := snd (Sync.reconcile_history (P := Reference.platform) Examples.purging 3
                                        Examples.sot w) in
  Sync.fetch_all_datapoints Examples.purging 3 WAKEANDFOCUS_GOAL w = (Ok pts, w1)
  /\ Sync.reconcile_history (P := Reference.platform) Examples.purging 3
                            Examples.sot w = (Ok tt, w')
  /\ exists day_reqs purge_reqs,
      sent w' = sent w1 ++ day_reqs ++ purge_reqs
      /\ In (DELETE WAKEANDFOCUS_GOAL "z") purge_reqs.
Proof.
  intros pts w w1 w'.
  assert (H1 : Sync.fetch_all_datapoints Examples.purging 3 WAKEANDFOCUS_GOAL w
               = (Ok pts, w1)) by (vm_compute; reflexivity).
  assert (H2 : Sync.reconcile_history (P := Reference.platform) Examples.purging 3
                                      Examples.sot w = (Ok tt, w'))
    by (vm_compute; reflexivity).
  split; [exact H1|]. split; [exact H2|].
  destruct (strict_purge_deletes_identified_strays
              Examples.purging 3 Examples.sot pts w w1 w' H1 H2)
    as (day_reqs & purge_reqs & S & _ & Pu & _).
  exists day_reqs, purge_reqs. split; [exact S|].
  apply (Pu eq_refl). exists Examples.stray, "20241231", "z".
  repeat split; try reflexivity.
  - right; right; left; reflexivity.
  - intros [H | []]. discriminate H.
  - discriminate.
Defined.

Lemma full_history_range_witness :
  let fm_all := [Examples.short_session; Examples.early_session] in
  let w := Examples.world_of fm_all [] in
  let w1 := snd (Sync.fetch_all_datapoints Examples.full_history 3 FOCUSMATE_GOAL w) in
  FULL_HISTORY Examples.full_history = true
  /\ Sync.fetch_all_datapoints Examples.full_history 3 FOCUSMATE_GOAL w
     = (Ok fm_all, w1)
  /\ exists earliest,
      (forall dp' t', In dp' fm_all -> as_number (dp_timestamp dp') = Some t' ->
                      (earliest <= t')%Q)
      /\ Sync.determine_range (P := Reference.platform) Examples.full_history 3
                              739252 w
         = match local_date_of_timestamp (Platform := Reference.platform) earliest with
           | Some start_date => (Ok (start_date, 739252, fm_all), w1)
           | None => (Raise OverflowError, w1)
           end.
Proof.
  intros fm_all w w1.
  assert (H1 : FULL_HISTORY Examples.full_history = true) by reflexivity.
  assert (H2 : Sync.fetch_all_datapoints Examples.full_history 3 FOCUSMATE_GOAL w
               = (Ok fm_all, w1)) by (vm_compute; reflexivity).
  split; [exact H1|]. split; [exact H2|].
  destruct (full_history_range (P := Reference.platform) Examples.full_history 3
                               739252 fm_all w w1 H1 H2) as [_ Some_].
  destruct (Some_ Examples.short_session (inject_Z 10) (or_introl eq_refl) eq_refl)
    as (earliest & _ & Least & Range).
  exists earliest. split; [exact Least | exact Range].
Defined.

Lemma compute_sot_for_range_witness :
  let dps := [Examples.short_session; Examples.early_session] in
  739252 <= 739253
  /\ Forall (datable (P := Reference.platform)) dps
  /\ exists sot,
      Sync.compute_sot_for_range (P := Reference.platform) dps 739252 739253 = Ok sot
      /\ (forall k v, dict_get k sot = Some v -> v = 0 \/ v = 1).
Proof.
  intro dps.
  assert (H1 : 739252 <= 739253) by lia.
  assert (H2 : Forall (datable (P := Reference.platform)) dps)
    by (repeat constructor; left; reflexivity).
  split; [exact H1|]. split; [exact H2|].
  destruct (compute_sot_for_range_mapping (P := Reference.platform) dps
                                          739252 739253 H1 H2)
    as (sot & E & _ & _ & V & _).
  exists sot. split; [exact E | exact V].
Defined.

(** ** The worked examples of the specification, on the reference platform *)

Example sessions_0800_40m_and_0910_55m_qualify :
  Sync.day_value (P := Reference.platform)
                 [Examples.short_session; Examples.early_session] = 1.
Proof. vm_compute. reflexivity. Qed.

Example session_0920_60m_does_not_qualify :
  Sync.day_value (P := Reference.platform)
                 [Examples.point (Some "f3") "20250101" 30 1
                                 "60 minutes session at 9:20"] = 0.
Proof. vm_compute. reflexivity. Qed.

Example three_duplicates_collapse :
  let w := Examples.world_of [Examples.stale; Examples.good;
                              Examples.point (Some "c") "20250101" 120 1 "older"] [] in
  let run := Sync.reconcile_history (P := Reference.platform) Examples.live 3
                                    Examples.sot w in
  fst run = Ok tt
  /\ filter is_mutation (sent (snd run))
     = [DELETE WAKEANDFOCUS_GOAL "b"; DELETE WAKEANDFOCUS_GOAL "c"]
  /\ Beeminder.points (remote (snd run)) = [Examples.good].
Proof. vm_compute. repeat split; reflexivity. Qed.

Example missing_day_is_created_once :
  let w := Examples.world_of [] [] in
  let run := Sync.reconcile_history (P := Reference.platform) Examples.live 3
                                    Examples.sot w in
  fst run = Ok tt
  /\ filter is_mutation (sent (snd run)) = [create_request 1 "20250101"]
  /\ fst (Sync.reconcile_history (P := Reference.platform) Examples.live 3
                                 Examples.sot (snd run)) = Ok tt
  /\ filter is_mutation
       (sent (snd (Sync.reconcile_history (P := Reference.platform) Examples.live 3
                                          Examples.sot (snd run))))
     = [create_request 1 "20250101"].
Proof. vm_compute. repeat split; reflexivity. Qed.

(** * Further properties of the two programs *)

(** ** Parsing and the cutoff *)

(** A comment parses exactly when the pattern matches with an hour in
    0..23 and a minute in 0..59; an absent comment is parsed as the empty
    text. *)
Theorem parse_comment_in_range {P : Platform} (comment : option string)
        (minutes hour minute : Z) :
  parse_comment_for_length_and_time comment = Some (minutes, hour, minute) <->
  comment_re_groups (or_empty comment) = Some (minutes, hour, minute)
  /\ 0 <= hour <= 23 /\ 0 <= minute <= 59.
Proof.
  unfold parse_comment_for_length_and_time.
  destruct (comment_re_groups (or_empty comment)) as [[[m h] mi]|].
  - destruct ((0 <=? h) && (h <=? 23) && (0 <=? mi) && (mi <=? 59)) eqn:B; simpl.
    + apply andb_true_iff in B. destruct B as [B B4].
      apply andb_true_iff in B. destruct B as [B B3].
      apply andb_true_iff in B. destruct B as [B1 B2].
      apply Z.leb_le in B1, B2, B3, B4.
      split; intro H; [inversion H; subst; auto | destruct H as [H _]; exact H].
    + split; [discriminate|]. intros (H & Hh & Hm). inversion H; subst.
      exfalso. destruct Hh as [H1 H2], Hm as [H3 H4].
      apply Z.leb_le in H1, H2, H3, H4. rewrite H1, H2, H3, H4 in B. discriminate.
  - split; [discriminate | intros [H _]; discriminate].
Qed.

(** ** Date ranges *)

Lemma daterange_loop_length (n : nat) :
  forall cur end_,
    Z.of_nat n <= Z.max 0 (end_ - cur + 1) ->
    List.length (Sync.daterange_loop n cur end_) = n.
Proof.
  induction n as [|n IH]; intros cur end_ H; [reflexivity|].
  cbn [Sync.daterange_loop]. destruct (Z.leb_spec cur end_); [|lia].
  simpl. rewrite IH; [reflexivity | lia].
Qed.

Lemma daterange_loop_nth (n : nat) :
  forall cur end_ i,
    Z.of_nat n <= Z.max 0 (end_ - cur + 1) -> (i < n)%nat ->
    nth i (Sync.daterange_loop n cur end_) 0 = cur + Z.of_nat i.
Proof.
  induction n as [|n IH]; intros cur end_ i H L; [lia|].
  cbn [Sync.daterange_loop]. destruct (Z.leb_spec cur end_); [|lia].
  destruct i as [|i]; simpl nth; [lia|].
  rewrite IH; lia.
Qed.

(** X1.  [daterange] yields the consecutive dates from [start] to [end], both
    included and in increasing order: [end - start + 1] dates, none when
    [start] is after [end]. *)
Theorem daterange_consecutive (start end_ : date) :
  List.length (Sync.daterange start end_) = Z.to_nat (end_ - start + 1)
  /\ forall i, (i < Z.to_nat (end_ - start + 1))%nat ->
               nth i (Sync.daterange start end_) 0 = start + Z.of_nat i.
Proof.
  unfold Sync.daterange. split.
  - apply daterange_loop_length. lia.
  - intros i L. apply daterange_loop_nth; lia.
Qed.

Lemma date_minus_days_fits (today : date) (days : Z) :
  Sync.window_fits today days ->
  Sync.date_minus_days today (days - 1) = Ok (today - (days - 1)).
Proof.
  unfold Sync.window_fits, Sync.date_minus_days. intros (A & B & C).
  apply Z.leb_le in A, B, C. rewrite A, B, C. reflexivity.
Qed.

Lemma date_minus_days_overflow (today : date) (days : Z) :
  ~ Sync.window_fits today days ->
  Sync.date_minus_days today (days - 1) = Raise OverflowError.
Proof.
  unfold Sync.window_fits, Sync.date_minus_days. intro N.
  destruct (Z.leb_spec (Z.abs (days - 1)) Sync.TIMEDELTA_MAX_DAYS) as [A|A];
    [|reflexivity].
  destruct (Z.leb_spec Sync.DATE_MIN (today - (days - 1))) as [B|B]; [|reflexivity].
  destruct (Z.leb_spec (today - (days - 1)) Sync.DATE_MAX) as [C|C]; [|reflexivity].
  exfalso. apply N. auto.
Qed.

(** X2.  In trailing-window mode the start date is computed before
    anything is fetched.  When the subtraction does not overflow (the
    number of days fits a [timedelta] and the start date lies in
    [date.min .. date.max]) and the fetch succeeds, the range is
    independent of the fetched datapoints: it holds [HISTORY_DAYS] days
    and ends today, and holds no day at all when [HISTORY_DAYS] is zero or
    negative.  When the subtraction overflows, [OverflowError] is raised
    before any request is sent. *)
Theorem trailing_window_range {P : Platform} {R : Remote} (cfg : Config)
        (fuel : nat) (today : date) (fm_all : list datapoint) (w w1 : world) :
  FULL_HISTORY cfg = false ->
  let start_date := today - (HISTORY_DAYS cfg - 1) in
  (Sync.window_fits today (HISTORY_DAYS cfg) ->
   Sync.fetch_all_datapoints cfg fuel FOCUSMATE_GOAL w = (Ok fm_all, w1) ->
   Sync.determine_range cfg fuel today w = (Ok (start_date, today, fm_all), w1)
   /\ List.length (Sync.daterange start_date today) = Z.to_nat (HISTORY_DAYS cfg)
   /\ (forall d, In d (Sync.daterange start_date today) <->
                 today - HISTORY_DAYS cfg < d <= today))
  /\ (~ Sync.window_fits today (HISTORY_DAYS cfg) ->
      Sync.determine_range cfg fuel today w = (Raise OverflowError, w)).
Proof.
  intros Hmode start_date. split.
  - intros Hfits Hfetch. split; [|split].
    + unfold Sync.determine_range. rewrite Hmode.
      unfold lift. unfold bind at 1. rewrite (date_minus_days_fits _ _ Hfits).
      rewrite (bind_ok _ _ _ _ _ Hfetch). reflexivity.
    + rewrite (proj1 (daterange_consecutive start_date today)).
      unfold start_date. f_equal. lia.
    + intro d. rewrite daterange_In. unfold start_date. lia.
  - intro Hover. unfold Sync.determine_range. rewrite Hmode.
    unfold lift. unfold bind at 1. rewrite (date_minus_days_overflow _ _ Hover).
    reflexivity.
Qed.

Lemma trailing_window_range_witness :
  let w := Examples.world_of [Examples.short_session] [] in
  let w1 := snd (Sync.fetch_all_datapoints Examples.live 3 FOCUSMATE_GOAL w) in
  FULL_HISTORY Examples.live = false
  /\ Sync.window_fits 739252 (HISTORY_DAYS Examples.live)
  /\ Sync.fetch_all_datapoints Examples.live 3 FOCUSMATE_GOAL w
     = (Ok [Examples.short_session], w1)
  /\ Sync.determine_range (P := Reference.platform) Examples.live 3 739252 w
     = (Ok (739163, 739252, [Examples.short_session]), w1)
  /\ List.length (Sync.daterange (739252 - (90 - 1)) 739252) = 90%nat.
Proof.
  intros w w1.
  assert (H1 : FULL_HISTORY Examples.live = false) by reflexivity.
  assert (H2 : Sync.window_fits 739252 (HISTORY_DAYS Examples.live))
    by (vm_compute; repeat split; discriminate).
  assert (H3 : Sync.fetch_all_datapoints Examples.live 3 FOCUSMATE_GOAL w
               = (Ok [Examples.short_session], w1)) by (vm_compute; reflexivity).
  split; [exact H1|]. split; [exact H2|]. split; [exact H3|].
  destruct (proj1 (trailing_window_range (P := Reference.platform) Examples.live 3
                                         739252 _ w w1 H1) H2 H3) as (A & B & _).
  split; [exact A | exact B].
Defined.

(** ** Bucketing by day *)

(** X3.  The bucketing loop shared by [compute_sot_for_range] and
    [reconcile_history] succeeds exactly when every datapoint can be
    filed; its buckets then partition the filed datapoints: one entry per
    day, never empty, holding the day's datapoints in fetch order. *)
Theorem bucket_by_day_partition {P : Platform} (dps : list datapoint) :
  ((exists by_day, Sync.bucket_by_day dps [] = Ok by_day) <-> Forall datable dps)
  /\ forall by_day,
       Sync.bucket_by_day dps [] = Ok by_day ->
       NoDup (dict_keys by_day)
       /\ forall ds group,
            In (ds, group) by_day <->
            group <> [] /\ group = filter (in_day ds) dps.
Proof.
  split.
  - split.
    + intros (by_day & H). apply bucket_by_day_each in H.
      eapply Forall_impl; [|exact H]. intro dp. apply datable_bucket_day.
    + intro F. apply bucket_by_day_total.
      eapply Forall_impl; [|exact F]. intro dp. apply datable_bucket_day.
  - intros by_day H.
    pose proof (bucket_by_day_NoDup _ _ _ H (NoDup_nil _)) as ND.
    split; [exact ND|]. intros ds group. split.
    + intro I. pose proof (bucket_by_day_entry _ _ _ _ H I) as E.
      split; [|exact E].
      assert (K : In ds (dict_keys by_day)) by (apply (in_map fst _ _ I)).
      apply (bucket_by_day_keys _ _ _ H) in K. destruct K as [[] | (dp & Id & T)].
      intro N. subst group.
      assert (X : In dp (filter (in_day ds) dps)) by (apply filter_In; auto).
      rewrite N in X. exact X.
    + intros [N E].
      destruct (dict_get ds by_day) as [g|] eqn:G.
      * apply dict_get_In in G.
        rewrite (bucket_by_day_entry _ _ _ _ H G) in G. rewrite E. exact G.
      * exfalso. apply dict_get_None in G. apply G.
        apply (bucket_by_day_keys _ _ _ H). right.
        destruct (filter (in_day ds) dps) as [|dp rest] eqn:F; [contradiction|].
        assert (X : In dp (filter (in_day ds) dps)) by (rewrite F; left; reflexivity).
        apply filter_In in X. exists dp. exact X.
Qed.

Lemma day_value_perm {P : Platform} (dps dps' : list datapoint) :
  Permutation dps dps' -> Sync.day_value dps' = Sync.day_value dps.
Proof.
  intro Hp.
  destruct (day_value_spec dps) as [S0 B], (day_value_spec dps') as [S' B'].
  assert (X : Sync.day_value dps = 1 <-> Sync.day_value dps' = 1).
  { rewrite S0, S'. split; intros (x & I & Q); exists x; split; try exact Q.
    - eapply Permutation_in; [exact Hp | exact I].
    - eapply Permutation_in; [apply Permutation_sym; exact Hp | exact I]. }
  destruct B as [B|B], B' as [B'|B']; rewrite ?B, ?B'; try reflexivity.
  - exfalso. apply X in B'. congruence.
  - exfalso. apply X in B. congruence.
Qed.

Lemma filter_perm {A} (f : A -> bool) (l l' : list A) :
  Permutation l l' -> Permutation (filter f l) (filter f l').
Proof.
  induction 1 as [|x l l' Hp IH|x y l|l l' l'' H1 IH1 H2 IH2]; simpl.
  - constructor.
  - destruct (f x); [constructor|]; exact IH.
  - destruct (f x), (f y); try apply Permutation_refl. apply perm_swap.
  - eapply Permutation_trans; eassumption.
Qed.

Lemma sot_loop_ext {P : Platform} (by_day by_day' : list (string * list datapoint))
      (days : list date) :
  (forall k, Sync.day_value (Sync.dict_get_default k by_day')
             = Sync.day_value (Sync.dict_get_default k by_day)) ->
  forall out, Sync.sot_loop by_day' days out = Sync.sot_loop by_day days out.
Proof.
  intro E. induction days as [|d days IH]; intro out; simpl; [reflexivity|].
  rewrite E. apply IH.
Qed.

(** X4.  The SoT mapping does not depend on the order in which the Focusmate
    datapoints were fetched: any reordering of them gives the same
    mapping, with its days in the same order. *)
Theorem compute_sot_for_range_order_free {P : Platform}
        (dps dps' : list datapoint) (start_date end_date : date)
        (sot : list (string * Z)) :
  Permutation dps dps' ->
  Sync.compute_sot_for_range dps start_date end_date = Ok sot ->
  Sync.compute_sot_for_range dps' start_date end_date = Ok sot.
Proof.
  intros Hp H. unfold Sync.compute_sot_for_range in *.
  destruct (Sync.bucket_by_day dps []) as [by_day| |] eqn:Hb; try discriminate.
  simpl in H. inversion H; subst. clear H.
  assert (F : Forall (fun dp => exists o, Sync.bucket_day dp = Ok o) dps').
  { apply Forall_forall. intros dp I.
    pose proof (bucket_by_day_each _ _ _ Hb) as F.
    rewrite Forall_forall in F. apply F.
    eapply Permutation_in; [apply Permutation_sym; exact Hp | exact I]. }
  destruct (bucket_by_day_total dps' F []) as (by_day' & Hb').
  rewrite Hb'. simpl. f_equal. apply sot_loop_ext. intro k.
  rewrite (bucket_by_day_get _ _ _ Hb' k), (bucket_by_day_get _ _ _ Hb k). simpl.
  apply day_value_perm, filter_perm, Hp.
Qed.

Lemma compute_sot_for_range_order_free_witness :
  let sot := [("20250101"%string, 1); ("20250102"%string, 0)] in
  Permutation [Examples.short_session; Examples.early_session]
              [Examples.early_session; Examples.short_session]
  /\ Sync.compute_sot_for_range (P := Reference.platform)
       [Examples.short_session; Examples.early_session] 739252 739253 = Ok sot
  /\ Sync.compute_sot_for_range (P := Reference.platform)
       [Examples.early_session; Examples.short_session] 739252 739253 = Ok sot.
Proof.
  intro sot.
  assert (Hp : Permutation [Examples.short_session; Examples.early_session]
                           [Examples.early_session; Examples.short_session])
    by apply perm_swap.
  assert (H : Sync.compute_sot_for_range (P := Reference.platform)
                [Examples.short_session; Examples.early_session] 739252 739253
              = Ok sot) by (vm_compute; reflexivity).
  split; [exact Hp|]. split; [exact H|].
  exact (compute_sot_for_range_order_free (P := Reference.platform) _ _ _ _ _ Hp H).
Defined.

(** ** The local SoT table *)

Section Store.
Context {P : Platform} {R : Remote}.

Lemma upsert_get (now : string) (mapping : list (string * Z)) :
  NoDup (dict_keys mapping) ->
  forall (db : list (string * (Z * string))) (k : string),
    dict_get k (fold_left (fun db kv => dict_set (fst kv) (snd kv, now) db) mapping db)
    = match dict_get k mapping with
      | Some v => Some (v, now)
      | None => dict_get k db
      end.
Proof.
  induction mapping as [|[k0 v0] mapping IH]; intros ND db k; [reflexivity|].
  inversion ND as [|? ? Nin ND']; subst. cbn [fold_left fst snd dict_get].
  rewrite (IH ND'), dict_get_set.
  destruct (String.eqb_spec k0 k) as [->|N]; [|reflexivity].
  replace (dict_get k mapping) with (@None Z); [reflexivity|].
  symmetry. apply dict_get_None. exact Nin.
Qed.

Lemma upsert_NoDup (now : string) (mapping : list (string * Z)) :
  forall db : list (string * (Z * string)),
    NoDup (dict_keys db) ->
    NoDup (dict_keys (fold_left (fun db kv => dict_set (fst kv) (snd kv, now) db)
                                mapping db)).
Proof.
  induction mapping as [|kv mapping IH]; intros db ND; [exact ND|].
  apply IH, dict_set_NoDup, ND.
Qed.

Lemma dict_get_map_value {A B} (f : A -> B) (k : string) (d : list (string * A)) :
  dict_get k (map (fun row => (fst row, f (snd row))) d)
  = option_map f (dict_get k d).
Proof.
  induction d as [|[k' v] d IH]; simpl; [reflexivity|].
  destruct (k' =? k)%string; [reflexivity | exact IH].
Qed.

Lemma upsert_loop_ok (now : string) (mapping : list (string * Z)) :
  Forall (fun kv => snd kv = 0 \/ snd kv = 1) mapping ->
  forall table,
    Sync.upsert_loop mapping now table
    = Ok (fold_left (fun db kv => dict_set (fst kv) (snd kv, now) db) mapping table).
Proof.
  induction 1 as [|[ds v] mapping Hv F IH]; intro table; [reflexivity|].
  cbn [Sync.upsert_loop fold_left fst snd]. unfold Sync.execute_upsert.
  replace ((v =? 0) || (v =? 1)) with true
    by (simpl in Hv; destruct Hv; subst; reflexivity).
  cbn [obind]. apply IH.
Qed.

(** The loop either writes every row or stops at the first row whose
    value the table refuses, after it has written the rows before it. *)
Lemma upsert_loop_cases (now : string) (mapping : list (string * Z)) :
  forall table,
    Forall (fun kv => snd kv = 0 \/ snd kv = 1) mapping
    \/ exists done ds v rest table',
        mapping = done ++ (ds, v) :: rest
        /\ Forall (fun kv => snd kv = 0 \/ snd kv = 1) done
        /\ v <> 0 /\ v <> 1
        /\ Sync.upsert_loop done now table = Ok table'
        /\ Sync.execute_upsert ds v now table' = Raise IntegrityError
        /\ Sync.upsert_loop mapping now table = Raise IntegrityError.
Proof.
  induction mapping as [|[ds v] mapping IH]; intro table; [left; constructor|].
  destruct (Z.eqb_spec v 0) as [E0|N0]; [|destruct (Z.eqb_spec v 1) as [E1|N1]].
  3:{ right. exists [], ds, v, mapping, table.
      assert (X : Sync.execute_upsert ds v now table = Raise IntegrityError).
      { unfold Sync.execute_upsert.
        replace (v =? 0) with false by (symmetry; apply Z.eqb_neq, N0).
        replace (v =? 1) with false by (symmetry; apply Z.eqb_neq, N1).
        reflexivity. }
      repeat split; try assumption; try constructor.
      cbn [Sync.upsert_loop]. rewrite X. reflexivity. }
  all: assert (X : Sync.execute_upsert ds v now table
                   = Ok (dict_set ds (v, now) table))
         by (unfold Sync.execute_upsert; subst v; reflexivity);
       destruct (IH (dict_set ds (v, now) table))
         as [F | (done & ds' & v' & rest & table' & -> & Fd & A & B & L & X' & H)];
       [left; constructor; [simpl; auto | exact F]
       |right; exists ((ds, v) :: done), ds', v', rest, table';
        repeat split; try assumption;
        [constructor; [simpl; auto | exact Fd]
        |cbn [Sync.upsert_loop]; rewrite X; exact L
        |cbn [app Sync.upsert_loop]; rewrite X; exact H]].
Qed.

(** The mapping [compute_sot_for_range] returns has one entry per day and
    only the values 0 and 1. *)
Lemma compute_sot_values (dps : list datapoint) (start_date end_date : date)
      (sot_map : list (string * Z)) :
  Sync.compute_sot_for_range dps start_date end_date = Ok sot_map ->
  NoDup (dict_keys sot_map)
  /\ Forall (fun kv => snd kv = 0 \/ snd kv = 1) sot_map.
Proof.
  unfold Sync.compute_sot_for_range. intro H.
  destruct (Sync.bucket_by_day dps []) as [by_day | e |]; try discriminate.
  simpl in H. inversion H; subst sot_map. clear H.
  assert (ND : NoDup (dict_keys (Sync.sot_loop by_day
                                   (Sync.daterange start_date end_date) [])))
    by (apply sot_loop_NoDup; constructor).
  split; [exact ND|]. apply Forall_forall. intros [k v] I. simpl.
  apply (In_dict_get _ _ _ ND) in I. rewrite sot_loop_get in I.
  destruct (mem_string k _); [|discriminate]. inversion I.
  apply day_value_spec.
Qed.

(** X5.  [sot_upsert_bulk] writes the rows one by one inside a
    transaction.  When every value is 0 or 1 the transaction is committed
    without touching the remote: each day of the mapping then holds its
    value with the time of the run, every other row is kept, the table
    still has one row per day, and [sot_load_all] reads the values back.
    When some value is not 0 or 1, the loop stops at the first such row
    with the integrity error of the [CHECK], after it has written the rows
    before it, and the rollback leaves the table as it was on entry.  A
    mapping returned by [compute_sot_for_range], as [main] passes it, is
    always of the first kind. *)
Theorem sot_upsert_bulk_all_or_nothing (mapping : list (string * Z))
        (now : string) (w : world) :
  NoDup (dict_keys mapping) ->
  (Forall (fun kv => snd kv = 0 \/ snd kv = 1) mapping ->
   exists w',
     Sync.sot_upsert_bulk mapping now w = (Ok tt, w')
     /\ remote w' = remote w /\ sent w' = sent w
     /\ (forall k, dict_get k (sot_db w')
                   = match dict_get k mapping with
                     | Some v => Some (v, now)
                     | None => dict_get k (sot_db w)
                     end)
     /\ (NoDup (dict_keys (sot_db w)) -> NoDup (dict_keys (sot_db w')))
     /\ exists loaded,
         Sync.sot_load_all w' = (Ok loaded, w')
         /\ forall k v, dict_get k mapping = Some v -> dict_get k loaded = Some v)
  /\ (~ Forall (fun kv => snd kv = 0 \/ snd kv = 1) mapping ->
      exists done ds v rest,
        mapping = done ++ (ds, v) :: rest
        /\ Forall (fun kv => snd kv = 0 \/ snd kv = 1) done
        /\ v <> 0 /\ v <> 1
        /\ Sync.upsert_loop done now (sot_db w)
           = Ok (fold_left (fun db kv => dict_set (fst kv) (snd kv, now) db)
                           done (sot_db w))
        /\ Sync.sot_upsert_bulk mapping now w = (Raise IntegrityError, w))
  /\ (forall dps start_date end_date,
        Sync.compute_sot_for_range dps start_date end_date = Ok mapping ->
        exists w', Sync.sot_upsert_bulk mapping now w = (Ok tt, w')).
Proof.
  intro ND.
  assert (Good : Forall (fun kv => snd kv = 0 \/ snd kv = 1) mapping ->
                 Sync.sot_upsert_bulk mapping now w
                 = (Ok tt, {| remote := remote w; sent := sent w;
                              sot_db := fold_left
                                          (fun db kv => dict_set (fst kv) (snd kv, now) db)
                                          mapping (sot_db w) |})).
  { intro F. unfold Sync.sot_upsert_bulk, Sync.with_conn.
    rewrite (upsert_loop_ok now mapping F). reflexivity. }
  split; [|split].
  - intro F. eexists. split; [exact (Good F)|]. cbn [remote sent sot_db].
    split; [reflexivity|]. split; [reflexivity|].
    split; [intro k; apply (upsert_get now mapping ND)|].
    split; [apply upsert_NoDup|].
    eexists. split; [reflexivity|]. intros k v G. cbn [sot_db].
    rewrite (dict_get_map_value fst), (upsert_get now mapping ND), G. reflexivity.
  - intro N.
    destruct (upsert_loop_cases now mapping (sot_db w))
      as [F | (done & ds & v & rest & table' & E & Fd & A & B & L & _ & H)];
      [contradiction|].
    exists done, ds, v, rest. repeat split; try assumption.
    + rewrite <- (upsert_loop_ok now done Fd). reflexivity.
    + unfold Sync.sot_upsert_bulk, Sync.with_conn. rewrite H. reflexivity.
  - intros dps start_date end_date Hc.
    destruct (compute_sot_values _ _ _ _ Hc) as [_ F].
    eexists. exact (Good F).
Qed.

(** ** What leaves the table alone *)

Lemma http_db (r : request) (w : world) : sot_db (snd (http r w)) = sot_db w.
Proof. unfold http. destruct (serve r (remote w)). reflexivity. Qed.

Lemma send_db (r : request) (w : world) : sot_db (snd (send r w)) = sot_db w.
Proof.
  unfold send, bind, http, raise, ret. destruct (serve r (remote w)) as [resp s].
  destruct (raises_for_status resp); reflexivity.
Qed.

Lemma send_all_db (reqs : list request) :
  forall w, sot_db (snd (send_all reqs w)) = sot_db w.
Proof.
  induction reqs as [|r reqs IH]; intro w; [reflexivity|].
  unfold send_all. cbn [for_each]. unfold bind.
  pose proof (send_db r w) as E.
  destruct (send r w) as [[[] | e |] w1]; simpl in E; try exact E.
  rewrite <- E. apply IH.
Qed.

Lemma fetch_pages_db (fuel : nat) :
  forall goal page results w,
    sot_db (snd (Sync.fetch_pages fuel goal page results w)) = sot_db w.
Proof.
  induction fuel as [|fuel IH]; intros goal page results w; [reflexivity|].
  cbn [Sync.fetch_pages]. unfold bind, http.
  destruct (serve (GET goal (Some page) 100) (remote w)) as [resp s].
  destruct (raises_for_status resp); [reflexivity|].
  destruct (body resp) as [[|x batch] | [|x o]]; try reflexivity.
  destruct (Z.of_nat (List.length (x :: batch)) <? 100); [reflexivity|].
  rewrite IH. reflexivity.
Qed.

Lemma fetch_all_db (cfg : Config) (fuel : nat) (goal : string) (w : world) :
  sot_db (snd (Sync.fetch_all_datapoints cfg fuel goal w)) = sot_db w.
Proof.
  unfold Sync.fetch_all_datapoints, Sync._need_auth, bind, raise, ret.
  destruct (negb (truthy (AUTH_TOKEN cfg)) && negb (DRY_RUN cfg)); [reflexivity|].
  destruct (DRY_RUN cfg); [reflexivity|]. apply fetch_pages_db.
Qed.

Lemma reconcile_history_db (cfg : Config) (fuel : nat)
      (sot_map : list (string * Z)) (w : world) :
  sot_db (snd (Sync.reconcile_history cfg fuel sot_map w)) = sot_db w.
Proof.
  destruct (DRY_RUN cfg) eqn:D.
  - rewrite (reconcile_history_dry cfg fuel sot_map w D). reflexivity.
  - pose proof (fetch_all_db cfg fuel WAKEANDFOCUS_GOAL w) as F.
    destruct (Sync.fetch_all_datapoints cfg fuel WAKEANDFOCUS_GOAL w)
      as [[wf_all | e |] w1] eqn:Hf; simpl in F.
    + destruct (Sync.bucket_by_day wf_all []) as [wf_by_day | e |] eqn:Hb.
      * rewrite (reconcile_history_sends cfg D fuel sot_map _ _ _ _ Hf Hb).
        rewrite send_all_db. exact F.
      * unfold Sync.reconcile_history. rewrite (bind_ok _ _ _ _ _ Hf).
        unfold lift, bind. rewrite Hb. exact F.
      * unfold Sync.reconcile_history. rewrite (bind_ok _ _ _ _ _ Hf).
        unfold lift, bind. rewrite Hb. exact F.
    + unfold Sync.reconcile_history, bind. rewrite Hf. exact F.
    + unfold Sync.reconcile_history, bind. rewrite Hf. exact F.
Qed.

Lemma determine_range_db (cfg : Config) (fuel : nat) (today : date) (w : world) :
  sot_db (snd (Sync.determine_range cfg fuel today w)) = sot_db w.
Proof.
  pose proof (fetch_all_db cfg fuel FOCUSMATE_GOAL w) as F.
  unfold Sync.determine_range, bind, raise, ret, lift.
  destruct (FULL_HISTORY cfg).
  - destruct (Sync.fetch_all_datapoints cfg fuel FOCUSMATE_GOAL w)
      as [[fm | e |] w1]; simpl in F; try exact F.
    destruct (Sync.numeric_timestamps fm) as [|t ts]; [exact F|].
    destruct (local_date_of_timestamp (Sync.py_min t ts)); exact F.
  - destruct (Sync.date_minus_days today (HISTORY_DAYS cfg - 1)) as [d | e |];
      try reflexivity.
    destruct (Sync.fetch_all_datapoints cfg fuel FOCUSMATE_GOAL w)
      as [[fm | e |] w1]; simpl in F; exact F.
Qed.
End Store.

Lemma sot_upsert_bulk_all_or_nothing_witness :
  NoDup (dict_keys [("20250101"%string, 1); ("20250102"%string, 2)])
  /\ Sync.sot_upsert_bulk [("20250101"%string, 1); ("20250102"%string, 2)]
       "2025-01-02T12:00:00Z" Examples.seen_r1
     = (Raise IntegrityError, Examples.seen_r1).
Proof.
  assert (ND : NoDup (dict_keys [("20250101"%string, 1); ("20250102"%string, 2)])).
  { repeat constructor; simpl; intuition discriminate. }
  split; [exact ND|].
  destruct (proj1 (proj2 (sot_upsert_bulk_all_or_nothing
                            (P := Reference.platform) _ "2025-01-02T12:00:00Z"
                            Examples.seen_r1 ND)))
    as (done & ds & v & rest & _ & _ & _ & _ & _ & H); [|exact H].
  intro F. inversion F as [|? ? _ F']; subst. inversion F' as [|? ? H _]; subst.
  simpl in H. lia.
Defined.

(** ** The runs as a whole *)

Section Runs.
Context {P : Platform} {R : Remote}.
Variable cfg : Config.

Lemma bind_db {A B} (m : M A) (k : A -> M B) (w : world) :
  (forall w, sot_db (snd (m w)) = sot_db w) ->
  (forall a w, sot_db (snd (k a w)) = sot_db w) ->
  sot_db (snd (bind m k w)) = sot_db w.
Proof.
  intros Hm Hk. unfold bind. specialize (Hm w).
  destruct (m w) as [[a | e |] w1]; simpl in Hm; try exact Hm.
  rewrite Hk. exact Hm.
Qed.

Lemma for_each_db {A} (l : list A) (body : A -> M unit) :
  (forall x w, sot_db (snd (body x w)) = sot_db w) ->
  forall w, sot_db (snd (for_each l body w)) = sot_db w.
Proof.
  intro Hb. induction l as [|x l IH]; intro w; [reflexivity|].
  cbn [for_each]. apply bind_db; [apply Hb | intros _; exact IH].
Qed.

Ltac db_step :=
  intros;
  lazymatch goal with
  | |- sot_db (snd (bind _ _ _)) = _ => apply bind_db
  | |- sot_db (snd (for_each _ _ _)) = _ => apply for_each_db
  | |- sot_db (snd (http _ _)) = _ => apply http_db
  | |- sot_db (snd ((if ?b then _ else _) _)) = _ => destruct b
  | |- sot_db (snd (match ?x with _ => _ end _)) = _ => destruct x
  | |- _ => reflexivity
  end.

Lemma today_get_db (goal : string) (w : world) :
  sot_db (snd (Today.get_datapoints_for_goal cfg goal w)) = sot_db w.
Proof. unfold Today.get_datapoints_for_goal. repeat db_step. Qed.

Lemma today_reconcile_db (daystamp : string) (sot_value : Z) (w : world) :
  sot_db (snd (Today.reconcile_beeminder_with_sot cfg daystamp sot_value w))
  = sot_db w.
Proof.
  unfold Today.reconcile_beeminder_with_sot, Today.add_datapoint,
    Today.update_datapoint, Today.delete_datapoint, Today.item_id.
  apply bind_db; [apply today_get_db|]. intros dps w0.
  apply bind_db; [reflexivity|]. intros todays w1.
  repeat db_step.
Qed.

(** X6.  Without a token and outside dry-run mode nothing is attempted: each of
    the two programs ends with exit status 1 before any request is sent
    and before the SoT table is written, and [reconcile_history] raises
    the error that names the missing token. *)
Theorem run_without_token (fuel : nat) (today : date) (daystamp day now : string)
        (sot_map : list (string * Z)) (w : world) :
  DRY_RUN cfg = false ->
  truthy (AUTH_TOKEN cfg) = false ->
  Sync.main cfg fuel today now w = (Ok 1, w)
  /\ Today.main cfg daystamp day now w = (Ok 1, w)
  /\ Sync.reconcile_history cfg fuel sot_map w
     = (Raise (RuntimeError "BM_AUTH_TOKEN is not set"), w).
Proof.
  intros live token.
  assert (F : forall goal,
             Sync.fetch_all_datapoints cfg fuel goal w
             = (Raise (RuntimeError "BM_AUTH_TOKEN is not set"), w)).
  { intro goal. unfold Sync.fetch_all_datapoints, Sync._need_auth, bind.
    rewrite live, token. reflexivity. }
  split; [|split].
  - unfold Sync.main, Sync.main_body, Sync.determine_range, bind, lift.
    destruct (FULL_HISTORY cfg); [rewrite F; reflexivity|].
    unfold Sync.date_minus_days.
    destruct ((Z.abs (HISTORY_DAYS cfg - 1) <=? Sync.TIMEDELTA_MAX_DAYS)
              && (Sync.DATE_MIN <=? today - (HISTORY_DAYS cfg - 1))
              && (today - (HISTORY_DAYS cfg - 1) <=? Sync.DATE_MAX));
      [rewrite F|]; reflexivity.
  - unfold Today.main, Today.compute_today_outcome, Today.get_datapoints_for_goal,
      bind.
    rewrite live, token. reflexivity.
  - unfold Sync.reconcile_history, bind. rewrite F. reflexivity.
Qed.

(** What [main] does once the range is determined: the SoT mapping is
    computed and stored, and only then is the remote reconciled. *)
Lemma main_after_range (fuel : nat) (today : date) (now : string) (w w1 : world)
      (start_date end_date : date) (fm_all : list datapoint) :
  Sync.determine_range cfg fuel today w = (Ok (start_date, end_date, fm_all), w1) ->
  Forall datable fm_all ->
  exists sot_map,
    Sync.compute_sot_for_range fm_all start_date end_date = Ok sot_map
    /\ NoDup (dict_keys sot_map)
    /\ (forall k, dict_get k sot_map
                  = if mem_string k (map strftime_Ymd
                                         (Sync.daterange start_date end_date))
                    then Some (Sync.day_value (filter (in_day k) fm_all))
                    else None)
    /\ let w2 := {| remote := remote w1; sent := sent w1;
                    sot_db := fold_left
                                (fun db kv => dict_set (fst kv) (snd kv, now) db)
                                sot_map (sot_db w) |} in
       Sync.main_body cfg fuel today now w
       = Sync.reconcile_history cfg fuel sot_map w2.
Proof.
  intros Hr Hd.
  assert (Hd' : Forall (fun dp => exists o, Sync.bucket_day dp = Ok o) fm_all).
  { eapply Forall_impl; [|exact Hd]. intros dp. apply datable_bucket_day. }
  destruct (bucket_by_day_total fm_all Hd' []) as (by_day & Hb).
  set (sot_map := Sync.sot_loop by_day (Sync.daterange start_date end_date) []).
  assert (Hc : Sync.compute_sot_for_range fm_all start_date end_date = Ok sot_map).
  { unfold Sync.compute_sot_for_range. rewrite Hb. reflexivity. }
  assert (ND : NoDup (dict_keys sot_map)) by (apply sot_loop_NoDup; constructor).
  assert (G : forall k, dict_get k sot_map
                        = if mem_string k (map strftime_Ymd
                                               (Sync.daterange start_date end_date))
                          then Some (Sync.day_value (filter (in_day k) fm_all))
                          else None).
  { intro k. unfold sot_map. rewrite sot_loop_get.
    rewrite (bucket_by_day_get _ _ _ Hb k). reflexivity. }
  exists sot_map. split; [exact Hc|]. split; [exact ND|]. split; [exact G|].
  intro w2. unfold Sync.main_body.
  rewrite (bind_ok _ _ _ _ _ Hr). unfold lift. unfold bind at 1. rewrite Hc.
  unfold bind at 1. unfold Sync.sot_upsert_bulk, Sync.with_conn.
  rewrite (upsert_loop_ok now sot_map (proj2 (compute_sot_values _ _ _ _ Hc))).
  cbn [obind].
  pose proof (determine_range_db cfg fuel today w) as D. rewrite Hr in D.
  simpl in D. rewrite D. reflexivity.
Qed.

(** X7.  Once the Focusmate datapoints are fetched, [main] stores the outcome
    of every day of the range, stamped with the time of the run, before it
    reconciles the remote: the rows are in the table whatever the
    reconciliation does afterwards, also when it fails, and the rows of
    days outside the range are left as they were. *)
Theorem main_stores_sot_before_reconciling
        (fuel : nat) (today : date) (now : string) (w w1 : world)
        (start_date end_date : date) (fm_all : list datapoint) :
  Sync.determine_range cfg fuel today w = (Ok (start_date, end_date, fm_all), w1) ->
  Forall datable fm_all ->
  let w' := snd (Sync.main cfg fuel today now w) in
  (forall d, start_date <= d <= end_date ->
             dict_get (strftime_Ymd d) (sot_db w')
             = Some (Sync.day_value (filter (in_day (strftime_Ymd d)) fm_all), now))
  /\ (forall k, (forall d, start_date <= d <= end_date -> k <> strftime_Ymd d) ->
                dict_get k (sot_db w') = dict_get k (sot_db w)).
Proof.
  intros Hr Hd w'.
  destruct (main_after_range fuel today now w w1 _ _ _ Hr Hd)
    as (sot_map & _ & ND & G & Hm).
  cbv zeta in Hm.
  assert (E : sot_db w'
              = fold_left (fun db kv => dict_set (fst kv) (snd kv, now) db)
                          sot_map (sot_db w)).
  { unfold w', Sync.main. rewrite Hm.
    match goal with
    | |- context [Sync.reconcile_history cfg fuel sot_map ?w2] =>
        pose proof (reconcile_history_db cfg fuel sot_map w2) as D;
        destruct (Sync.reconcile_history cfg fuel sot_map w2) as [[u | e |] w3]
    end; exact D. }
  rewrite E. split.
  - intros d Hin. rewrite (upsert_get now sot_map ND), G.
    replace (mem_string _ _) with true; [reflexivity|].
    symmetry. apply mem_string_In, in_map, daterange_In, Hin.
  - intros k Hout. rewrite (upsert_get now sot_map ND), G.
    replace (mem_string _ _) with false; [reflexivity|].
    symmetry. destruct (mem_string k _) eqn:M; [|reflexivity].
    exfalso. apply mem_string_In, in_map_iff in M. destruct M as (d & <- & I).
    apply daterange_In in I. exact (Hout d I eq_refl).
Qed.

(** X8.  A dry run of the history program sends nothing.  In
    full-history mode, and in trailing-window mode when the start date of
    the window can be computed, it ends with exit status 0 but does write
    the SoT table: with no datapoint fetched, every day of the range
    (today alone in full-history mode) is stored with outcome 0.  In
    trailing-window mode with a window whose start date overflows, it ends
    with exit status 1 and stores nothing. *)
Theorem dry_run_stores_zero_for_every_day
        (fuel : nat) (today : date) (now : string) (w : world) :
  DRY_RUN cfg = true ->
  let start_date :=
    if FULL_HISTORY cfg then today else today - (HISTORY_DAYS cfg - 1) in
  (FULL_HISTORY cfg = true \/ Sync.window_fits today (HISTORY_DAYS cfg) ->
   exists w',
     Sync.main cfg fuel today now w = (Ok 0, w')
     /\ remote w' = remote w /\ sent w' = sent w
     /\ (forall d, start_date <= d <= today ->
                   dict_get (strftime_Ymd d) (sot_db w') = Some (0, now))
     /\ (forall k, (forall d, start_date <= d <= today -> k <> strftime_Ymd d) ->
                   dict_get k (sot_db w') = dict_get k (sot_db w)))
  /\ (FULL_HISTORY cfg = false ->
      ~ Sync.window_fits today (HISTORY_DAYS cfg) ->
      Sync.main cfg fuel today now w = (Ok 1, w)).
Proof.
  intros dry start_date. split.
  - intro Hfits.
    assert (Hr : Sync.determine_range cfg fuel today w
                 = (Ok (start_date, today, []), w)).
    { unfold Sync.determine_range, start_date.
      destruct (FULL_HISTORY cfg).
      - rewrite (bind_ok _ _ _ _ _ (fetch_dry cfg fuel _ w dry)). reflexivity.
      - destruct Hfits as [X | Hfits]; [discriminate|].
        unfold lift. unfold bind at 1. rewrite (date_minus_days_fits _ _ Hfits).
        rewrite (bind_ok _ _ _ _ _ (fetch_dry cfg fuel _ w dry)). reflexivity. }
    destruct (main_after_range fuel today now w w _ _ _ Hr (Forall_nil _))
      as (sot_map & _ & ND & G & Hm).
    cbv zeta in Hm. rewrite (reconcile_history_dry cfg fuel sot_map _ dry) in Hm.
    unfold Sync.main. rewrite Hm.
    eexists. split; [reflexivity|]. cbn [remote sent sot_db].
    split; [reflexivity|]. split; [reflexivity|]. split.
    + intros d Hin. rewrite (upsert_get now sot_map ND), G.
      replace (mem_string _ _) with true; [reflexivity|].
      symmetry. apply mem_string_In, in_map, daterange_In, Hin.
    + intros k Hout. rewrite (upsert_get now sot_map ND), G.
      replace (mem_string _ _) with false; [reflexivity|].
      symmetry. destruct (mem_string k _) eqn:M; [|reflexivity].
      exfalso. apply mem_string_In, in_map_iff in M. destruct M as (d & <- & I).
      apply daterange_In in I. exact (Hout d I eq_refl).
  - intros Hmode Hover.
    unfold Sync.main, Sync.main_body, Sync.determine_range. rewrite Hmode.
    unfold lift, bind. rewrite (date_minus_days_overflow _ _ Hover). reflexivity.
Qed.
End Runs.

Lemma run_without_token_witness :
  let w := Examples.world_of [Examples.stale; Examples.good] [] in
  DRY_RUN Examples.no_token = false
  /\ truthy (AUTH_TOKEN Examples.no_token) = false
  /\ Sync.main (P := Reference.platform) Examples.no_token 3 739252
               "2025-01-01T12:00:00Z" w = (Ok 1, w)
  /\ Today.main (P := Reference.platform) Examples.no_token "20250101" "20250101"
                "2025-01-01T12:00:00Z" w = (Ok 1, w).
Proof.
  intro w.
  assert (H1 : DRY_RUN Examples.no_token = false) by reflexivity.
  assert (H2 : truthy (AUTH_TOKEN Examples.no_token) = false) by reflexivity.
  split; [exact H1|]. split; [exact H2|].
  destruct (run_without_token (P := Reference.platform) Examples.no_token 3 739252
                              "20250101" "20250101" "2025-01-01T12:00:00Z"
                              Examples.sot w H1 H2) as (A & B & _).
  split; [exact A | exact B].
Defined.

Lemma main_stores_sot_before_reconciling_witness :
  let fm_all := [Examples.short_session; Examples.early_session] in
  let w := Examples.world_of fm_all ["wakeandfocus-20250101-sot-v1"] in
  let w1 := snd (Sync.determine_range (P := Reference.platform) Examples.live 3
                                      739252 w) in
  let w' := snd (Sync.main (P := Reference.platform) Examples.live 3 739252
                           "2025-01-01T12:00:00Z" w) in
  Sync.determine_range (P := Reference.platform) Examples.live 3 739252 w
  = (Ok (739163, 739252, fm_all), w1)
  /\ Forall (datable (P := Reference.platform)) fm_all
  /\ dict_get "20250101" (sot_db w') = Some (1, "2025-01-01T12:00:00Z"%string).
Proof.
  intros fm_all w w1 w'.
  assert (H1 : Sync.determine_range (P := Reference.platform) Examples.live 3 739252 w
               = (Ok (739163, 739252, fm_all), w1)) by (vm_compute; reflexivity).
  assert (H2 : Forall (datable (P := Reference.platform)) fm_all)
    by (repeat constructor).
  split; [exact H1|]. split; [exact H2|].
  exact (proj1 (main_stores_sot_before_reconciling
                  (P := Reference.platform) Examples.live 3 739252
                  "2025-01-01T12:00:00Z" w w1 739163 739252 fm_all H1 H2)
               739252 ltac:(lia)).
Defined.

Lemma dry_run_stores_zero_for_every_day_witness :
  let w := Examples.world_of [Examples.good] [] in
  DRY_RUN Examples.dry = true
  /\ Sync.window_fits 739252 (HISTORY_DAYS Examples.dry)
  /\ exists w',
      Sync.main (P := Reference.platform) Examples.dry 0 739252
                "2025-01-01T12:00:00Z" w = (Ok 0, w')
      /\ remote w' = remote w /\ sent w' = sent w
      /\ dict_get "20241231" (sot_db w') = Some (0, "2025-01-01T12:00:00Z"%string).
Proof.
  intro w.
  assert (H1 : DRY_RUN Examples.dry = true) by reflexivity.
  assert (H2 : Sync.window_fits 739252 (HISTORY_DAYS Examples.dry))
    by (vm_compute; repeat split; discriminate).
  split; [exact H1|]. split; [exact H2|].
  destruct (proj1 (dry_run_stores_zero_for_every_day
                     (P := Reference.platform) Examples.dry 0 739252
                     "2025-01-01T12:00:00Z" w H1) (or_intror H2))
    as (w' & A & B & C & D & _).
  exists w'. split; [exact A|]. split; [exact B|]. split; [exact C|].
  exact (D 739251 ltac:(vm_compute; split; discriminate)).
Defined.

(** ** The single-day program *)

Section SingleDay.
Context {P : Platform} {R : Remote}.
Variable cfg : Config.

Lemma on_day_In (day : string) (dps : list datapoint) (dp : datapoint) :
  In dp (Today.on_day day dps) <-> In dp dps /\ dp_daystamp dp = Some day.
Proof.
  unfold Today.on_day. rewrite filter_In.
  destruct (dp_daystamp dp) as [ds|].
  - rewrite String.eqb_eq. split; intros [I E]; (split; [exact I | congruence]).
  - split; intros [_ E]; discriminate.
Qed.

(** X9.  [compute_today_outcome] sends one read of the Focusmate goal, without
    a page number, and looks at that single batch only: the outcome is 1
    exactly when a datapoint of the batch whose daystamp field equals
    today's daystamp qualifies, and 0 otherwise.  A datapoint without a
    daystamp field is never counted, whatever its timestamp. *)
Theorem compute_today_outcome_reads_one_batch
        (today : string) (w : world) (resp : response) (s : remote_state)
        (items : list datapoint) :
  DRY_RUN cfg = false ->
  truthy (AUTH_TOKEN cfg) = true ->
  serve (GET FOCUSMATE_GOAL None 100) (remote w) = (resp, s) ->
  raises_for_status resp = false ->
  body resp = JArray items ->
  exists v,
    Today.compute_today_outcome cfg today w
    = (Ok v, {| remote := s; sent := sent w ++ [GET FOCUSMATE_GOAL None 100];
                sot_db := sot_db w |})
    /\ (v = 1 <-> exists dp, In dp items /\ dp_daystamp dp = Some today
                             /\ qualifying dp)
    /\ (v = 0 \/ v = 1).
Proof.
  intros live token Hs Hok Hb.
  exists (Today.first_qualifying (Today.on_day today items)). split.
  - unfold Today.compute_today_outcome, Today.get_datapoints_for_goal, bind, http.
    rewrite live, token. cbn [negb andb]. cbv beta. rewrite Hs. cbv beta iota.
    rewrite Hok, Hb. reflexivity.
  - rewrite first_qualifying_day_value.
    destruct (day_value_spec (Today.on_day today items)) as [S1 B].
    split; [|exact B]. rewrite S1. split.
    + intros (dp & I & Q). apply on_day_In in I. exists dp. tauto.
    + intros (dp & I & E & Q). exists dp. split; [apply on_day_In; auto | exact Q].
Qed.

Lemma compute_today_outcome_db (today : string) (w : world) :
  sot_db (snd (Today.compute_today_outcome cfg today w)) = sot_db w.
Proof.
  unfold Today.compute_today_outcome.
  apply bind_db; [apply today_get_db | reflexivity].
Qed.

Lemma today_main_rows (daystamp today now : string) (w w1 : world) (v : Z) :
  Today.compute_today_outcome cfg today w = (Ok v, w1) ->
  (v = 0 \/ v = 1)
  /\ sot_db (snd (Today.main cfg daystamp today now w))
     = dict_set daystamp (v, now) (sot_db w).
Proof.
  intro Hc.
  assert (B : v = 0 \/ v = 1).
  { unfold Today.compute_today_outcome in Hc. apply bind_inv in Hc.
    destruct Hc as (dps & w0 & _ & Hv). inversion Hv; subst.
    rewrite first_qualifying_day_value. apply day_value_spec. }
  split; [exact B|].
  pose proof (compute_today_outcome_db today w) as D. rewrite Hc in D. simpl in D.
  unfold Today.main. rewrite (bind_ok _ _ _ _ _ Hc).
  unfold bind at 1. unfold Today.sot_set.
  replace ((v =? 0) || (v =? 1)) with true
    by (destruct B; subst; reflexivity).
  match goal with
  | |- context [Today.reconcile_beeminder_with_sot cfg daystamp v ?w2] =>
      pose proof (today_reconcile_db cfg daystamp v w2) as E;
      destruct (Today.reconcile_beeminder_with_sot cfg daystamp v w2)
        as [[u | e |] w3]
  end; simpl in E |- *; rewrite E, D; reflexivity.
Qed.

(** X10.  Once today's outcome is computed, the single-day program stores it,
    0 or 1, under the daystamp read by [main] before it reconciles the
    remote: the row is in the table whatever the reconciliation does
    afterwards, also when it fails, [sot_get] reads the outcome back, and
    the other rows are left as they were. *)
Theorem today_main_stores_before_reconciling
        (daystamp today now : string) (w w1 : world) (v : Z) :
  Today.compute_today_outcome cfg today w = (Ok v, w1) ->
  let w' := snd (Today.main cfg daystamp today now w) in
  (v = 0 \/ v = 1)
  /\ dict_get daystamp (sot_db w') = Some (v, now)
  /\ Today.sot_get daystamp w' = (Ok (Some v), w')
  /\ (forall k, k <> daystamp -> dict_get k (sot_db w') = dict_get k (sot_db w)).
Proof.
  intros Hc w'. destruct (today_main_rows daystamp today now w w1 v Hc) as [B E].
  assert (G : dict_get daystamp (sot_db w') = Some (v, now)).
  { unfold w'. rewrite E, dict_get_set, String.eqb_refl. reflexivity. }
  split; [exact B|]. split; [exact G|]. split.
  - unfold Today.sot_get. rewrite G. reflexivity.
  - intros k N. unfold w'. rewrite E, dict_get_set.
    destruct (String.eqb_spec daystamp k) as [->|_]; [contradiction | reflexivity].
Qed.

(** X11.  A dry run of the single-day program sends nothing and ends with exit
    status 0, but it does write the SoT table: today's row is set to
    outcome 0. *)
Theorem today_dry_run_stores_zero (daystamp today now : string) (w : world) :
  DRY_RUN cfg = true ->
  Today.main cfg daystamp today now w
  = (Ok 0, {| remote := remote w; sent := sent w;
              sot_db := dict_set daystamp (0, now) (sot_db w) |}).
Proof.
  intro dry.
  unfold Today.main, Today.compute_today_outcome, Today.reconcile_beeminder_with_sot,
    Today.get_datapoints_for_goal, Today.add_datapoint, Today.sot_set, bind, ret, lift.
  rewrite dry, andb_false_r. reflexivity.
Qed.

(** X12.  When the batch read from the target goal holds no datapoint with the
    day's daystamp, the single-day program sends exactly one create, with
    the SoT value, the canonical comment and the request id
    [wakeandfocus-<daystamp>-sot-v1], and without a daystamp: the day the
    new datapoint is filed under is left to the remote.  A 4xx or 5xx
    answer is raised as the HTTP error itself. *)
Theorem today_reconcile_creates_without_daystamp
        (daystamp : string) (sot_value : Z) (w : world)
        (resp : response) (s : remote_state) (items : list datapoint) :
  DRY_RUN cfg = false ->
  truthy (AUTH_TOKEN cfg) = true ->
  serve (GET WAKEANDFOCUS_GOAL None 100) (remote w) = (resp, s) ->
  raises_for_status resp = false ->
  body resp = JArray items ->
  (forall dp, In dp items -> dp_daystamp dp <> Some daystamp) ->
  let create :=
    POST WAKEANDFOCUS_GOAL sot_value (comment_ok sot_value daystamp) None
         (Some ("wakeandfocus-" ++ daystamp ++ "-sot-v1")%string) in
  let answer := fst (serve create s) in
  Today.reconcile_beeminder_with_sot cfg daystamp sot_value w
  = (if raises_for_status answer
     then Raise (HTTPError (status_code answer) (text answer))
     else Ok tt,
     {| remote := snd (serve create s);
        sent := sent w ++ [GET WAKEANDFOCUS_GOAL None 100; create];
        sot_db := sot_db w |}).
Proof.
  intros live token Hs Hok Hb Hnone create answer.
  assert (E : Today.on_day daystamp items = []).
  { apply no_member_nil. intros dp I. apply on_day_In in I.
    exact (Hnone dp (proj1 I) (proj2 I)). }
  unfold Today.reconcile_beeminder_with_sot, Today.get_datapoints_for_goal,
    Today.add_datapoint, bind, http, lift.
  rewrite live, token. cbn [negb andb]. cbv beta. rewrite Hs. cbv beta iota.
  rewrite Hok, Hb. cbv beta iota. unfold ret at 1. rewrite E.
  cbn [Today.sort_todays]. cbv beta iota.
  assert (Ec : POST WAKEANDFOCUS_GOAL sot_value (comment_ok sot_value daystamp) None
                   (if truthy (Some (WAKEANDFOCUS_GOAL ++ "-" ++ daystamp
                                       ++ "-sot-v1")%string)
                    then Some (WAKEANDFOCUS_GOAL ++ "-" ++ daystamp ++ "-sot-v1")%string
                    else None) = create) by reflexivity.
  rewrite Ec. cbn [sent remote sot_db]. rewrite <- app_assoc. cbn [app].
  unfold answer. destruct (serve create s) as [resp' s']. cbn [fst snd].
  destruct (raises_for_status resp'); reflexivity.
Qed.
End SingleDay.

Lemma compute_today_outcome_reads_one_batch_witness :
  let items := [Examples.short_session; Examples.early_session] in
  let w := Examples.world_of items [] in
  DRY_RUN Examples.live = false
  /\ truthy (AUTH_TOKEN Examples.live) = true
  /\ exists v w',
      Today.compute_today_outcome (P := Reference.platform) Examples.live
                                  "20250101" w = (Ok v, w')
      /\ (v = 1 <-> exists dp, In dp items /\ dp_daystamp dp = Some "20250101"%string
                               /\ qualifying (P := Reference.platform) dp).
Proof.
  intros items w.
  assert (H1 : DRY_RUN Examples.live = false) by reflexivity.
  assert (H2 : truthy (AUTH_TOKEN Examples.live) = true) by reflexivity.
  split; [exact H1|]. split; [exact H2|].
  destruct (compute_today_outcome_reads_one_batch
              (P := Reference.platform) Examples.live "20250101" w
              (Beeminder.reply 200 "" (JArray items)) (remote w) items
              H1 H2 eq_refl eq_refl eq_refl) as (v & A & B & _).
  exists v. eexists. split; [exact A | exact B].
Defined.

Lemma today_main_stores_before_reconciling_witness :
  let w := Examples.world_of [Examples.early_session; Examples.anonymous] [] in
  let w1 := snd (Today.compute_today_outcome (P := Reference.platform) Examples.live
                                             "20250101" w) in
  let w' := snd (Today.main (P := Reference.platform) Examples.live
                            "20250101" "20250101" "2025-01-01T12:00:00Z" w) in
  Today.compute_today_outcome (P := Reference.platform) Examples.live "20250101" w
  = (Ok 1, w1)
  /\ dict_get "20250101" (sot_db w') = Some (1, "2025-01-01T12:00:00Z"%string).
Proof.
  intros w w1 w'.
  assert (H1 : Today.compute_today_outcome (P := Reference.platform) Examples.live
                                           "20250101" w = (Ok 1, w1))
    by (vm_compute; reflexivity).
  split; [exact H1|].
  exact (proj1 (proj2 (today_main_stores_before_reconciling
                         (P := Reference.platform) Examples.live
                         "20250101" "20250101" "2025-01-01T12:00:00Z" w w1 1 H1))).
Defined.

Lemma today_dry_run_stores_zero_witness :
  let w := Examples.world_of [Examples.early_session] [] in
  DRY_RUN Examples.dry = true
  /\ Today.main (P := Reference.platform) Examples.dry "20250101" "20250101"
                "2025-01-01T12:00:00Z" w
     = (Ok 0, {| remote := remote w; sent := sent w;
                 sot_db := dict_set "20250101" (0, "2025-01-01T12:00:00Z"%string)
                                    (sot_db w) |}).
Proof.
  intro w.
  assert (H1 : DRY_RUN Examples.dry = true) by reflexivity.
  split; [exact H1|].
  exact (today_dry_run_stores_zero (P := Reference.platform) Examples.dry
                                   "20250101" "20250101" "2025-01-01T12:00:00Z" w H1).
Defined.

Lemma today_reconcile_creates_without_daystamp_witness :
  let w := Examples.world_of [Examples.stray] [] in
  DRY_RUN Examples.live = false
  /\ truthy (AUTH_TOKEN Examples.live) = true
  /\ (forall dp, In dp [Examples.stray] -> dp_daystamp dp <> Some "20250101"%string)
  /\ sent (snd (Today.reconcile_beeminder_with_sot (P := Reference.platform)
                  Examples.live "20250101" 1 w))
     = [GET WAKEANDFOCUS_GOAL None 100;
        POST WAKEANDFOCUS_GOAL 1 (comment_ok 1 "20250101") None
             (Some "wakeandfocus-20250101-sot-v1"%string)].
Proof.
  intro w.
  assert (H1 : DRY_RUN Examples.live = false) by reflexivity.
  assert (H2 : truthy (AUTH_TOKEN Examples.live) = true) by reflexivity.
  assert (H3 : forall dp, In dp [Examples.stray] ->
                          dp_daystamp dp <> Some "20250101"%string)
    by (intros dp [<- | []]; discriminate).
  split; [exact H1|]. split; [exact H2|]. split; [exact H3|].
  rewrite (today_reconcile_creates_without_daystamp
             (P := Reference.platform) Examples.live "20250101" 1 w
             (Beeminder.reply 200 "" (JArray [Examples.stray])) (remote w)
             [Examples.stray] H1 H2 eq_refl eq_refl eq_refl H3).
  reflexivity.
Defined.

(** ** The order of the days and the first failure *)

Section ItemOrder.

Lemma string_lt_trans (a b c : string) :
  (a ?= b)%string = Lt -> (b ?= c)%string = Lt -> (a ?= c)%string = Lt.
Proof.
  intros H1 H2. apply OrderedTypeEx.String_as_OT.cmp_lt.
  apply OrderedTypeEx.String_as_OT.cmp_lt in H1, H2.
  eapply OrderedTypeEx.String_as_OT.lt_trans; eassumption.
Qed.

Lemma string_compare_refl (a : string) : (a ?= a)%string = Eq.
Proof. apply OrderedTypeEx.String_as_OT.cmp_eq. reflexivity. Qed.

Lemma string_compare_gt (a b : string) :
  (a ?= b)%string = Gt <-> (b ?= a)%string = Lt.
Proof.
  rewrite (String.compare_antisym b a).
  destruct (a ?= b)%string; simpl; split; congruence.
Qed.

(** [item_lt] is a strict order that compares any two items. *)
Lemma item_lt_asym (a b : string * Z) : item_lt a b = true -> item_lt b a = false.
Proof.
  unfold item_lt. destruct (fst a ?= fst b)%string eqn:C; try discriminate.
  - apply String.compare_eq_iff in C. rewrite C, string_compare_refl.
    intro H. apply Z.ltb_lt in H. apply Z.ltb_ge. lia.
  - intros _. rewrite (proj2 (string_compare_gt (fst b) (fst a)) C). reflexivity.
Qed.

Lemma item_lt_cotrans (a b c : string * Z) :
  item_lt a c = true -> item_lt a b = true \/ item_lt b c = true.
Proof.
  unfold item_lt.
  destruct (fst a ?= fst c)%string eqn:AC; try discriminate.
  - apply String.compare_eq_iff in AC. rewrite AC. intro H. apply Z.ltb_lt in H.
    destruct (fst c ?= fst b)%string eqn:CB.
    + apply String.compare_eq_iff in CB. rewrite CB, string_compare_refl.
      rewrite <- Z.ltb_lt in H.
      destruct (Z.ltb_spec (snd a) (snd b)); [left; reflexivity|].
      right. apply Z.ltb_lt. apply Z.ltb_lt in H. lia.
    + left. reflexivity.
    + right. apply string_compare_gt in CB. rewrite CB. reflexivity.
  - intros _.
    destruct (fst a ?= fst b)%string eqn:AB.
    + right. apply String.compare_eq_iff in AB. rewrite <- AB, AC. reflexivity.
    + left. reflexivity.
    + right. apply string_compare_gt in AB.
      rewrite (string_lt_trans _ _ _ AB AC). reflexivity.
Qed.

Lemma insert_sorted_sorted (x : string * Z) (l : list (string * Z)) :
  StronglySorted (fun a b => item_lt b a = false) l ->
  StronglySorted (fun a b => item_lt b a = false) (insert_sorted item_lt x l).
Proof.
  induction 1 as [|y l S1 IH F]; simpl.
  - constructor; constructor.
  - destruct (item_lt y x) eqn:B.
    + constructor; [exact IH|].
      apply Forall_forall. intros z I.
      apply (Permutation_in _ (Permutation_sym (insert_sorted_perm item_lt x l))) in I.
      destruct I as [<- | I].
      * apply item_lt_asym, B.
      * rewrite Forall_forall in F. apply F, I.
    + constructor; [constructor; assumption|].
      constructor; [exact B|].
      apply Forall_forall. intros z I. rewrite Forall_forall in F.
      specialize (F z I).
      destruct (item_lt z x) eqn:ZX; [|reflexivity].
      destruct (item_lt_cotrans z y x ZX); congruence.
Qed.

Lemma py_sorted_sorted (l : list (string * Z)) :
  StronglySorted (fun a b => item_lt b a = false) (py_sorted item_lt l).
Proof.
  induction l as [|x l IH]; simpl; [constructor|].
  apply insert_sorted_sorted, IH.
Qed.

Lemma strongly_sorted_strict (l : list (string * Z)) :
  NoDup (map fst l) ->
  StronglySorted (fun a b => item_lt b a = false) l ->
  StronglySorted (fun a b => (fst a ?= fst b)%string = Lt) l.
Proof.
  intros ND S1. induction S1 as [|x l S1 IH F]; [constructor|].
  simpl in ND. inversion ND as [|? ? Nin ND']; subst.
  constructor; [apply IH, ND'|].
  apply Forall_forall. intros z I. rewrite Forall_forall in F.
  specialize (F z I). unfold item_lt in F.
  destruct (fst x ?= fst z)%string eqn:C; [|reflexivity|].
  - exfalso. apply String.compare_eq_iff in C. apply Nin. rewrite C.
    apply in_map, I.
  - apply string_compare_gt in C. rewrite C in F. discriminate.
Qed.
End ItemOrder.

Section Order.
Context {P : Platform} {R : Remote}.
Variable cfg : Config.
Hypothesis live : DRY_RUN cfg = false.

(** X13.  On a target goal that holds no datapoint, a run sends one create for
    every day of the SoT mapping and nothing else, oldest day first: each
    create carries the day's value, the canonical comment, the daystamp
    and the request id [wakeandfocus-<daystamp>-sot-v1], and the run stops
    at the first create the remote rejects. *)
Theorem empty_goal_creates_each_day_in_order
        (fuel : nat) (sot_map : list (string * Z)) (w w1 : world) :
  NoDup (dict_keys sot_map) ->
  Sync.fetch_all_datapoints cfg fuel WAKEANDFOCUS_GOAL w = (Ok [], w1) ->
  exists items,
    Permutation sot_map items
    /\ StronglySorted (fun a b => (fst a ?= fst b)%string = Lt) items
    /\ Sync.reconcile_history cfg fuel sot_map w
       = send_all
           (map (fun item =>
                   POST WAKEANDFOCUS_GOAL (snd item)
                        (comment_ok (snd item) (fst item)) (Some (fst item))
                        (Some ("wakeandfocus-" ++ fst item ++ "-sot-v1")%string))
                items) w1.
Proof.
  intros ND Hf. exists (py_sorted item_lt sot_map).
  split; [apply py_sorted_perm|]. split.
  - apply strongly_sorted_strict; [|apply py_sorted_sorted].
    apply (Permutation_NoDup (l := dict_keys sot_map)); [|exact ND].
    apply Permutation_map, py_sorted_perm.
  - rewrite (reconcile_history_sends cfg live fuel sot_map [] [] w w1 Hf eq_refl).
    unfold planned_requests, purge_requests. cbn [flat_map].
    replace (if STRICT_PURGE cfg then [] else []) with (@nil request)
      by (destruct (STRICT_PURGE cfg); reflexivity).
    rewrite app_nil_r.
    assert (E : forall items,
               flat_map (day_requests []) items
               = map (fun item =>
                        POST WAKEANDFOCUS_GOAL (snd item)
                             (comment_ok (snd item) (fst item)) (Some (fst item))
                             (Some ("wakeandfocus-" ++ fst item ++ "-sot-v1")%string))
                     items).
    { induction items as [|item items IH]; [reflexivity|].
      cbn [flat_map map]. rewrite IH. reflexivity. }
    rewrite E. reflexivity.
Qed.


End Order.

Lemma empty_goal_creates_each_day_in_order_witness :
  let w := Examples.world_of [] [] in
  let w1 := snd (Sync.fetch_all_datapoints Examples.live 3 WAKEANDFOCUS_GOAL w) in
  DRY_RUN Examples.live = false
  /\ NoDup (dict_keys Examples.sot)
  /\ Sync.fetch_all_datapoints Examples.live 3 WAKEANDFOCUS_GOAL w = (Ok [], w1)
  /\ exists items,
      Permutation Examples.sot items
      /\ Sync.reconcile_history (P := Reference.platform) Examples.live 3
                                Examples.sot w
         = send_all
             (map (fun item =>
                     POST WAKEANDFOCUS_GOAL (snd item)
                          (comment_ok (snd item) (fst item)) (Some (fst item))
                          (Some ("wakeandfocus-" ++ fst item ++ "-sot-v1")%string))
                  items) w1.
Proof.
  intros w w1.
  assert (H1 : DRY_RUN Examples.live = false) by reflexivity.
  assert (H2 : NoDup (dict_keys Examples.sot)) by (vm_compute; distinct_strings).
  assert (H3 : Sync.fetch_all_datapoints Examples.live 3 WAKEANDFOCUS_GOAL w
               = (Ok [], w1)) by (vm_compute; reflexivity).
  split; [exact H1|]. split; [exact H2|]. split; [exact H3|].
  destruct (empty_goal_creates_each_day_in_order
              (P := Reference.platform) Examples.live H1 3 Examples.sot w w1 H2 H3)
    as (items & A & _ & B).
  exists items. split; [exact A | exact B].
Defined.


(** ** What a completed run leaves on the remote *)

Section Converge.
Context {P : Platform}.
Variable cfg : Config.
#[local] Existing Instance Beeminder.remote_model.
Hypothesis live : DRY_RUN cfg = false.
Variable sot_map : list (string * Z).
Hypothesis named_days : forall ds, In ds (dict_keys sot_map) -> ds <> "".

(** A completed run against the model: the buckets of what was stored,
    and what is stored afterwards. *)
Lemma run_model (fuel : nat) (w w1 : world) :
  Sync.reconcile_history cfg fuel sot_map w = (Ok tt, w1) ->
  let stored := Beeminder.points (remote w) in
  exists wf_by_day news,
    Sync.bucket_by_day stored [] = Ok wf_by_day
    /\ Beeminder.points (remote w1)
       = flat_map (Beeminder.fate
                     (planned_requests (STRICT_PURGE cfg) sot_map wf_by_day))
                  stored ++ news
    /\ Forall2 Beeminder.born_of
               (filter is_POST (planned_requests (STRICT_PURGE cfg) sot_map wf_by_day))
               news.
Proof.
  intros Hrun stored.
  pose proof Hrun as Hrun'. unfold Sync.reconcile_history in Hrun'.
  apply bind_inv in Hrun'. destruct Hrun' as (wf_all & wa & Hfetch & Hrest).
  apply bind_inv in Hrest. destruct Hrest as (wf_by_day & wa' & Hb & _).
  unfold lift in Hb.
  destruct (Sync.bucket_by_day wf_all []) as [by_day | e |] eqn:Hbucket;
    inversion Hb; subst by_day wa'. clear Hb.
  destruct (fetch_model_ok cfg fuel _ w wa wf_all live Hfetch)
    as (-> & Ra & _ & _ & _).
  fold stored in Hbucket, Hfetch.
  rewrite (reconcile_history_sends cfg live fuel sot_map stored wf_by_day w wa
                                   Hfetch Hbucket) in Hrun.
  destruct (send_all_model _ wa w1 Hrun) as (news & Epts & Born).
  { intros r i Ir T.
    destruct (plan_targets (STRICT_PURGE cfg) sot_map stored wf_by_day Hbucket
                           named_days r i Ir T) as (_ & dp & Idp & Ei).
    rewrite Ra. unfold Beeminder.known. apply in_or_app. left.
    apply ids_In. exists dp. auto. }
  rewrite Ra in Epts. fold stored in Epts.
  exists wf_by_day, news. auto.
Qed.

Lemma settled_keeper (v : Z) (ds : string) (k : datapoint) :
  truthy (dp_id k) = true -> update_requests v ds k = [] ->
  needs_update v ds k = false.
Proof.
  unfold update_requests. intros T U.
  destruct (needs_update v ds k); [|reflexivity].
  destruct (dp_id k) as [i|]; [|discriminate].
  rewrite T in U. discriminate.
Qed.

(** X15.  Convergence, against the model of the remote service.  When every
    stored datapoint carries a non-empty id, the ids are distinct and the
    run completes, every day of the SoT mapping is left with exactly one
    datapoint, whose value rounds to the SoT value and whose comment is the
    canonical one; with the strict purge, moreover, no datapoint is left
    under a day outside the SoT mapping. *)
Theorem reconcile_history_converges (fuel : nat) (w w1 : world) :
  NoDup (dict_keys sot_map) ->
  NoDup (Beeminder.identified (Beeminder.points (remote w))) ->
  Forall (fun dp => truthy (dp_id dp) = true) (Beeminder.points (remote w)) ->
  Sync.reconcile_history cfg fuel sot_map w = (Ok tt, w1) ->
  (forall ds v,
      In (ds, v) sot_map ->
      exists dp,
        filter (in_day ds) (Beeminder.points (remote w1)) = [dp]
        /\ py_round (keeper_value dp) = v
        /\ or_empty (dp_comment dp) = comment_ok v ds)
  /\ (STRICT_PURGE cfg = true ->
      forall dp d, In dp (Beeminder.points (remote w1)) -> in_day d dp = true ->
                   In d (dict_keys sot_map)).
Proof.
  intros distinct_days distinct_ids all_ids Hrun.
  destruct (run_model fuel w w1 Hrun) as (wf_by_day & news & Hb & Epts & Born).
  cbv zeta in *.
  set (stored := Beeminder.points (remote w)) in *.
  rewrite Forall_forall in all_ids.
  assert (Settled : forall v ds dp, needs_update v ds dp = false ->
                                    py_round (keeper_value dp) = v
                                    /\ or_empty (dp_comment dp) = comment_ok v ds).
  { intros v ds dp N. unfold needs_update in N. apply orb_false_iff in N.
    destruct N as [N1 N2]. apply negb_false_iff in N1, N2.
    apply Z.eqb_eq in N1. apply String.eqb_eq in N2. auto. }
  split.
  - intros ds v Iv. rewrite Epts.
    rewrite (after_group (STRICT_PURGE cfg) sot_map stored wf_by_day Hb distinct_ids
                         distinct_days named_days news ds).
    destruct (news_of_day _ news
                (news_first (STRICT_PURGE cfg) sot_map stored wf_by_day Hb news Born)
                (fun item I =>
                   proj1 (proj2 (missing_named sot_map stored wf_by_day Hb
                                               named_days item I)))
                (missing_distinct sot_map wf_by_day distinct_days) ds)
      as [None_ Some_].
    destruct (py_sorted Sync.newer (filter (in_day ds) stored)) as [|k ex] eqn:Hs.
    + apply py_sorted_nil in Hs. rewrite Hs. cbn [flat_map app].
      destruct (Some_ v) as (i & ->).
      { apply filter_In. split; [apply (py_sorted_In item_lt), Iv|].
        cbn [fst]. rewrite (group_get stored wf_by_day Hb ds), Hs. reflexivity. }
      eexists. split; [reflexivity|]. apply Settled, needs_update_created.
    + rewrite None_.
      2:{ intro I. apply in_map_iff in I. destruct I as ([d0 v0] & E & I).
          simpl in E. subst d0.
          destruct (missing_named sot_map stored wf_by_day Hb named_days _ I)
            as (_ & _ & X).
          simpl fst in X. rewrite Hs in X. discriminate. }
      rewrite app_nil_r.
      destruct (head_split Sync._dp_updated_key _ _ _ Hs) as (l1 & l2 & El & _ & _).
      assert (Pex : Permutation ex (l1 ++ l2)).
      { apply Permutation_cons_app_inv with (a := k). rewrite <- El, <- Hs.
        apply Permutation_sym, py_sorted_perm. }
      destruct (fate_keeper (STRICT_PURGE cfg) sot_map stored wf_by_day Hb distinct_ids
                            distinct_days named_days ds v k ex Iv Hs)
        as (k' & Fk & _ & Uk).
      assert (Ik : In k stored).
      { assert (X : In k (filter (in_day ds) stored))
          by (rewrite El; apply in_elt).
        apply filter_In in X. tauto. }
      assert (Fx : forall l, (forall x, In x l -> In x (l1 ++ l2)) ->
                             flat_map (Beeminder.fate
                                         (planned_requests (STRICT_PURGE cfg) sot_map
                                                           wf_by_day)) l = []).
      { intros l Hl. apply flat_map_nil. intros x I.
        assert (Ix : In x ex)
          by (eapply Permutation_in; [apply Permutation_sym, Pex | apply Hl, I]).
        rewrite (fate_extra (STRICT_PURGE cfg) sot_map stored wf_by_day Hb named_days
                            ds v k x ex Iv Hs Ix).
        replace (truthy (dp_id x)) with true; [reflexivity|].
        symmetry. apply all_ids.
        assert (X : In x (filter (in_day ds) stored)).
        { rewrite El. pose proof (Hl x I) as Hx. apply in_app_or in Hx.
          apply in_or_app. destruct Hx; [left | right; right]; assumption. }
        apply filter_In in X. tauto. }
      rewrite El, flat_map_app. cbn [flat_map].
      rewrite (Fx l1) by (intros x I; apply in_or_app; left; exact I).
      rewrite (Fx l2) by (intros x I; apply in_or_app; right; exact I).
      rewrite Fk. cbn [app].
      exists k'. split; [reflexivity|]. apply Settled, settled_keeper; [|exact Uk].
      destruct (fate_member (STRICT_PURGE cfg) sot_map stored wf_by_day Hb distinct_ids
                            distinct_days named_days k k' Ik) as (Eid & _).
      { rewrite Fk. left. reflexivity. }
      rewrite Eid. apply all_ids, Ik.
  - intros strict dp d I T. rewrite Epts in I. apply in_app_or in I.
    destruct I as [I | I].
    + apply in_flat_map in I. destruct I as (dp0 & I0 & F).
      destruct (fate_member (STRICT_PURGE cfg) sot_map stored wf_by_day Hb distinct_ids
                            distinct_days named_days dp0 dp I0 F) as (_ & Ed & _).
      rewrite Ed in T.
      destruct (in_dec string_dec d (dict_keys sot_map)) as [Y | N]; [exact Y|].
      exfalso. pose proof (all_ids dp0 I0) as Tid.
      destruct (dp_id dp0) as [i|] eqn:Ei; [|discriminate].
      rewrite (fate_stray (STRICT_PURGE cfg) sot_map stored wf_by_day Hb dp0 d i
                          strict I0 T N Ei) in F; [exact F|].
      apply truthy_Some, Tid.
    + destruct (news_member (STRICT_PURGE cfg) sot_map stored wf_by_day Hb named_days
                            news Born dp I) as (i & ds & v & Iv & Nds & ->).
      rewrite (in_day_created d ds i v _ Nds) in T. apply String.eqb_eq in T.
      subst d. apply (in_map fst) in Iv. exact Iv.
Qed.

(** X16.  What a completed run never touches, against the model of the remote
    service: a stored datapoint without an id, and, unless the strict
    purge is on, a stored datapoint that is filed under no day of the SoT
    mapping, is still stored, unchanged, afterwards. *)
Theorem reconcile_history_leaves_alone (fuel : nat) (w w1 : world) (dp : datapoint) :
  NoDup (Beeminder.identified (Beeminder.points (remote w))) ->
  Sync.reconcile_history cfg fuel sot_map w = (Ok tt, w1) ->
  In dp (Beeminder.points (remote w)) ->
  truthy (dp_id dp) = false
  \/ (STRICT_PURGE cfg = false
      /\ forall ds, In ds (dict_keys sot_map) -> in_day ds dp = false) ->
  In dp (Beeminder.points (remote w1)).
Proof.
  intros distinct_ids Hrun I Hcase.
  destruct (run_model fuel w w1 Hrun) as (wf_by_day & news & Hb & Epts & _).
  cbv zeta in *. rewrite Epts. apply in_or_app. left.
  apply in_flat_map. exists dp. split; [exact I|].
  replace (Beeminder.fate _ dp) with [dp]; [left; reflexivity|].
  symmetry. destruct Hcase as [anon | [lax away]].
  - apply (fate_anonymous (STRICT_PURGE cfg) sot_map _ wf_by_day Hb named_days dp anon).
  - apply fate_untouched. intros r Ir.
    destruct (Beeminder.addressed_to dp r) eqn:A; [|reflexivity].
    exfalso.
    destruct (plan_addressed (STRICT_PURGE cfg) sot_map _ wf_by_day Hb distinct_ids
                             named_days r dp Ir I A)
      as [(ds & v & k & ex & Iv & Hs & Ix & _)
         | [(ds & v & ex & i & Iv & Hs & _) | (strict & _)]].
    + assert (X : In dp (filter (in_day ds) (Beeminder.points (remote w)))).
      { apply (py_sorted_In Sync.newer). rewrite Hs. right. exact Ix. }
      apply filter_In in X. apply (in_map fst) in Iv.
      rewrite (away ds Iv) in X. destruct X; discriminate.
    + assert (X : In dp (filter (in_day ds) (Beeminder.points (remote w)))).
      { apply (py_sorted_In Sync.newer). rewrite Hs. left. reflexivity. }
      apply filter_In in X. apply (in_map fst) in Iv.
      rewrite (away ds Iv) in X. destruct X; discriminate.
    + congruence.
Qed.
End Converge.

Lemma reconcile_history_converges_witness :
  let w := Examples.world_of [Examples.stale; Examples.good; Examples.stray] [] in
  let w1 := snd (Sync.reconcile_history (P := Reference.platform) Examples.purging 3
                                        Examples.sot w) in
  DRY_RUN Examples.purging = false
  /\ NoDup (dict_keys Examples.sot)
  /\ NoDup (Beeminder.identified (Beeminder.points (remote w)))
  /\ Forall (fun dp => truthy (dp_id dp) = true) (Beeminder.points (remote w))
  /\ Sync.reconcile_history (P := Reference.platform) Examples.purging 3
                            Examples.sot w = (Ok tt, w1)
  /\ exists dp,
      filter (in_day (P := Reference.platform) "20250101")
             (Beeminder.points (remote w1)) = [dp]
      /\ py_round (keeper_value (P := Reference.platform) dp) = 1
      /\ or_empty (dp_comment dp) = comment_ok 1 "20250101".
Proof.
  intros w w1.
  assert (H0 : DRY_RUN Examples.purging = false) by reflexivity.
  assert (H1 : NoDup (dict_keys Examples.sot)) by (vm_compute; distinct_strings).
  assert (H2 : forall ds, In ds (dict_keys Examples.sot) -> ds <> "")
    by (intros ds [<- | []]; discriminate).
  assert (H3 : NoDup (Beeminder.identified (Beeminder.points (remote w))))
    by (vm_compute; distinct_strings).
  assert (H4 : Forall (fun dp => truthy (dp_id dp) = true)
                      (Beeminder.points (remote w)))
    by (repeat constructor).
  assert (H5 : Sync.reconcile_history (P := Reference.platform) Examples.purging 3
                                      Examples.sot w = (Ok tt, w1))
    by (vm_compute; reflexivity).
  split; [exact H0|]. split; [exact H1|]. split; [exact H3|]. split; [exact H4|].
  split; [exact H5|].
  exact (proj1 (reconcile_history_converges (P := Reference.platform) Examples.purging
                  H0 Examples.sot H2 3 w w1 H1 H3 H4 H5)
               "20250101"%string 1 (or_introl eq_refl)).
Defined.

Lemma reconcile_history_leaves_alone_witness :
  let w := Examples.world_of
             [Examples.stale; Examples.good; Examples.anonymous; Examples.stray] [] in
  let w1 := snd (Sync.reconcile_history (P := Reference.platform) Examples.live 3
                                        Examples.sot w) in
  DRY_RUN Examples.live = false
  /\ NoDup (Beeminder.identified (Beeminder.points (remote w)))
  /\ Sync.reconcile_history (P := Reference.platform) Examples.live 3
                            Examples.sot w = (Ok tt, w1)
  /\ In Examples.stray (Beeminder.points (remote w1)).
Proof.
  intros w w1.
  assert (H0 : DRY_RUN Examples.live = false) by reflexivity.
  assert (H2 : forall ds, In ds (dict_keys Examples.sot) -> ds <> "")
    by (intros ds [<- | []]; discriminate).
  assert (H3 : NoDup (Beeminder.identified (Beeminder.points (remote w))))
    by (vm_compute; distinct_strings).
  assert (H5 : Sync.reconcile_history (P := Reference.platform) Examples.live 3
                                      Examples.sot w = (Ok tt, w1))
    by (vm_compute; reflexivity).
  split; [exact H0|]. split; [exact H3|]. split; [exact H5|].
  apply (reconcile_history_leaves_alone (P := Reference.platform) Examples.live
           H0 Examples.sot H2 3 w w1 Examples.stray H3 H5).
  - right. right. right. left. reflexivity.
  - right. split; [reflexivity|]. intros ds [<- | []]. reflexivity.
Defined.

(** ** The pages of a fetch *)

Section Pages.
#[local] Existing Instance Beeminder.remote_model.

Lemma fetch_pages_sent (goal : string) (fuel : nat) :
  forall (n : nat) (w : world),
    let pts := Beeminder.points (remote w) in
    (100 * n <= List.length pts < 100 * (n + fuel))%nat ->
    sent (snd (Sync.fetch_pages fuel goal (Z.of_nat n + 1) (firstn (100 * n) pts) w))
    = sent w ++ map (fun i => GET goal (Some (Z.of_nat i)) 100)
                    (seq (S n) (List.length pts / 100 + 1 - n)).
Proof.
  induction fuel as [|fuel IH]; intros n w pts L; [exfalso; lia|].
  cbn [Sync.fetch_pages].
  set (w1 := {| remote := remote w;
                sent := sent w ++ [GET goal (Some (Z.of_nat n + 1)) 100];
                sot_db := sot_db w |}).
  set (batch := firstn 100 (skipn (100 * n) pts)).
  assert (H : http (GET goal (Some (Z.of_nat n + 1)) 100) w
              = (Ok (Beeminder.reply 200 "" (JArray batch)), w1)).
  { unfold http. cbn [serve Beeminder.remote_model Beeminder.handle].
    unfold Beeminder.page_of, w1, batch, pts.
    replace (Z.to_nat ((Z.of_nat n + 1 - 1) * 100)) with (100 * n)%nat by lia.
    replace (Z.to_nat 100) with 100%nat by reflexivity. reflexivity. }
  rewrite (bind_ok _ _ _ _ _ H).
  change (raises_for_status (Beeminder.reply 200 "" (JArray batch))) with false.
  cbv iota. change (body (Beeminder.reply 200 "" (JArray batch))) with (JArray batch).
  cbv iota.
  assert (LB : List.length batch = Nat.min 100 (List.length pts - 100 * n))
    by (unfold batch; rewrite length_firstn, length_skipn; reflexivity).
  assert (One : forall c, c = 1%nat ->
                  sent w1 = sent w ++ map (fun i => GET goal (Some (Z.of_nat i)) 100)
                                          (seq (S n) c)).
  { intros c ->. unfold w1. cbn [sent seq map].
    replace (Z.of_nat (S n)) with (Z.of_nat n + 1) by lia. reflexivity. }
  destruct batch as [|x batch'] eqn:B.
  - cbn [List.length] in LB. cbn [snd ret]. apply One.
    assert (E : List.length pts = (100 * n)%nat) by lia.
    rewrite E, Nat.mul_comm, Nat.div_mul by discriminate. lia.
  - rewrite <- B in *. clear B.
    destruct (Z.ltb_spec (Z.of_nat (List.length batch)) 100) as [Hlen | Hlen].
    + cbn [snd ret]. apply One.
      assert (E : (List.length pts / 100 = n)%nat).
      { symmetry.
        apply Nat.div_unique with (r := (List.length pts - 100 * n)%nat); lia. }
      lia.
    + assert (L' : (100 * S n <= List.length pts)%nat) by lia.
      assert (E : firstn (100 * n) pts ++ batch = firstn (100 * S n) pts).
      { unfold batch. replace (100 * S n)%nat with (100 * n + 100)%nat by lia.
        symmetry. apply firstn_add. }
      rewrite E. replace (Z.of_nat n + 1 + 1) with (Z.of_nat (S n) + 1) by lia.
      specialize (IH (S n) w1). cbv zeta in IH.
      change (Beeminder.points (remote w1)) with pts in IH.
      rewrite IH by lia.
      assert (D : (S n <= List.length pts / 100)%nat)
        by (apply Nat.div_le_lower_bound; lia).
      replace (List.length pts / 100 + 1 - n)%nat
        with (S (List.length pts / 100 + 1 - S n)) by lia.
      cbn [seq map]. unfold w1. cbn [sent]. rewrite <- app_assoc. cbn [app].
      replace (Z.of_nat (S n)) with (Z.of_nat n + 1) by lia. reflexivity.
Qed.

(** X17.  The cost of a fetch, against the model of the remote service: a goal
    that holds [n] datapoints is read with [n / 100 + 1] requests, the
    pages 1, 2, ... in order with 100 datapoints per page, and all the
    datapoints are returned in the order of the remote.  When [n] is a
    multiple of 100 (also 0) the last request is answered by an empty
    page. *)
Theorem fetch_all_datapoints_pages (cfg : Config) (fuel : nat) (goal : string)
        (w : world) :
  DRY_RUN cfg = false ->
  truthy (AUTH_TOKEN cfg) = true ->
  (List.length (Beeminder.points (remote w)) < 100 * fuel)%nat ->
  exists wa,
    Sync.fetch_all_datapoints cfg fuel goal w = (Ok (Beeminder.points (remote w)), wa)
    /\ remote wa = remote w
    /\ sent wa
       = sent w ++ map (fun i => GET goal (Some (Z.of_nat i)) 100)
                       (seq 1 (List.length (Beeminder.points (remote w)) / 100 + 1)).
Proof.
  intros live token L.
  destruct (fetch_model_total cfg fuel goal w live token L) as (wa & Hf).
  exists wa. split; [exact Hf|].
  destruct (fetch_model_ok cfg fuel goal w wa _ live Hf) as (_ & Ra & _).
  split; [exact Ra|].
  pose proof (fetch_pages_sent goal fuel 0 w) as S0. cbv zeta in S0.
  unfold Sync.fetch_all_datapoints, Sync._need_auth in Hf.
  rewrite live, token in Hf. cbn [negb andb] in Hf.
  unfold bind at 1 in Hf. cbn [ret] in Hf.
  change (firstn (100 * 0) (Beeminder.points (remote w))) with (@nil datapoint) in S0.
  change (Z.of_nat 0 + 1) with 1 in S0. rewrite Hf in S0. cbn [snd] in S0.
  rewrite S0 by lia. rewrite Nat.sub_0_r. reflexivity.
Qed.
End Pages.

Lemma fetch_all_datapoints_pages_witness :
  let w := Examples.world_of [Examples.stale; Examples.good] [] in
  DRY_RUN Examples.live = false
  /\ truthy (AUTH_TOKEN Examples.live) = true
  /\ (List.length (Beeminder.points (remote w)) < 100 * 3)%nat
  /\ exists wa,
      Sync.fetch_all_datapoints Examples.live 3 WAKEANDFOCUS_GOAL w
      = (Ok [Examples.stale; Examples.good], wa)
      /\ sent wa = [GET WAKEANDFOCUS_GOAL (Some 1) 100].
Proof.
  intro w.
  assert (H1 : DRY_RUN Examples.live = false) by reflexivity.
  assert (H2 : truthy (AUTH_TOKEN Examples.live) = true) by reflexivity.
  assert (H3 : (List.length (Beeminder.points (remote w)) < 100 * 3)%nat)
    by (apply Nat.ltb_lt; vm_compute; reflexivity).
  split; [exact H1|]. split; [exact H2|]. split; [exact H3|].
  destruct (fetch_all_datapoints_pages Examples.live 3 WAKEANDFOCUS_GOAL w H1 H2 H3)
    as (wa & A & _ & B).
  exists wa. split; [exact A | exact B].
Defined.

(** ** The single-day program on a day that has datapoints *)

Section SingleDayExisting.
Context {P : Platform} {R : Remote}.
Variable cfg : Config.
Hypothesis live : DRY_RUN cfg = false.

Lemma today_delete_sent (dp : datapoint) (w w' : world) :
  bind (Today.item_id dp)
       (fun i => bind (Today.delete_datapoint cfg WAKEANDFOCUS_GOAL i)
                      (fun _ => ret tt)) w = (Ok tt, w') ->
  dp_id dp <> None
  /\ sent w' = sent w ++ [DELETE WAKEANDFOCUS_GOAL (or_empty (dp_id dp))].
Proof.
  unfold Today.item_id, Today.delete_datapoint. rewrite live.
  destruct (dp_id dp) as [i|]; [|discriminate].
  unfold bind, http, raise, ret. cbn [or_empty].
  destruct (serve (DELETE WAKEANDFOCUS_GOAL i) (remote w)) as [resp s].
  destruct (raises_for_status resp); [discriminate|].
  intro H. inversion H; subst. split; [discriminate | reflexivity].
Qed.

Lemma today_delete_loop_sent (extras : list datapoint) :
  forall w w',
    for_each extras
      (fun dp => bind (Today.item_id dp)
                      (fun i => bind (Today.delete_datapoint cfg WAKEANDFOCUS_GOAL i)
                                     (fun _ => ret tt))) w = (Ok tt, w') ->
    Forall (fun dp => dp_id dp <> None) extras
    /\ sent w' = sent w ++ map (fun dp => DELETE WAKEANDFOCUS_GOAL (or_empty (dp_id dp)))
                               extras.
Proof.
  induction extras as [|dp extras IH]; intros w w' H.
  - inversion H; subst. split; [constructor | symmetry; apply app_nil_r].
  - cbn [for_each] in H. apply bind_inv in H. destruct H as ([] & w1 & H1 & H2).
    apply today_delete_sent in H1. destruct H1 as [N S1].
    destruct (IH w1 w' H2) as [F S2].
    split; [constructor; assumption|].
    rewrite S2, S1, <- app_assoc. reflexivity.
Qed.

Lemma today_update_sent (keeper : datapoint) (v : Z) (c : string) (w w' : world) :
  bind (Today.item_id keeper)
       (fun i => bind (Today.update_datapoint cfg WAKEANDFOCUS_GOAL i v c)
                      (fun _ => ret tt)) w = (Ok tt, w') ->
  dp_id keeper <> None
  /\ sent w' = sent w ++ [PUT WAKEANDFOCUS_GOAL (or_empty (dp_id keeper)) v c None].
Proof.
  unfold Today.item_id, Today.update_datapoint. rewrite live.
  destruct (dp_id keeper) as [i|]; [|discriminate].
  unfold bind, http, raise, ret. cbn [or_empty].
  destruct (serve (PUT WAKEANDFOCUS_GOAL i v c None) (remote w)) as [resp s].
  destruct (raises_for_status resp); [discriminate|].
  intro H. inversion H; subst. split; [discriminate | reflexivity].
Qed.

(** X18.  On a day for which the batch read from the target goal holds
    datapoints, a call of [reconcile_beeminder_with_sot] that returns has
    sent, after the read, one delete for every record but the first of the
    sorted ones, in order, and then one update of the first, with value
    and canonical comment together and without a daystamp, exactly when
    its rounded value or its comment differs; it creates nothing.  Every
    record it deleted or updated has an [id] key; there is no guard
    against an empty id. *)
Theorem today_reconcile_existing_day
        (daystamp : string) (sot_value : Z) (w w' : world)
        (resp : response) (s : remote_state) (items : list datapoint)
        (keeper : datapoint) (extras : list datapoint) :
  truthy (AUTH_TOKEN cfg) = true ->
  serve (GET WAKEANDFOCUS_GOAL None 100) (remote w) = (resp, s) ->
  raises_for_status resp = false ->
  body resp = JArray items ->
  Today.sort_todays (Today.on_day daystamp items) = Ok (keeper :: extras) ->
  Today.reconcile_beeminder_with_sot cfg daystamp sot_value w = (Ok tt, w') ->
  sent w'
  = sent w
    ++ GET WAKEANDFOCUS_GOAL None 100
    :: map (fun dp => DELETE WAKEANDFOCUS_GOAL (or_empty (dp_id dp))) extras
    ++ (if needs_update sot_value daystamp keeper
        then [PUT WAKEANDFOCUS_GOAL (or_empty (dp_id keeper)) sot_value
                  (comment_ok sot_value daystamp) None]
        else [])
  /\ Forall (fun dp => dp_id dp <> None) extras
  /\ (needs_update sot_value daystamp keeper = true -> dp_id keeper <> None).
Proof.
  intros token Hs Hok Hb Hsort Hrun.
  unfold Today.reconcile_beeminder_with_sot in Hrun.
  apply bind_inv in Hrun. destruct Hrun as (dps & w0 & Hget & Hrun).
  assert (G : dps = items
              /\ sent w0 = sent w ++ [GET WAKEANDFOCUS_GOAL None 100]).
  { unfold Today.get_datapoints_for_goal, bind, http in Hget.
    rewrite live, token in Hget. cbn [negb andb] in Hget. cbv beta in Hget.
    rewrite Hs in Hget. cbv beta iota in Hget. rewrite Hok, Hb in Hget.
    inversion Hget; subst. split; reflexivity. }
  destruct G as [-> S0].
  apply bind_inv in Hrun. destruct Hrun as (todays & w0' & Hl & Hrun).
  unfold lift in Hl. rewrite Hsort in Hl. inversion Hl; subst todays w0'. clear Hl.
  apply bind_inv in Hrun. destruct Hrun as ([] & w1 & Hdel & Hk).
  apply today_delete_loop_sent in Hdel. destruct Hdel as [F S1].
  unfold needs_update.
  destruct (negb (py_round (keeper_value keeper) =? sot_value)) eqn:B1;
    [|destruct (negb (or_empty (dp_comment keeper) =? comment_ok sot_value daystamp)%string)
        eqn:B2]; cbn [orb].
  - apply today_update_sent in Hk. destruct Hk as [N S2].
    split; [|split; [exact F | intros _; exact N]].
    rewrite S2, S1, S0, <- !app_assoc. reflexivity.
  - apply today_update_sent in Hk. destruct Hk as [N S2].
    split; [|split; [exact F | intros _; exact N]].
    rewrite S2, S1, S0, <- !app_assoc. reflexivity.
  - inversion Hk; subst w'.
    split; [|split; [exact F | discriminate]].
    rewrite S1, S0, <- !app_assoc, app_nil_r. reflexivity.
Qed.
End SingleDayExisting.

Lemma today_reconcile_existing_day_witness :
  let items := [Examples.stale; Examples.good; Examples.stray] in
  let w := Examples.world_of items [] in
  let w' := snd (Today.reconcile_beeminder_with_sot (P := Reference.platform)
                   Examples.live "20250101" 0 w) in
  DRY_RUN Examples.live = false
  /\ truthy (AUTH_TOKEN Examples.live) = true
  /\ Today.sort_todays (Today.on_day "20250101" items)
     = Ok [Examples.good; Examples.stale]
  /\ Today.reconcile_beeminder_with_sot (P := Reference.platform)
       Examples.live "20250101" 0 w = (Ok tt, w')
  /\ sent w' = [GET WAKEANDFOCUS_GOAL None 100;
                DELETE WAKEANDFOCUS_GOAL "b";
                PUT WAKEANDFOCUS_GOAL "a" 0 (comment_ok 0 "20250101") None].
Proof.
  intros items w w'.
  assert (H0 : DRY_RUN Examples.live = false) by reflexivity.
  assert (H1 : truthy (AUTH_TOKEN Examples.live) = true) by reflexivity.
  assert (H2 : Today.sort_todays (Today.on_day "20250101" items)
               = Ok [Examples.good; Examples.stale]) by (vm_compute; reflexivity).
  assert (H3 : Today.reconcile_beeminder_with_sot (P := Reference.platform)
                 Examples.live "20250101" 0 w = (Ok tt, w'))
    by (vm_compute; reflexivity).
  split; [exact H0|]. split; [exact H1|]. split; [exact H2|]. split; [exact H3|].
  rewrite (proj1 (today_reconcile_existing_day
                    (P := Reference.platform) Examples.live H0 "20250101" 0 w w'
                    (Beeminder.reply 200 "" (JArray items)) (remote w) items
                    Examples.good [Examples.stale] H1 eq_refl eq_refl eq_refl H2 H3)).
  vm_compute. reflexivity.
Defined.

(** ** The rule for one day, end to end *)

(** X19.  A day's outcome is 1 exactly when one of its records has a comment
    that matches the pattern with a length of at least 50 minutes and a
    start time, with a minute in 0..59, from 00:00 up to 555 minutes
    (09:15) after midnight: the parser's bounds and the cutoff leave no
    other lower limit on the start. *)
Theorem day_qualifies_iff_session_in_window {P : Platform} (dps : list datapoint) :
  Sync.day_value dps = 1 <->
  exists dp minutes hour minute,
    In dp dps
    /\ comment_re_groups (or_empty (dp_comment dp)) = Some (minutes, hour, minute)
    /\ 50 <= minutes /\ 0 <= hour /\ 0 <= minute <= 59
    /\ 60 * hour + minute <= 555.
Proof.
  rewrite (proj1 (day_value_spec dps)). split.
  - intros (dp & I & m & h & mi & E & M & T).
    apply parse_comment_in_range in E. destruct E as (E & Hh & Hm).
    exists dp, m, h, mi. repeat split; try assumption; lia.
  - intros (dp & m & h & mi & I & E & M & Hh & Hm & T).
    exists dp. split; [exact I|]. exists m, h, mi.
    split; [|split; [exact M | lia]].
    apply parse_comment_in_range. repeat split; try assumption; lia.
Qed.
